(** * The external-tool lifecycle manager of the Syft / Grype extension

    A shallow embedding of the backend services of the extension
    ([AnchoreCliService], [SyftService], [GrypeService] and the
    [GrypeOutputSchema]) together with the properties of the
    specification that concern them.

    Strings are [string] (sequences of bytes, the UTF-8 encoding of
    the JavaScript string); every literal that the services inspect is
    plain ASCII, so byte positions and UTF-16 code unit positions agree
    on the prefixes and suffixes tested below.  Where the code looks
    into text it received ([trim], [split] on white space, [slice(1)]),
    the model is exact on ASCII text, and the properties that depend on
    it say so ([Js.ascii_only], [Js.ascii_head]).
    Asynchronous code is a single await chain and is modelled as
    sequential state passing over a [state] that holds the file system,
    the service fields and the trace of calls made to the collaborators
    (process executor, file system, release API, host window). *)

From Stdlib Require Import String Ascii ZArith Lia Bool.
From stdpp Require Import base option list gmap strings.

Local Open Scope string_scope.
Local Open Scope Z_scope.
Local Open Scope list_scope.

(** ** JavaScript string and array primitives used by the services *)

Module Js.

(** [s.startsWith(p)] *)
Definition startsWith (s p : string) : bool := String.prefix p s.

(** [s.substring(n)] with a single argument: drops the first [n]
    characters (the whole string when it is shorter). *)
Fixpoint substring (n : nat) (s : string) : string :=
  match n, s with
  | O, _ => s
  | S n', String _ s' => substring n' s'
  | S _, EmptyString => EmptyString
  end.

(** [s.slice(1)] on a string is [substring 1]: it drops the first byte,
    which is the first UTF-16 code unit when the string starts with an
    ASCII character ([ascii_head] below). *)
Definition slice1 (s : string) : string := substring 1 s.

(** [s.endsWith(p)] *)
Definition endsWith (s p : string) : bool :=
  String.eqb (substring (String.length s - String.length p) s) p.

(** White space recognised by [trim] and by the regular expression
    class [\s], restricted to ASCII: tab, line feed, vertical tab, form
    feed, carriage return and space.  JavaScript also counts U+00A0,
    U+FEFF, U+2028, U+2029 and the Unicode space separators, none of
    which occurs in ASCII text ([ascii_only] below). *)
Definition is_space (c : ascii) : bool :=
  let n := nat_of_ascii c in
  ((9 <=? n)%nat && (n <=? 13)%nat) || (n =? 32)%nat.

Fixpoint trimStart (s : string) : string :=
  match s with
  | String c s' => if is_space c then trimStart s' else s
  | EmptyString => EmptyString
  end.

Fixpoint rev_string (acc s : string) : string :=
  match s with
  | EmptyString => acc
  | String c s' => rev_string (String c acc) s'
  end.

Definition trimEnd (s : string) : string :=
  rev_string "" (trimStart (rev_string "" s)).

(** [s.trim()] *)
Definition trim (s : string) : string := trimEnd (trimStart s).

(** [s.split(/\s+/)]: the pieces between maximal runs of white space.
    [cur] is the piece being read, reversed; [in_ws] tells that the
    previous character belonged to a separator. *)
Fixpoint split_ws_aux (cur : string) (in_ws : bool) (s : string) : list string :=
  match s with
  | EmptyString => [rev_string "" cur]
  | String c s' =>
      if is_space c then
        if in_ws then split_ws_aux cur true s'
        else rev_string "" cur :: split_ws_aux "" true s'
      else split_ws_aux (String c cur) false s'
  end.

Definition split_ws (s : string) : list string := split_ws_aux "" false s.

(** [s.split(sep)] for a one-character separator. *)
Fixpoint split_char_aux (sep : ascii) (cur : string) (s : string) : list string :=
  match s with
  | EmptyString => [rev_string "" cur]
  | String c s' =>
      if Ascii.eqb c sep then rev_string "" cur :: split_char_aux sep "" s'
      else split_char_aux sep (String c cur) s'
  end.

Definition split_char (sep : ascii) (s : string) : list string :=
  split_char_aux sep "" s.

(** [s.toLowerCase()] on ASCII letters. *)
Definition lower_ascii (c : ascii) : ascii :=
  let n := nat_of_ascii c in
  if ((65 <=? n)%nat && (n <=? 90)%nat) then ascii_of_nat (n + 32) else c.

Fixpoint toLowerCase (s : string) : string :=
  match s with
  | EmptyString => EmptyString
  | String c s' => String (lower_ascii c) (toLowerCase s')
  end.

(** JavaScript truthiness of a [string | undefined] value: [undefined]
    and the empty string are falsy. *)
Definition truthy (o : option string) : bool :=
  match o with
  | Some s => negb (String.eqb s "")
  | None => false
  end.

(** [arr.slice(start, end)] for integer bounds (ECMAScript
    Array.prototype.slice): a negative bound counts from the end, and
    both bounds are clamped to the array. *)
Definition clamp_index (len i : Z) : Z :=
  if i <? 0 then Z.max (len + i) 0 else Z.min i len.

Definition slice {A} (l : list A) (start stop : Z) : list A :=
  let len := Z.of_nat (length l) in
  let k := clamp_index len start in
  let final := clamp_index len stop in
  take (Z.to_nat (Z.max (final - k) 0)) (drop (Z.to_nat k) l).

(** ASCII text.  On a string made of ASCII characters a byte is a
    UTF-16 code unit and [is_space] is all the white space JavaScript
    knows, so [trim] and [split_ws] compute what [trim()] and
    [split(/\s+/)] do.  On a string that starts with an ASCII character
    (or is empty) [slice1] computes what [slice(1)] does. *)
Definition is_ascii (c : ascii) : bool := (nat_of_ascii c <? 128)%nat.


Definition ascii_head (s : string) : bool :=
  match s with
  | EmptyString => true
  | String c _ => is_ascii c
  end.

End Js.

(** ** Data model *)

(** JSON values as produced by [JSON.parse].  Numbers are never
    inspected by the services and keep their literal text; an object is
    the list of its properties, looked up by key. *)
#[warnings="-register-all"] Inductive json :=
| JNull
| JBool (b : bool)
| JNum (literal : string)
| JStr (s : string)
| JArr (items : list json)
| JObj (props : list (string * json)).

(** What a rejected promise or a [throw] carries. *)
Inductive error :=
| Error (message : string)      (* [new Error(message)] *)
| ZodError                      (* thrown by a zod schema's [parse] *)
| HostError (code : string).    (* rejection raised by a collaborator *)

Inductive result (A : Type) :=
| Ok (a : A)
| Err (e : error).
Arguments Ok {A} a.
Arguments Err {A} e.

(** A release as returned by the upstream release API. *)
Record Release := {
  release_id : Z;
  release_name : option string;      (* [name] may be null *)
  tag_name : string;
  prerelease : bool
}.

Record Asset := { asset_id : Z; asset_name : string }.

Record GithubReleaseMetadata := {
  label : string;
  tag : string;
  id : Z
}.

(** The fields of the host's [CliTool] that the services read. *)
Record CliTool := {
  tool_name : string;
  version : option string;
  path : option string
}.

Record ContainerConnection := {
  conn_type : string;
  conn_name : string
}.

Record ProviderContainerConnection := {
  providerId : string;
  connection : ContainerConnection
}.

Record PodmanConnection := {
  Name : string;
  URI : string;
  Identity : option string
}.

(** What a concrete tool supplies to [AnchoreCliService]. *)
Record Tool := {
  toolId : string;
  displayName : string;
  markdownDescription : string;
  repoName : string;
  icon : string
}.

Inductive archive := Zip | TarGz.

(** Calls made to the collaborators, in the order they are made. *)
Inductive event :=
| EvExistsSync (p : string)
| EvMkdir (p : string)
| EvRename (src dst : string)
| EvRm (p : string)
| EvReadFile (p : string)
| EvWriteFile (p : string)
| EvChmod (p : string) (mode : Z)
| EvExec (binary : string) (args : list string) (env : option (list (string * string)))
| EvListReleases (owner repo : string)
| EvListReleaseAssets (owner repo : string) (release : Z)
| EvGetReleaseAsset (owner repo : string) (asset : Z)
| EvShowQuickPick (items : list GithubReleaseMetadata) (placeHolder : string)
| EvUnpack (kind : archive) (file dest : string)
| EvFindPodmanConnection (c : ProviderContainerConnection)
| EvWithProgress (title : string)
| EvCreateCliTool (t : CliTool)
| EvRegisterInstaller
| EvUpdateVersion (v p : string)
| EvLog (msg : string)
| EvWarn (msg : string).

(** The environment of a service: its injected dependencies and the
    behaviour of the collaborators.  Nothing is assumed about them. *)
Record host := {
  storagePath : string;
  isWindows : bool;
  isLinux : bool;
  nodePlatform : string;              (* [process.platform] *)
  nodeArch : string;                  (* [process.arch] *)
  join : list string -> string;       (* [path.join] *)
  dirname : string -> string;         (* [path.dirname] *)
  basename : string -> string;        (* [path.basename] *)
  (* an external binary: its outcome and what it leaves on disk *)
  run_binary : string -> list string -> option (list (string * string)) ->
               gmap string string -> result string * gmap string string;
  (* whether a file-system call is refused by the operating system *)
  io_error : event -> option error;
  listReleases_response : string -> string -> result (list Release);
  listReleaseAssets_response : string -> string -> Z -> result (list Asset);
  getReleaseAsset_response : string -> string -> Z -> result string;
  quickPick_choice : list GithubReleaseMetadata -> option GithubReleaseMetadata;
  unpack : archive -> string -> string ->
           gmap string string -> result unit * gmap string string;
  podman_lookup : ProviderContainerConnection -> result (option PodmanConnection);
  JSON_parse : string -> result json
}.

(** The file system, the fields of one service instance and the trace. *)
Record state := {
  fs : gmap string string;            (* regular files and their content *)
  dirs : gset string;                 (* directories *)
  trace : list event;                 (* oldest first *)
  cliTool : option CliTool;           (* [this.cliTool] *)
  probed : option string;             (* [version] captured by the installer *)
  selected : option GithubReleaseMetadata  (* [selected] of the installer *)
}.

(** ** A state and error monad for the await chains *)

Definition M (A : Type) : Type := state -> result A * state.

Definition ret {A} (a : A) : M A := fun st => (Ok a, st).

Definition throw {A} (e : error) : M A := fun st => (Err e, st).

Definition bind {A B} (m : M A) (k : A -> M B) : M B :=
  fun st =>
    match m st with
    | (Ok a, st') => k a st'
    | (Err e, st') => (Err e, st')
    end.

Notation "x <- m ;; k" := (bind m (fun x => k))
  (at level 100, m at next level, right associativity).
Notation "m ;;; k" := (bind m (fun _ => k))
  (at level 100, right associativity).

(** [try { body } catch (err) { handler(err) }] *)
Definition try_catch {A} (body : M A) (handler : error -> M A) : M A :=
  fun st =>
    match body st with
    | (Ok a, st') => (Ok a, st')
    | (Err e, st') => handler e st'
    end.

(** [try { body } finally { fin }]: [fin] always runs; its own failure
    replaces the outcome of [body]. *)
Definition try_finally {A} (body : M A) (fin : M unit) : M A :=
  fun st =>
    match body st with
    | (r, st') =>
        match fin st' with
        | (Ok _, st'') => (r, st'')
        | (Err e, st'') => (Err e, st'')
        end
    end.

Definition emit (ev : event) : M unit :=
  fun st => (Ok tt, {| fs := fs st; dirs := dirs st; trace := trace st ++ [ev];
                       cliTool := cliTool st; probed := probed st;
                       selected := selected st |}).

Definition set_fs (f : gmap string string) : M unit :=
  fun st => (Ok tt, {| fs := f; dirs := dirs st; trace := trace st;
                       cliTool := cliTool st; probed := probed st;
                       selected := selected st |}).

Definition add_dir (p : string) : M unit :=
  fun st => (Ok tt, {| fs := fs st; dirs := {[p]} ∪ dirs st; trace := trace st;
                       cliTool := cliTool st; probed := probed st;
                       selected := selected st |}).

Definition set_cliTool (t : option CliTool) : M unit :=
  fun st => (Ok tt, {| fs := fs st; dirs := dirs st; trace := trace st;
                       cliTool := t; probed := probed st;
                       selected := selected st |}).

Definition set_probed (v : option string) : M unit :=
  fun st => (Ok tt, {| fs := fs st; dirs := dirs st; trace := trace st;
                       cliTool := cliTool st; probed := v;
                       selected := selected st |}).

Definition set_selected (s : option GithubReleaseMetadata) : M unit :=
  fun st => (Ok tt, {| fs := fs st; dirs := dirs st; trace := trace st;
                       cliTool := cliTool st; probed := probed st;
                       selected := s |}).

Definition gets {A} (f : state -> A) : M A := fun st => (Ok (f st), st).

Definition lift {A} (r : result A) : M A := fun st => (r, st).

(** The operating system's verdict on a call, then the call itself. *)
Definition guarded {A} (h : host) (ev : event) (k : M A) : M A :=
  emit ev ;;;
  match io_error h ev with
  | Some e => throw e
  | None => k
  end.

Definition ENOENT : error := HostError "ENOENT".

(** ** Collaborators: file system, process executor, release API, window *)

(** Whether [p] names a regular file or a directory of [st]. *)
Definition present (st : state) (p : string) : bool :=
  bool_decide (is_Some (fs st !! p)) || bool_decide (p ∈ dirs st).
Arguments present : simpl never.

Section Primitives.
Variable h : host.

(** [existsSync(p)]: true for a regular file and for a directory. *)
Definition existsSync (p : string) : M bool :=
  emit (EvExistsSync p) ;;;
  gets (fun st => present st p).

(** [mkdir(p, { recursive: true })]; only the leaf is recorded. *)
Definition mkdir (p : string) : M unit :=
  guarded h (EvMkdir p) (add_dir p).

Definition rename (src dst : string) : M unit :=
  guarded h (EvRename src dst)
    (f <- gets fs ;;
     match f !! src with
     | Some content => set_fs (<[dst := content]> (delete src f))
     | None => throw ENOENT
     end).

Definition rm (p : string) : M unit :=
  guarded h (EvRm p)
    (f <- gets fs ;;
     match f !! p with
     | Some _ => set_fs (delete p f)
     | None => throw ENOENT
     end).

Definition readFile (p : string) : M string :=
  guarded h (EvReadFile p)
    (f <- gets fs ;;
     match f !! p with
     | Some content => ret content
     | None => throw ENOENT
     end).

Definition writeFile (p data : string) : M unit :=
  guarded h (EvWriteFile p)
    (f <- gets fs ;; set_fs (<[p := data]> f)).

Definition chmod (p : string) (mode : Z) : M unit :=
  guarded h (EvChmod p mode)
    (f <- gets fs ;;
     match f !! p with
     | Some _ => ret tt
     | None => throw ENOENT
     end).

(** [process.exec(binary, args, options)], resolving to its stdout. *)
Definition exec (binary : string) (args : list string)
    (env : option (list (string * string))) : M string :=
  emit (EvExec binary args env) ;;;
  f <- gets fs ;;
  set_fs (run_binary h binary args env f).2 ;;;
  lift (run_binary h binary args env f).1.

(** [AdmZip.extractAllTo] and [tar.x] *)
Definition unpackArchive (kind : archive) (file dest : string) : M unit :=
  emit (EvUnpack kind file dest) ;;;
  f <- gets fs ;;
  set_fs (unpack h kind file dest f).2 ;;;
  lift (unpack h kind file dest f).1.

Definition octokit_listReleases (owner repo : string) : M (list Release) :=
  emit (EvListReleases owner repo) ;;;
  lift (listReleases_response h owner repo).

Definition octokit_listReleaseAssets (owner repo : string) (release : Z)
    : M (list Asset) :=
  emit (EvListReleaseAssets owner repo release) ;;;
  lift (listReleaseAssets_response h owner repo release).

Definition octokit_getReleaseAsset (owner repo : string) (asset : Z) : M string :=
  emit (EvGetReleaseAsset owner repo asset) ;;;
  lift (getReleaseAsset_response h owner repo asset).

Definition showQuickPick (items : list GithubReleaseMetadata) (placeHolder : string)
    : M (option GithubReleaseMetadata) :=
  emit (EvShowQuickPick items placeHolder) ;;;
  ret (quickPick_choice h items).

(** [window.withProgress(options, task)] runs the task. *)
Definition withProgress {A} (title : string) (task : M A) : M A :=
  emit (EvWithProgress title) ;;; task.

Definition findPodmanConnection (c : ProviderContainerConnection)
    : M (option PodmanConnection) :=
  emit (EvFindPodmanConnection c) ;;;
  lift (podman_lookup h c).

Definition createCliTool (t : CliTool) : M unit :=
  emit (EvCreateCliTool t) ;;; set_cliTool (Some t).

(** [this.cliTool?.updateVersion({ version, path, ... })] *)
Definition updateVersion (v p : string) : M unit :=
  c <- gets cliTool ;;
  match c with
  | Some t =>
      emit (EvUpdateVersion v p) ;;;
      set_cliTool (Some {| tool_name := tool_name t; version := Some v; path := Some p |})
  | None => ret tt
  end.

End Primitives.

(** ** [AnchoreCliService] *)

Definition ANCHORE_GITHUB_ORG : string := "anchore".

Section AnchoreCliService.
Variable h : host.
Variable t : Tool.

Definition storageDir : string := join h [storagePath h; toolId t].

Definition binaryBaseName : string := toolId t.

Definition binaryPath : string :=
  join h [storageDir;
          if isWindows h then binaryBaseName +:+ ".exe" else binaryBaseName].

(** [const [, version] = text.split(/\s+/); return version ?? text;] *)
Definition getInstalledVersion : M string :=
  stdout <- exec h binaryPath ["--version"] None ;;
  let text := Js.trim stdout in
  ret (match Js.split_ws text with
       | _ :: version :: _ => version
       | _ => text
       end).

Definition getAssetName (version : string) : string :=
  let platform := nodePlatform h in
  let '(os, extension) :=
    if String.eqb platform "win32" then ("windows", "zip")
    else if String.eqb platform "darwin" then ("darwin", "tar.gz")
    else ("linux", "tar.gz") in
  let arch := nodeArch h in
  let architecture :=
    if String.eqb arch "x64" then "amd64"
    else if String.eqb arch "arm64" then "arm64"
    else if String.eqb arch "ppc64" then "ppc64le"
    else if String.eqb arch "s390x" then "s390x"
    else arch in
  binaryBaseName +:+ "_" +:+ version +:+ "_" +:+ os +:+ "_" +:+ architecture
    +:+ "." +:+ extension.

Definition toMetadata (release : Release) : GithubReleaseMetadata :=
  {| label := default (tag_name release) (release_name release);
     tag := tag_name release;
     id := release_id release |}.

(** The array manipulation of [listReleases], after the fetch. *)
Definition selectReleases (limits : Z) (data : list Release)
    : list GithubReleaseMetadata :=
  let data := List.filter (fun release => negb (prerelease release)) data in
  let data :=
    if Z.of_nat (length data) >? limits then Js.slice data 0 limits else data in
  map toMetadata data.

(** [listReleases(limits = 10)]; [None] is an omitted argument. *)
Definition listReleases (limits : option Z) : M (list GithubReleaseMetadata) :=
  lastReleases <- octokit_listReleases h ANCHORE_GITHUB_ORG (repoName t) ;;
  ret (selectReleases (default 10 limits) lastReleases).

Definition promptUserForVersion (currentTagVersion : option string)
    : M GithubReleaseMetadata :=
  lastReleasesMetadata <- listReleases None ;;
  let lastReleasesMetadata :=
    match currentTagVersion with
    | Some current =>
        if Js.truthy currentTagVersion
        then List.filter (fun release => negb (String.eqb (tag release) current))
               lastReleasesMetadata
        else lastReleasesMetadata
    | None => lastReleasesMetadata
    end in
  selectedRelease <- showQuickPick h lastReleasesMetadata
                       ("Select " +:+ displayName t +:+ " version to download") ;;
  match selectedRelease with
  | Some release => ret release
  | None => throw (Error "No version selected")
  end.

Definition download (release : GithubReleaseMetadata) : M string :=
  data <- octokit_listReleaseAssets h ANCHORE_GITHUB_ORG (repoName t) (id release) ;;
  let assetName := getAssetName (Js.slice1 (tag release)) in
  match List.find (fun a => String.eqb assetName (asset_name a)) data with
  | None => throw (Error ("asset " +:+ assetName +:+ " not found"))
  | Some asset =>
      response <- octokit_getReleaseAsset h ANCHORE_GITHUB_ORG (repoName t)
                    (asset_id asset) ;;
      mkdir h storageDir ;;;
      let destination := join h [storageDir; asset_name asset] in
      writeFile h destination response ;;;
      ret destination
  end.

Definition extract (archivePath destDir : string) : M string :=
  (if Js.endsWith archivePath ".zip" then unpackArchive h Zip archivePath destDir
   else if Js.endsWith archivePath ".tar.gz"
        then unpackArchive h TarGz archivePath destDir
        else throw (Error ("Unsupported archive format: " +:+ archivePath))) ;;;
  let binaryName :=
    if isWindows h then binaryBaseName +:+ ".exe" else binaryBaseName in
  let binaryPath := join h [destDir; binaryName] in
  (if negb (isWindows h) then chmod h binaryPath 493 (* 0o755 *) else ret tt) ;;;
  ret binaryPath.

Definition init : M unit :=
  present <- existsSync binaryPath ;;
  version <-
    (if present then
       try_catch (v <- getInstalledVersion ;; ret (Some v))
         (fun _ => emit (EvWarn "Unable to determine installed version") ;;;
                   ret None)
     else ret None) ;;
  mkdir h storageDir ;;;
  createCliTool {| tool_name := toolId t;
                   version := version;
                   path := if Js.truthy version then Some binaryPath else None |} ;;;
  set_probed version ;;;
  set_selected None ;;;
  emit EvRegisterInstaller.

(** The installer registered by [init]. *)

Definition doUninstall : M unit := throw (Error "Not implemented").

(** What [doInstall] does once the archive is on disk. *)
Definition install_archive (selected : GithubReleaseMetadata) (assetPath : string)
    : M unit :=
  binPath <- extract assetPath storageDir ;;
  emit (EvLog ("Extracted " +:+ toolId t +:+ " to " +:+ binPath)) ;;;
  updateVersion (Js.slice1 (tag selected)) binPath.

Definition doInstall : M unit :=
  chosen <- gets selected ;;
  match chosen with
  | None => throw (Error "No version selected")
  | Some selected =>
      assetPath <- download selected ;;
      emit (EvLog ("Downloaded " +:+ toolId t +:+ " to " +:+ assetPath)) ;;;
      try_finally (install_archive selected assetPath)
        (try_catch (rm h assetPath) (fun _ => ret tt))
  end.

Definition selectVersion : M string :=
  current <- gets probed ;;
  chosen <- promptUserForVersion
              (match current with
               | Some v => if Js.truthy current then Some ("v" +:+ v) else None
               | None => None
               end) ;;
  set_selected (Some chosen) ;;;
  ret (Js.slice1 (tag chosen)).

End AnchoreCliService.

(** ** The result schema of the vulnerability scanner *)

Definition rbind {A B} (r : result A) (k : A -> result B) : result B :=
  match r with
  | Ok a => k a
  | Err e => Err e
  end.

Notation "'let?' x := r 'in' k" := (rbind r (fun x => k))
  (at level 100, x name, r at next level, right associativity).

(** The combinators of the zod library that the schema uses.  A schema
    reads a value that may be [undefined] ([None]: an absent property)
    and either yields the parsed output or throws. *)
Module Zod.

Definition schema (A : Type) : Type := option json -> result A.

(** [z.string()] *)
Definition string : schema String.string :=
  fun v => match v with
           | Some (JStr s) => Ok s
           | _ => Err ZodError
           end.

(** [z.enum(values)] *)
Definition enum (values : list String.string) : schema String.string :=
  fun v => match v with
           | Some (JStr s) =>
               if existsb (String.eqb s) values then Ok s else Err ZodError
           | _ => Err ZodError
           end.

(** [schema.transform(f)] *)
Definition transform {A B} (s : schema A) (f : A -> B) : schema B :=
  fun v => let? a := s v in Ok (f a).

(** [schema.optional()] *)
Definition optional {A} (s : schema A) : schema (option A) :=
  fun v => match v with
           | None => Ok None
           | Some _ => let? a := s v in Ok (Some a)
           end.

Fixpoint each {A} (s : schema A) (items : list json) : result (list A) :=
  match items with
  | [] => Ok []
  | item :: rest =>
      let? a := s (Some item) in
      let? others := each s rest in
      Ok (a :: others)
  end.

(** [z.array(schema)] *)
Definition array {A} (s : schema A) : schema (list A) :=
  fun v => match v with
           | Some (JArr items) => each s items
           | _ => Err ZodError
           end.

(** The value of property [key] of an object, [None] when absent. *)
Fixpoint prop (key : String.string) (props : list (String.string * json))
    : option json :=
  match props with
  | [] => None
  | (k, v) :: rest => if String.eqb k key then Some v else prop key rest
  end.

(** [z.object(shape)]: the input must be an object; [shape] parses the
    declared properties and drops the others. *)
Definition object {A} (shape : list (String.string * json) -> result A)
    : schema A :=
  fun v => match v with
           | Some (JObj props) => shape props
           | _ => Err ZodError
           end.

End Zod.

Record Vulnerability := {
  vuln_id : string;
  severity : string;
  description : option string
}.

Record Match := { vulnerability : Vulnerability }.

Record GrypeOutput := { matches : list Match }.

Definition SeveritySchema : Zod.schema string :=
  Zod.transform (Zod.enum ["High"; "Medium"; "Critical"; "Low"]) Js.toLowerCase.

Definition VulnerabilitySchema : Zod.schema Vulnerability :=
  Zod.object (fun props =>
    let? i := Zod.string (Zod.prop "id" props) in
    let? s := SeveritySchema (Zod.prop "severity" props) in
    let? d := Zod.optional Zod.string (Zod.prop "description" props) in
    Ok {| vuln_id := i; severity := s; description := d |}).

Definition MatchSchema : Zod.schema Match :=
  Zod.object (fun props =>
    let? v := VulnerabilitySchema (Zod.prop "vulnerability" props) in
    Ok {| vulnerability := v |}).

Definition GrypeOutputSchema : Zod.schema GrypeOutput :=
  Zod.object (fun props =>
    let? ms := Zod.array MatchSchema (Zod.prop "matches" props) in
    Ok {| matches := ms |}).

(** [GrypeOutputSchema.parse(value)] *)
Definition GrypeOutputSchema_parse (value : json) : result GrypeOutput :=
  GrypeOutputSchema (Some value).

(** ** The scan invokers *)

(** [!this.cliTool?.version || !this.cliTool.path] fails: the binary. *)
Definition installedBinary (c : option CliTool) : option string :=
  match c with
  | Some tool =>
      if Js.truthy (version tool) && Js.truthy (path tool) then path tool else None
  | None => None
  end.

Module SyftService.

Definition tool : Tool :=
  {| toolId := "syft";
     displayName := "Syft";
     markdownDescription :=
       "Syft is a powerful open-source tool for generating Software Bills of Materials (SBOMs).";
     repoName := "syft";
     icon := "syft.png" |}.

Definition sanitizeImageId (imageId : string) : string :=
  if Js.startsWith imageId "sha256:" then Js.substring 7 imageId else imageId.

Record options := {
  opt_connection : ProviderContainerConnection;
  opt_imageId : string
}.

Section Analyse.
Variable h : host.

(** The destination computed by [analyse]. *)
Definition destination (o : options) : string :=
  let imageId := sanitizeImageId (opt_imageId o) in
  join h [storagePath h;
          providerId (opt_connection o);
          conn_name (connection (opt_connection o));
          imageId +:+ ".jsonpow"].

(** The task run under the progress indicator on a cache miss. *)
Definition scan (binary : string) (o : options) (destination : string)
    : M string :=
  found <- findPodmanConnection h (opt_connection o) ;;
  (if match found with None => negb (isLinux h) | Some _ => false end
   then throw (Error "podman connection not found") else ret tt) ;;;
  env <-
    match found with
    | Some c =>
        (* only support SSH *)
        if negb (Js.startsWith (URI c) "ssh:")
        then throw (Error "do not support non-SSH connections")
        else ret (("CONTAINER_HOST", URI c) ::
                  match Identity c with
                  | Some key =>
                      if Js.truthy (Identity c)
                      then [("CONTAINER_SSHKEY", key)] else []
                  | None => []
                  end)
    | None => ret []
    end ;;
  mkdir h (dirname h destination) ;;;
  let tmp := destination +:+ ".tmp" in
  exec h binary ["--from=podman"; opt_imageId o; "--output=json=" +:+ tmp]
    (Some env) ;;;
  rename h tmp destination ;;;
  ret destination.

Definition analyse (o : options) : M string :=
  c <- gets cliTool ;;
  match installedBinary c with
  | None => throw (Error "cannot analyse image without syft binary installed")
  | Some binary =>
      if negb (String.eqb (conn_type (connection (opt_connection o))) "podman")
      then throw (Error "extension only supported podman connection")
      else
        let imageId := sanitizeImageId (opt_imageId o) in
        let destination := destination o in
        (* shortcut everything if we have already done the scanning *)
        cached <- existsSync destination ;;
        if cached then ret destination
        else withProgress ("Scanning " +:+ imageId) (scan binary o destination)
  end.

End Analyse.

End SyftService.

Module GrypeService.

Definition tool : Tool :=
  {| toolId := "grype";
     displayName := "Grype";
     markdownDescription :=
       "Grype is a vulnerability scanner for container images and filesystems.";
     repoName := "grype";
     icon := "icon.png" |}.

Section Analyse.
Variable h : host.

(** [const [name] = basename(sbom).split('.')], then
    [join(dir, `${name}.json`)]. *)
Definition destination (sbom : string) : string :=
  let dir := dirname h sbom in
  let name :=
    match Js.split_char "." (basename h sbom) with
    | name :: _ => name
    | [] => "undefined"
    end in
  join h [dir; name +:+ ".json"].

Definition readResult (file : string) : M GrypeOutput :=
  data <- readFile h file ;;
  value <- lift (JSON_parse h data) ;;
  lift (GrypeOutputSchema_parse value).

Definition analyse (sbom : string) : M GrypeOutput :=
  c <- gets cliTool ;;
  match installedBinary c with
  | None => throw (Error "cannot analyse image without syft binary installed")
  | Some binary =>
      present <- existsSync sbom ;;
      if negb present then throw (Error "cannot analyse image without sbom file")
      else
        let destination := destination sbom in
        cached <- existsSync destination ;;
        if cached then readResult destination
        else
          exec h binary ["sbom:" +:+ sbom; "--output=json"; "--file=" +:+ destination]
            None ;;;
          readResult destination
  end.

End Analyse.

End GrypeService.

(** ** A concrete host for running the services on examples

    Paths are POSIX paths without [.], [..] or repeated separators; on
    those the three path functions below agree with [node:path]. *)

Module Sample.

Definition posix_join (parts : list string) : string := String.concat "/" parts.

Definition posix_dirname (p : string) : string :=
  String.concat "/" (removelast (Js.split_char "/" p)).

Definition posix_basename (p : string) : string := List.last (Js.split_char "/" p) "".

(** The text of a scanner report without matches: an object whose one
    property, matches, is the empty array. *)
Definition quote : string := String (ascii_of_nat 34) EmptyString.

Definition empty_report : string := "{" +:+ quote +:+ "matches" +:+ quote +:+ ":[]}".

(** [JSON.parse] on the two documents used below. *)
Definition parse_sample_document (data : string) : result json :=
  if String.eqb data empty_report then Ok (JObj [("matches", JArr [])])
  else if String.eqb data "{}" then Ok (JObj [])
  else Err (HostError "SyntaxError").

(** A host whose binaries all behave as [run] and whose release API
    serves [releases]. *)
Definition host_with
    (run : string -> list string -> option (list (string * string)) ->
           gmap string string -> result string * gmap string string)
    (releases : list Release) : host :=
  {| storagePath := "/storage";
     isWindows := false;
     isLinux := true;
     nodePlatform := "linux";
     nodeArch := "x64";
     join := posix_join;
     dirname := posix_dirname;
     basename := posix_basename;
     run_binary := run;
     io_error := fun _ => None;
     listReleases_response := fun _ _ => Ok releases;
     listReleaseAssets_response := fun _ _ _ =>
       Ok [{| asset_id := 7; asset_name := "syft_1.41.2_linux_amd64.tar.gz" |}];
     getReleaseAsset_response := fun _ _ _ => Ok "archive-bytes";
     quickPick_choice := fun items => head items;
     unpack := fun _ _ _ f => (Err (HostError "corrupt archive"), f);
     podman_lookup := fun _ => Ok None;
     JSON_parse := parse_sample_document |}.

(** A binary that prints [out] and touches nothing. *)
Definition prints (out : string) :
    string -> list string -> option (list (string * string)) ->
    gmap string string -> result string * gmap string string :=
  fun _ _ _ f => (Ok out, f).

(** The file named by [--output=json=<file>] or [--file=<file>]. *)
Definition output_of (args : list string) : option string :=
  match List.find (fun a => Js.startsWith a "--output=json=") args with
  | Some a => Some (Js.substring 14 a)
  | None =>
      match List.find (fun a => Js.startsWith a "--file=") args with
      | Some a => Some (Js.substring 7 a)
      | None => None
      end
  end.

(** A scanner that writes [document] to the file it is given. *)
Definition scanner (document : string) :
    string -> list string -> option (list (string * string)) ->
    gmap string string -> result string * gmap string string :=
  fun _ args _ f =>
    match output_of args with
    | Some file => (Ok "", <[file := document]> f)
    | None => (Ok document, f)
    end.

(** A binary that cannot be started. *)
Definition broken :
    string -> list string -> option (list (string * string)) ->
    gmap string string -> result string * gmap string string :=
  fun _ _ _ f => (Err (HostError "EACCES"), f).

Definition linux : host := host_with (prints "syft 1.41.2") [].

Definition installed (name : string) : CliTool :=
  {| tool_name := name; version := Some "1.41.2";
     path := Some ("/storage/" +:+ name +:+ "/" +:+ name) |}.

Definition state_with (files : gmap string string) (c : option CliTool) : state :=
  {| fs := files; dirs := ∅; trace := []; cliTool := c;
     probed := None; selected := None |}.

(** Nothing registered yet, and a syft binary at the conventional path. *)
Definition with_syft_binary : state :=
  state_with {[ "/storage/syft/syft" := "ELF" ]} None.

(** Syft 1.41.2 has been chosen in the installer. *)
Definition with_selection : state :=
  {| fs := ∅; dirs := ∅; trace := []; cliTool := None; probed := None;
     selected := Some {| label := "v1.41.2"; tag := "v1.41.2"; id := 41 |} |}.

Definition machine : ProviderContainerConnection :=
  {| providerId := "podman";
     connection := {| conn_type := "podman"; conn_name := "machine" |} |}.

Definition docker : ProviderContainerConnection :=
  {| providerId := "docker";
     connection := {| conn_type := "docker"; conn_name := "default" |} |}.

End Sample.

(** ** Asset namer *)

(** The naming tables as the specification words them. *)
Module AssetNamerSpec.

Definition os_table : list (string * (string * string)) :=
  [("win32", ("windows", "zip"));
   ("darwin", ("darwin", "tar.gz"));
   ("linux", ("linux", "tar.gz"))].

Definition arch_table : list (string * string) :=
  [("x64", "amd64"); ("arm64", "arm64"); ("ppc64", "ppc64le"); ("s390x", "s390x")].

Fixpoint assoc {V} (key : string) (table : list (string * V)) : option V :=
  match table with
  | [] => None
  | (k, v) :: rest => if String.eqb key k then Some v else assoc key rest
  end.

(** [{tool}_{version}_{os}_{arch}.{ext}] *)
Definition name (tool version platform arch : string) : string :=
  let os_ext := default ("linux", "tar.gz") (assoc platform os_table) in
  let architecture := default arch (assoc arch arch_table) in
  tool +:+ "_" +:+ version +:+ "_" +:+ os_ext.1 +:+ "_" +:+ architecture
    +:+ "." +:+ os_ext.2.

End AssetNamerSpec.

(** ** Vocabulary of the properties *)

(** [st] after the calls [evs] have been recorded. *)
Definition recording (st : state) (evs : list event) : state :=
  {| fs := fs st; dirs := dirs st; trace := trace st ++ evs;
     cliTool := cliTool st; probed := probed st; selected := selected st |}.

(** The string at [vulnerability.id] of a match, when there is one. *)
Definition vulnerability_id (m : json) : option string :=
  match m with
  | JObj props =>
      match Zod.prop "vulnerability" props with
      | Some (JObj vprops) =>
          match Zod.prop "id" vprops with
          | Some (JStr s) => Some s
          | _ => None
          end
      | _ => None
      end
  | _ => None
  end.

(** A scanner report with a single match. *)
Definition report (vulnerability_props : list (string * json)) : json :=
  JObj [("matches", JArr [JObj [("vulnerability", JObj vulnerability_props)]])].

(** [st] with the files [files]. *)
Definition with_files (st : state) (files : gmap string string) : state :=
  {| fs := files; dirs := dirs st; trace := trace st;
     cliTool := cliTool st; probed := probed st; selected := selected st |}.

(** The calls of a complete SBOM scan that misses the cache. *)
Definition syft_scan_calls (h : host) (binary : string) (o : SyftService.options)
    (env : list (string * string)) : list event :=
  let destination := SyftService.destination h o in
  [EvExistsSync destination;
   EvWithProgress ("Scanning " +:+ SyftService.sanitizeImageId (SyftService.opt_imageId o));
   EvFindPodmanConnection (SyftService.opt_connection o);
   EvMkdir (dirname h destination);
   EvExec binary
     ["--from=podman"; SyftService.opt_imageId o;
      "--output=json=" +:+ destination +:+ ".tmp"]
     (Some env);
   EvRename (destination +:+ ".tmp") destination].


(** Some binary was given [file] as the value of a flag, as in
    [--file=<file>] or [--output=json=<file>]. *)
Definition handed_to_binary (file : string) (evs : list event) : bool :=
  existsb (fun ev =>
             match ev with
             | EvExec _ args _ => existsb (fun a => Js.endsWith a ("=" +:+ file)) args
             | _ => false
             end) evs.

(** [file.tmp] was renamed to [file]. *)
Definition renamed_from_tmp (file : string) (evs : list event) : bool :=
  existsb (fun ev =>
             match ev with
             | EvRename src dst => String.eqb src (file +:+ ".tmp") && String.eqb dst file
             | _ => false
             end) evs.

(** The number of runs of an external binary among [evs]. *)
Definition exec_calls (evs : list event) : nat :=
  length (List.filter (fun ev => match ev with EvExec _ _ _ => true | _ => false end) evs).

(** ** Vocabulary of the further properties *)

(** The archive format that [extract] reads off a path. *)
Definition archive_format (archivePath : string) : option archive :=
  if Js.endsWith archivePath ".zip" then Some Zip
  else if Js.endsWith archivePath ".tar.gz" then Some TarGz
  else None.

(** Where [extract] expects the binary once [destDir] is unpacked. *)
Definition extracted_binary (h : host) (t : Tool) (destDir : string) : string :=
  join h [destDir; if isWindows h then toolId t +:+ ".exe" else toolId t].

(** [c] occurs nowhere in [s]. *)
Fixpoint free_of (P : ascii -> bool) (s : string) : bool :=
  match s with
  | EmptyString => true
  | String c s' => negb (P c) && free_of P s'
  end.

(** The releases that [promptUserForVersion] puts in the quick pick. *)
Definition offered_releases (currentTagVersion : option string) (data : list Release)
    : list GithubReleaseMetadata :=
  match currentTagVersion with
  | Some current =>
      if Js.truthy currentTagVersion
      then List.filter (fun release => negb (String.eqb (tag release) current))
             (selectReleases 10 data)
      else selectReleases 10 data
  | None => selectReleases 10 data
  end.

(** A sample host on which archives unpack to a syft binary. *)
Module Fixture.

Definition unpacking : host :=
  {| storagePath := "/storage";
     isWindows := false;
     isLinux := true;
     nodePlatform := "linux";
     nodeArch := "x64";
     join := Sample.posix_join;
     dirname := Sample.posix_dirname;
     basename := Sample.posix_basename;
     run_binary := Sample.prints "syft 1.41.2";
     io_error := fun _ => None;
     listReleases_response := fun _ _ =>
       Ok [{| release_id := 42; release_name := None; tag_name := "v1.42.0";
              prerelease := false |};
           {| release_id := 41; release_name := None; tag_name := "v1.41.2";
              prerelease := false |}];
     listReleaseAssets_response := fun _ _ _ =>
       Ok [{| asset_id := 7; asset_name := "syft_1.41.2_linux_amd64.tar.gz" |}];
     getReleaseAsset_response := fun _ _ _ => Ok "archive-bytes";
     quickPick_choice := fun items => head items;
     unpack := fun _ _ dest f => (Ok tt, <[dest +:+ "/syft" := "ELF"]> f);
     podman_lookup := fun _ => Ok None;
     JSON_parse := Sample.parse_sample_document |}.

(** Syft 1.41.2 chosen in the installer of a registered tool. *)
Definition registered : state :=
  {| fs := ∅; dirs := ∅; trace := [];
     cliTool := Some {| tool_name := "syft"; version := None; path := None |};
     probed := None;
     selected := Some {| label := "v1.41.2"; tag := "v1.41.2"; id := 41 |} |}.

(** Syft 1.41.2 probed at start-up. *)
Definition probed_1_41_2 : state :=
  {| fs := ∅; dirs := ∅; trace := [];
     cliTool := Some (Sample.installed "syft");
     probed := Some "1.41.2";
     selected := None |}.

End Fixture.

(** The [version] that [init] holds once it has looked for the binary:
    the parsed output of [--version] when the binary is there and runs. *)
Definition probe_outcome (h : host) (t : Tool) (st : state) : option string :=
  if present st (binaryPath h t) then
    match (run_binary h (binaryPath h t) ["--version"] None (fs st)).1 with
    | Ok stdout =>
        Some (default (Js.trim stdout) (Js.split_ws (Js.trim stdout) !! 1%nat))
    | Err _ => None
    end
  else None.

(** The state in which [init] reaches the creation of the storage directory. *)
Definition after_probe (h : host) (t : Tool) (st : state) : state :=
  if present st (binaryPath h t) then
    let run := run_binary h (binaryPath h t) ["--version"] None (fs st) in
    with_files
      (recording st
         (EvExistsSync (binaryPath h t) :: EvExec (binaryPath h t) ["--version"] None ::
          match run.1 with
          | Ok _ => []
          | Err _ => [EvWarn "Unable to determine installed version"]
          end))
      run.2
  else recording st [EvExistsSync (binaryPath h t)].

(** What [init] hands to [createCliTool]. *)
Definition registration (h : host) (t : Tool) (st : state) : CliTool :=
  {| tool_name := toolId t;
     version := probe_outcome h t st;
     path := if Js.truthy (probe_outcome h t st) then Some (binaryPath h t) else None |}.

(** The environment that [analyse] builds for the connection found. *)
Definition connection_env (found : option PodmanConnection) : list (string * string) :=
  match found with
  | Some c =>
      ("CONTAINER_HOST", URI c) ::
      match Identity c with
      | Some key => if Js.truthy (Identity c) then [("CONTAINER_SSHKEY", key)] else []
      | None => []
      end
  | None => []
  end.

(** The calls of an SBOM scan up to the lookup of the podman connection. *)
Definition syft_lookup_calls (h : host) (o : SyftService.options) : list event :=
  [EvExistsSync (SyftService.destination h o);
   EvWithProgress ("Scanning " +:+ SyftService.sanitizeImageId (SyftService.opt_imageId o));
   EvFindPodmanConnection (SyftService.opt_connection o)].

Module Remote.

(** The host of [Fixture.unpacking], reaching podman over [uri]. *)
Definition over (uri : string) (key : option string) : host :=
  {| storagePath := "/storage";
     isWindows := false;
     isLinux := false;
     nodePlatform := "darwin";
     nodeArch := "arm64";
     join := Sample.posix_join;
     dirname := Sample.posix_dirname;
     basename := Sample.posix_basename;
     run_binary := Sample.scanner "{}";
     io_error := fun _ => None;
     listReleases_response := fun _ _ => Ok [];
     listReleaseAssets_response := fun _ _ _ => Ok [];
     getReleaseAsset_response := fun _ _ _ => Err (HostError "404");
     quickPick_choice := fun _ => None;
     unpack := fun _ _ _ f => (Ok tt, f);
     podman_lookup := fun _ =>
       Ok (Some {| Name := "machine"; URI := uri; Identity := key |});
     JSON_parse := Sample.parse_sample_document |}.

(** The same machine with no podman connection listed. *)
Definition unlisted : host :=
  {| storagePath := "/storage";
     isWindows := false;
     isLinux := false;
     nodePlatform := "darwin";
     nodeArch := "arm64";
     join := Sample.posix_join;
     dirname := Sample.posix_dirname;
     basename := Sample.posix_basename;
     run_binary := Sample.scanner "{}";
     io_error := fun _ => None;
     listReleases_response := fun _ _ => Ok [];
     listReleaseAssets_response := fun _ _ _ => Ok [];
     getReleaseAsset_response := fun _ _ _ => Err (HostError "404");
     quickPick_choice := fun _ => None;
     unpack := fun _ _ _ f => (Ok tt, f);
     podman_lookup := fun _ => Ok None;
     JSON_parse := Sample.parse_sample_document |}.

Definition image : SyftService.options :=
  {| SyftService.opt_connection := Sample.machine;
     SyftService.opt_imageId := "sha256:abcd1234" |}.

Definition ready : state := Sample.state_with ∅ (Some (Sample.installed "syft")).

End Remote.

(** ** The container engine and the services that query it *)

(** The field of an engine's info that the services read. *)
Record ContainerInfo := { info_engineId : string }.

Record ImageInfo := {
  image_Id : string;
  image_engineId : string;
  RepoTags : option (list string)      (* may be undefined *)
}.

(** The container-engine collaborators: the connections known to the
    provider service, their status, and the engine's answers. *)
Record engine := {
  getContainerConnections : list ProviderContainerConnection;
  status : ContainerConnection -> string;
  listInfos : ContainerConnection -> result (list ContainerInfo);
  listImages : ContainerConnection -> result (list ImageInfo)
}.

Module ContainerService.

(** The loop of [getRunningProviderContainerConnectionByEngineId] over
    the connections still to visit. *)
Fixpoint search (e : engine) (engineId : string)
    (providers : list ProviderContainerConnection)
    : result ProviderContainerConnection :=
  match providers with
  | [] => Err (Error "connection not found")
  | provider :: rest =>
      if negb (String.eqb (status e (connection provider)) "started")
      then search e engineId rest
      else
        match listInfos e (connection provider) with
        | Err err => Err err
        | Ok [] => search e engineId rest
        | Ok (first :: _) =>
            if String.eqb (info_engineId first) engineId then Ok provider
            else search e engineId rest
        end
  end.

Definition getRunningProviderContainerConnectionByEngineId (e : engine)
    (engineId : string) : result ProviderContainerConnection :=
  search e engineId (getContainerConnections e).

End ContainerService.

(** The loop moves past [provider] without an error. *)
Definition passed_over (e : engine) (engineId : string)
    (provider : ProviderContainerConnection) : bool :=
  if String.eqb (status e (connection provider)) "started" then
    match listInfos e (connection provider) with
    | Ok [] => true
    | Ok (first :: _) => negb (String.eqb (info_engineId first) engineId)
    | Err _ => false
    end
  else true.

(** [provider] is started and the first info of its engine has the id. *)
Definition serves (e : engine) (engineId : string)
    (provider : ProviderContainerConnection) : bool :=
  String.eqb (status e (connection provider)) "started"
  && match listInfos e (connection provider) with
     | Ok (first :: _) => String.eqb (info_engineId first) engineId
     | _ => false
     end.

Module ImageService.

Record ProviderContainerConnectionIdentifierInfo := {
  identifier_providerId : string;
  identifier_name : string
}.

Record SimpleImageInfo := {
  simple_id : string;
  simple_name : string;
  simple_connection : ProviderContainerConnectionIdentifierInfo
}.

(** [all({ registry, connection, organisation })] *)
Definition all (e : engine) (registry : string)
    (provider : ProviderContainerConnection) (organisation : string)
    : result (list SimpleImageInfo) :=
  let? images := listImages e (connection provider) in
  let identifier :=
    {| identifier_providerId := providerId provider;
       identifier_name := conn_name (connection provider) |} in
  Ok (fold_left
        (fun accumulator current =>
           let tag :=
             match RepoTags current with
             | Some tags =>
                 List.find (fun tag => Js.startsWith tag (registry +:+ "/" +:+ organisation))
                   tags
             | None => None
             end in
           match tag with
           | Some name =>
               if Js.truthy tag
               then accumulator ++ [{| simple_id := image_Id current;
                                       simple_name := name;
                                       simple_connection := identifier |}]
               else accumulator
           | None => accumulator
           end)
        images []).

End ImageService.

(** The first tag of an image that starts with [prefix]. *)
Definition matching_tag (prefix : string) (image : ImageInfo) : option string :=
  match RepoTags image with
  | Some tags => List.find (fun tag => Js.startsWith tag prefix) tags
  | None => None
  end.

Module ImageCheckerProvider.

Record ImageCheck := {
  check_name : string;
  check_status : string;
  check_severity : option string;
  check_markdownDescription : option string
}.

(** [st] as seen by the service whose tool is [c]: each of the two scan
    services has its own [cliTool], over one file system. *)
Definition serving (st : state) (c : option CliTool) : state :=
  {| fs := fs st; dirs := dirs st; trace := trace st; cliTool := c;
     probed := probed st; selected := selected st |}.

(** [m] run by the service whose tool is [c]. *)
Definition as_service {A} (c : option CliTool) (m : M A) : M A :=
  fun st => ((m (serving st c)).1, serving (m (serving st c)).2 (cliTool st)).

(** The [checks] that [check] builds from a report. *)
Definition checks_of (result : GrypeOutput) : list ImageCheck :=
  let vulnerabilities :=
    map (fun m => {| check_name := vuln_id (vulnerability m);
                     check_status := "failed";
                     check_severity := Some (severity (vulnerability m));
                     check_markdownDescription := description (vulnerability m) |})
      (matches result) in
  if (0 <? length vulnerabilities)%nat then vulnerabilities
  else [{| check_name := "No vulnerabilities found";
           check_status := "success";
           check_severity := None;
           check_markdownDescription := None |}].

(** [check(image)], [syft] and [grype] being the tools of the two
    services. *)
Definition check (e : engine) (h : host) (syft grype : option CliTool)
    (image : ImageInfo) : M (list ImageCheck) :=
  found <- lift (ContainerService.getRunningProviderContainerConnectionByEngineId e
                   (image_engineId image)) ;;
  file <- as_service syft
            (SyftService.analyse h
               {| SyftService.opt_connection := found;
                  SyftService.opt_imageId := image_Id image |}) ;;
  result <- as_service grype (GrypeService.analyse h file) ;;
  ret (checks_of result).

End ImageCheckerProvider.

Module Desk.

(** Two connections: a stopped docker engine and a started podman machine. *)
Definition engines : engine :=
  {| getContainerConnections := [Sample.docker; Sample.machine];
     status := fun c => if String.eqb (conn_type c) "podman" then "started" else "stopped";
     listInfos := fun c => Ok [{| info_engineId := "podman.machine" |}];
     listImages := fun _ =>
       Ok [{| image_Id := "sha256:aaaa"; image_engineId := "podman.machine";
              RepoTags := Some ["localhost/tmp:1"; "quay.io/podman/hello:latest"] |};
           {| image_Id := "sha256:bbbb"; image_engineId := "podman.machine";
              RepoTags := None |};
           {| image_Id := "sha256:cccc"; image_engineId := "podman.machine";
              RepoTags := Some ["quay.io/podman/stable:v5"; "quay.io/podman/stable:latest"] |}]
  |}.

Definition image : ImageInfo :=
  {| image_Id := "sha256:abcd1234"; image_engineId := "podman.machine";
     RepoTags := Some ["quay.io/podman/hello:latest"] |}.

(** A report with one critical vulnerability. *)
Definition one_critical : json :=
  JObj [("matches",
         JArr [JObj [("vulnerability",
                      JObj [("id", JStr "CVE-2024-0001");
                            ("severity", JStr "Critical")])]])].

(** A host whose cached report, whatever its text, reads as [one_critical]. *)
Definition reporting : host :=
  {| storagePath := "/storage";
     isWindows := false;
     isLinux := true;
     nodePlatform := "linux";
     nodeArch := "x64";
     join := Sample.posix_join;
     dirname := Sample.posix_dirname;
     basename := Sample.posix_basename;
     run_binary := Sample.broken;
     io_error := fun _ => None;
     listReleases_response := fun _ _ => Ok [];
     listReleaseAssets_response := fun _ _ _ => Ok [];
     getReleaseAsset_response := fun _ _ _ => Err (HostError "404");
     quickPick_choice := fun _ => None;
     unpack := fun _ _ _ f => (Ok tt, f);
     podman_lookup := fun _ => Ok None;
     JSON_parse := fun _ => Ok one_critical |}.

(** Both artifacts of the image are on disk. *)
Definition scanned : state :=
  Sample.state_with
    {[ "/storage/podman/machine/abcd1234.jsonpow" := "sbom";
       "/storage/podman/machine/abcd1234.json" := "report" ]} None.

End Desk.

(** The entry of [all] for an image that has a tag starting with [prefix]. *)
Definition listed (prefix : string) (provider : ProviderContainerConnection)
    (image : ImageInfo) : option ImageService.SimpleImageInfo :=
  match matching_tag prefix image with
  | Some name =>
      Some {| ImageService.simple_id := image_Id image;
              ImageService.simple_name := name;
              ImageService.simple_connection :=
                {| ImageService.identifier_providerId := providerId provider;
                   ImageService.identifier_name := conn_name (connection provider) |} |}
  | None => None
  end.

(** ** [PodmanService] *)

Module PodmanService.

(** A call of the podman extension's [exec]. *)
Record call := {
  call_args : list string;
  call_connection : option ProviderContainerConnection   (* [options.connection] *)
}.

(** The extension registry and the podman extension behind it. *)
Record podman := {
  (* [getExtension(PODMAN_EXTENSION_ID)]: [None] when there is none,
     otherwise whether its exports have an [exec] function *)
  extension : option bool;
  exec_result : list string -> option ProviderContainerConnection -> result string;
  vmType : ContainerConnection -> option string
}.

(** The service: whether [#podman] is set, and what it has asked so far. *)
Record service := {
  cached : bool;
  lookups : nat;                (* calls of [getExtension] *)
  calls : list call
}.

Definition P (A : Type) : Type := service -> result A * service.

Definition pbind {A B} (m : P A) (k : A -> P B) : P B :=
  fun s =>
    match m s with
    | (Ok a, s') => k a s'
    | (Err e, s') => (Err e, s')
    end.

Definition pret {A} (a : A) : P A := fun s => (Ok a, s).

Definition pthrow {A} (e : error) : P A := fun s => (Err e, s).

Definition getPodmanExtension (p : podman) : P unit :=
  fun s =>
    let s' := {| cached := cached s; lookups := S (lookups s); calls := calls s |} in
    match extension p with
    | None => (Err (Error "podman extension not found"), s')
    | Some false => (Err (Error "invalid podman extension exports"), s')
    | Some true => (Ok tt, s')
    end.

(** The getter [this.podman]. *)
Definition podmanApi (p : podman) : P unit :=
  fun s =>
    if cached s then (Ok tt, s)
    else
      match getPodmanExtension p s with
      | (Ok _, s') =>
          (Ok tt, {| cached := true; lookups := lookups s'; calls := calls s' |})
      | (Err e, s') => (Err e, s')
      end.

(** [this.podman.exec(args, options)], resolving to its stdout. *)
Definition exec (p : podman) (args : list string)
    (connection : option ProviderContainerConnection) : P string :=
  pbind (podmanApi p) (fun _ s =>
    (exec_result p args connection,
     {| cached := cached s; lookups := lookups s;
        calls := calls s ++ [{| call_args := args; call_connection := connection |}] |})).

Definition isMachineRootful (p : podman) (c : ProviderContainerConnection) : P bool :=
  if negb (Js.truthy (vmType p (connection c)))
  then pthrow (Error "connection provided is not a podman machine (native connection)")
  else
    pbind (exec p ["machine"; "inspect"; "--format"; "{{.Rootful}}"; conn_name (connection c)]
             (Some c))
      (fun stdout => pret (String.eqb (Js.trim stdout) "true")).

(** [connection.URI.startsWith('ssh:')] on a parsed value: a value
    without a string there makes the call throw a TypeError. *)
Definition is_ssh (c : json) : result bool :=
  match c with
  | JObj props =>
      match Zod.prop "URI" props with
      | Some (JStr uri) => Ok (Js.startsWith uri "ssh:")
      | _ => Err (HostError "TypeError")
      end
  | _ => Err (HostError "TypeError")
  end.

(** [connections.filter(connection => connection.URI.startsWith('ssh:'))] *)
Fixpoint keep_ssh (connections : list json) : result (list json) :=
  match connections with
  | [] => Ok []
  | c :: rest =>
      let? keep := is_ssh c in
      let? others := keep_ssh rest in
      Ok (if keep then c :: others else others)
  end.

Definition getPodmanConnections (h : host) (p : podman) : P (list json) :=
  pbind (exec p ["system"; "connection"; "ls"; "--format=json"] None) (fun stdout s =>
    (let? connections := JSON_parse h stdout in
     match connections with
     | JArr items => keep_ssh items
     | _ => Err (Error "malformed output for podman system connection ls command.")
     end,
     s)).

(** [connection.Name === connectionName] *)
Definition named (connectionName : string) (c : json) : bool :=
  match c with
  | JObj props =>
      match Zod.prop "Name" props with
      | Some (JStr name) => String.eqb name connectionName
      | _ => false
      end
  | _ => false
  end.

Definition findPodmanConnection (h : host) (p : podman) (c : ProviderContainerConnection)
    : P (option json) :=
  pbind (getPodmanConnections h p) (fun connections =>
    pbind
      (if Js.truthy (vmType p (connection c))
       then pbind (isMachineRootful p c) (fun isRootful =>
              pret (conn_name (connection c) +:+ (if isRootful then "-root" else "")))
       else pret (conn_name (connection c)))
      (fun connectionName => pret (List.find (named connectionName) connections))).

Definition dispose : P unit :=
  fun s => (Ok tt, {| cached := false; lookups := lookups s; calls := calls s |}).

End PodmanService.

(** An object with a string URI that starts with [ssh:]. *)
Definition ssh_connection (c : json) : Prop :=
  exists props uri,
    c = JObj props /\ Zod.prop "URI" props = Some (JStr uri)
    /\ Js.startsWith uri "ssh:" = true.

(** The call that lists the connections known to podman. *)
Definition listing_call : PodmanService.call :=
  {| PodmanService.call_args := ["system"; "connection"; "ls"; "--format=json"];
     PodmanService.call_connection := None |}.

Module Machines.

Definition machine_ssh : json :=
  JObj [("Name", JStr "machine"); ("URI", JStr "ssh://core@127.0.0.1:2222/run/user/1000/podman/podman.sock");
        ("Identity", JStr "/home/me/.ssh/machine"); ("Default", JBool false)].

Definition machine_root : json :=
  JObj [("Name", JStr "machine-root"); ("URI", JStr "ssh://root@127.0.0.1:2222/run/podman/podman.sock");
        ("Identity", JStr "/home/me/.ssh/machine"); ("Default", JBool true)].

Definition local_socket : json :=
  JObj [("Name", JStr "local"); ("URI", JStr "unix:///run/podman/podman.sock")].

(** [JSON.parse] of the listing printed by the sample podman. *)
Definition parsing : host :=
  {| storagePath := "/storage";
     isWindows := false;
     isLinux := false;
     nodePlatform := "darwin";
     nodeArch := "arm64";
     join := Sample.posix_join;
     dirname := Sample.posix_dirname;
     basename := Sample.posix_basename;
     run_binary := Sample.broken;
     io_error := fun _ => None;
     listReleases_response := fun _ _ => Ok [];
     listReleaseAssets_response := fun _ _ _ => Ok [];
     getReleaseAsset_response := fun _ _ _ => Err (HostError "404");
     quickPick_choice := fun _ => None;
     unpack := fun _ _ _ f => (Ok tt, f);
     podman_lookup := fun _ => Ok None;
     JSON_parse := fun text =>
       if String.eqb text "<listing>" then Ok (JArr [local_socket; machine_ssh; machine_root])
       else if String.eqb text "{}" then Ok (JObj [])
       else Err (HostError "SyntaxError") |}.

(** A podman whose machine is rootful when [rootful] is "true". *)
Definition podman_with (rootful listing_text : string) : PodmanService.podman :=
  {| PodmanService.extension := Some true;
     PodmanService.exec_result := fun args _ =>
       match args with
       | "system" :: _ => Ok listing_text
       | _ => Ok (rootful +:+ "
")
       end;
     PodmanService.vmType := fun c =>
       if String.eqb (conn_name c) "machine" then Some "applehv" else None |}.

Definition fresh : PodmanService.service :=
  {| PodmanService.cached := false; PodmanService.lookups := 0;
     PodmanService.calls := [] |}.

Definition native : ProviderContainerConnection :=
  {| providerId := "podman";
     connection := {| conn_type := "podman"; conn_name := "local" |} |}.

End Machines.

(** ** The arguments of the analysis command *)

Module CommandService.

Record ImageInfoUI := {
  ui_id : string;
  ui_engineId : string;
  ui_arch : string;
  ui_isManifest : bool
}.

(** [z.boolean()] *)
Definition z_boolean : Zod.schema bool :=
  fun v => match v with
           | Some (JBool b) => Ok b
           | _ => Err ZodError
           end.

Definition ImageInfoUISchema : Zod.schema ImageInfoUI :=
  Zod.object (fun props =>
    let? i := Zod.string (Zod.prop "id" props) in
    let? e := Zod.string (Zod.prop "engineId" props) in
    let? a := Zod.string (Zod.prop "arch" props) in
    let? m := z_boolean (Zod.prop "isManifest" props) in
    Ok {| ui_id := i; ui_engineId := e; ui_arch := a; ui_isManifest := m |}).

(** [ImageInfoUISchema.safeParse(args)] *)
Definition safeParse (args : json) : result ImageInfoUI := ImageInfoUISchema (Some args).

End CommandService.

(** * Properties *)

(** ** Sanity checks of the primitives *)

Example trim_probe : Js.trim "  syft 1.41.2
" = "syft 1.41.2".
Proof. reflexivity. Qed.

Example split_ws_probe :
  Js.split_ws "syft   1.41.2" = ["syft"; "1.41.2"]
  /\ Js.split_ws "" = [""]
  /\ Js.split_ws " a" = [""; "a"]
  /\ Js.split_ws "a " = ["a"; ""].
Proof. repeat split; reflexivity. Qed.

Example split_char_probe :
  Js.split_char "." "abcd.syft.json" = ["abcd"; "syft"; "json"]
  /\ Js.split_char "." "" = [""].
Proof. split; reflexivity. Qed.

Example slice_probe :
  Js.slice [1; 2; 3; 4] 0 2 = [1; 2]
  /\ Js.slice [1; 2; 3; 4] 0 (-1) = [1; 2; 3]
  /\ Js.slice [1; 2; 3; 4] 0 9 = [1; 2; 3; 4].
Proof. repeat split; reflexivity. Qed.

Example sample_paths :
  Sample.posix_join ["/storage"; "podman"; "machine"; "abcd.jsonpow"]
    = "/storage/podman/machine/abcd.jsonpow"
  /\ Sample.posix_dirname "/storage/podman/machine/abcd.jsonpow" = "/storage/podman/machine"
  /\ Sample.posix_basename "/storage/podman/machine/abcd.jsonpow" = "abcd.jsonpow".
Proof. repeat split; reflexivity. Qed.

Example asset_name_linux :
  getAssetName Sample.linux SyftService.tool "1.41.2" = "syft_1.41.2_linux_amd64.tar.gz".
Proof. reflexivity. Qed.

Example asset_name_table :
  AssetNamerSpec.name "grype" "0.109.0" "win32" "arm64" = "grype_0.109.0_windows_arm64.zip"
  /\ AssetNamerSpec.name "grype" "0.109.0" "darwin" "ppc64" = "grype_0.109.0_darwin_ppc64le.tar.gz"
  /\ AssetNamerSpec.name "syft" "1.0.0" "freebsd" "riscv64" = "syft_1.0.0_linux_riscv64.tar.gz"
  /\ AssetNamerSpec.name "syft" "1.0.0" "linux" "s390x" = "syft_1.0.0_linux_s390x.tar.gz".
Proof. repeat split; reflexivity. Qed.

(** C9. The asset namer is a total function of the tool, the version,
    the platform and the architecture, and nothing else of the host: it
    yields [{tool}_{version}_{os}_{arch}.{ext}] with win32 named windows
    (zip), darwin named darwin (tar.gz), linux and every other platform
    named linux (tar.gz), x64 named amd64, arm64 arm64, ppc64 ppc64le,
    s390x s390x and every other architecture kept verbatim. *)
Theorem getAssetName_follows_tables :
  forall (h : host) (t : Tool) (version : string),
    getAssetName h t version
    = AssetNamerSpec.name (toolId t) version (nodePlatform h) (nodeArch h).
Proof.
  intros h t version.
  unfold getAssetName, AssetNamerSpec.name, binaryBaseName; simpl.
  destruct (String.eqb (nodePlatform h) "win32");
    [| destruct (String.eqb (nodePlatform h) "darwin");
       [| destruct (String.eqb (nodePlatform h) "linux")]];
    simpl;
    (destruct (String.eqb (nodeArch h) "x64");
       [| destruct (String.eqb (nodeArch h) "arm64");
          [| destruct (String.eqb (nodeArch h) "ppc64");
             [| destruct (String.eqb (nodeArch h) "s390x")]]]);
    reflexivity.
Qed.

(** ** Release repository client *)

Lemma filter_sublist {A} (f : A -> bool) (l : list A) :
  sublist (List.filter f l) l.
Proof.
  induction l as [| x l IH]; simpl.
  - constructor.
  - destruct (f x); [apply sublist_skip | apply sublist_cons]; exact IH.
Qed.

Lemma filter_all {A} (f : A -> bool) (l : list A) :
  Forall (fun x => f x = true) (List.filter f l).
Proof.
  induction l as [| x l IH]; simpl.
  - constructor.
  - destruct (f x) eqn:E; [constructor |]; assumption.
Qed.

(** With a non-negative end, [slice(0, end)] keeps the first [end]
    elements. *)
Lemma slice_prefix {A} (l : list A) (stop : Z) :
  0 <= stop -> Js.slice l 0 stop = take (Z.to_nat stop) l.
Proof.
  intros Hstop. unfold Js.slice, Js.clamp_index.
  change (0 <? 0) with false. cbv iota.
  destruct (Z.ltb_spec stop 0) as [Hneg | _]; [lia |].
  rewrite (Z.min_l 0) by lia. change (Z.to_nat 0) with 0%nat. rewrite drop_0.
  destruct (Z.le_gt_cases stop (Z.of_nat (length l))) as [Hle | Hgt].
  - rewrite Z.min_l by lia. f_equal. lia.
  - rewrite Z.min_r by lia. rewrite !take_ge by lia. reflexivity.
Qed.

Lemma selectReleases_take (limits : Z) (data : list Release) :
  0 <= limits ->
  selectReleases limits data
  = map toMetadata
      (take (Z.to_nat limits) (List.filter (fun r => negb (prerelease r)) data)).
Proof.
  intros Hl. unfold selectReleases.
  destruct (Z.of_nat (length (List.filter _ data)) >? limits) eqn:E.
  - rewrite slice_prefix by exact Hl. reflexivity.
  - rewrite take_ge; [reflexivity |].
    rewrite Z.gtb_ltb in E. apply Z.ltb_ge in E. lia.
Qed.

Example listReleases_sample :
  let upstream :=
    [{| release_id := 4; release_name := Some "v1.3.0-rc1"; tag_name := "v1.3.0-rc1";
        prerelease := true |};
     {| release_id := 3; release_name := None; tag_name := "v1.2.0"; prerelease := false |};
     {| release_id := 2; release_name := Some "One one"; tag_name := "v1.1.0";
        prerelease := false |};
     {| release_id := 1; release_name := Some "v1.0.0"; tag_name := "v1.0.0";
        prerelease := false |}] in
  selectReleases 2 upstream
  = [{| label := "v1.2.0"; tag := "v1.2.0"; id := 3 |};
     {| label := "One one"; tag := "v1.1.0"; id := 2 |}]
  /\ length (selectReleases 10 upstream) = 3%nat.
Proof. split; reflexivity. Qed.

(** A limit is a count; a negative one would drop releases from the end. *)
Example listReleases_negative_limit :
  selectReleases (-1)
    [{| release_id := 2; release_name := None; tag_name := "v2"; prerelease := false |};
     {| release_id := 1; release_name := None; tag_name := "v1"; prerelease := false |}]
  = [{| label := "v2"; tag := "v2"; id := 2 |}].
Proof. reflexivity. Qed.

(** C4. Whatever the upstream release list and the limit (10 when
    omitted; a count, so not negative), [listReleases] answers with the
    metadata of the first [limit] releases that are not pre-releases, in
    upstream order: none of the releases kept is a pre-release, they are
    at most [limit], and they form a subsequence of the upstream list. *)
Theorem listReleases_filters_and_truncates :
  forall (h : host) (t : Tool) (limits : option Z) (st : state) (data : list Release),
    0 <= default 10 limits ->
    listReleases_response h ANCHORE_GITHUB_ORG (repoName t) = Ok data ->
    exists kept : list Release,
      (listReleases h t limits st).1 = Ok (map toMetadata kept)
      /\ kept = take (Z.to_nat (default 10 limits))
                  (List.filter (fun r => negb (prerelease r)) data)
      /\ Forall (fun r => prerelease r = false) kept
      /\ sublist kept data
      /\ Z.of_nat (length (map toMetadata kept)) <= default 10 limits.
Proof.
  intros h t limits st data Hlim Hup.
  exists (take (Z.to_nat (default 10 limits))
            (List.filter (fun r => negb (prerelease r)) data)).
  split; [| split; [reflexivity | split; [| split]]].
  - unfold listReleases, octokit_listReleases, bind, emit, lift, ret; simpl.
    rewrite Hup. simpl. f_equal. apply selectReleases_take, Hlim.
  - apply Forall_take.
    eapply Forall_impl; [apply filter_all |].
    intros r Hr; simpl in Hr. destruct (prerelease r); [discriminate | reflexivity].
  - transitivity (List.filter (fun r => negb (prerelease r)) data).
    + apply sublist_take.
    + apply filter_sublist.
  - rewrite length_map, length_take. lia.
Qed.

Lemma listReleases_filters_and_truncates_witness :
  let h := Sample.host_with (Sample.prints "grype 0.109.0")
             [{| release_id := 3; release_name := None; tag_name := "v0.110.0-rc1";
                 prerelease := true |};
              {| release_id := 2; release_name := None; tag_name := "v0.109.0";
                 prerelease := false |};
              {| release_id := 1; release_name := None; tag_name := "v0.108.0";
                 prerelease := false |}] in
  exists kept : list Release,
    (listReleases h GrypeService.tool (Some 1) (Sample.state_with ∅ None)).1
    = Ok (map toMetadata kept)
    /\ kept = [{| release_id := 2; release_name := None; tag_name := "v0.109.0";
                  prerelease := false |}].
Proof.
  intros h.
  destruct (listReleases_filters_and_truncates h GrypeService.tool (Some 1)
              (Sample.state_with ∅ None) _ ltac:(simpl; lia) eq_refl)
    as (kept & Hrun & Hkept & _).
  exists kept. split; [exact Hrun | exact Hkept].
Defined.

(** ** Tool lifecycle manager: the installer *)

Lemma init_clears_selection (h : host) (t : Tool) (st st' : state) :
  init h t st = (Ok tt, st') -> selected st' = None.
Proof.
  unfold init, bind, existsSync, mkdir, guarded, createCliTool, try_catch,
    getInstalledVersion, exec, emit, gets, set_fs, set_cliTool, set_probed,
    set_selected, lift, ret, throw; simpl.
  repeat match goal with
    | |- context [match ?x with _ => _ end] => destruct x; simpl
    end;
    intros H; inversion H; reflexivity.
Qed.

(** Only a successful [selectVersion] selects a version. *)
Lemma selectVersion_selects (h : host) (t : Tool) (st : state) :
  match selectVersion h t st with
  | (Ok v, st') =>
      exists chosen, selected st' = Some chosen /\ v = Js.slice1 (tag chosen)
  | (Err _, st') => selected st' = selected st
  end.
Proof.
  unfold selectVersion, promptUserForVersion, listReleases, octokit_listReleases,
    showQuickPick, bind, emit, gets, lift, ret, throw, set_selected; simpl.
  destruct (listReleases_response h ANCHORE_GITHUB_ORG (repoName t)) as [data | e];
    simpl; [| reflexivity].
  destruct (quickPick_choice h _) as [chosen |]; simpl; [| reflexivity].
  exists chosen. split; reflexivity.
Qed.

(** C5. [doInstall] called while no version is selected fails at once
    with the error "No version selected"; the state, and with it the
    trace of calls, is left as it was, so neither the asset listing nor
    a download has been requested. *)
Theorem doInstall_without_selection :
  forall (h : host) (t : Tool) (st : state),
    selected st = None ->
    doInstall h t st = (Err (Error "No version selected"), st)
    /\ trace (doInstall h t st).2 = trace st.
Proof.
  intros h t st Hsel.
  assert (Hrun : doInstall h t st = (Err (Error "No version selected"), st)).
  { unfold doInstall, bind, gets, throw; simpl. rewrite Hsel. reflexivity. }
  split; [exact Hrun | rewrite Hrun; reflexivity].
Qed.

Lemma doInstall_without_selection_witness :
  let st := Sample.state_with ∅ None in
  selected st = None
  /\ doInstall Sample.linux SyftService.tool st = (Err (Error "No version selected"), st).
Proof.
  intros st. split; [reflexivity |].
  apply (doInstall_without_selection Sample.linux SyftService.tool st). reflexivity.
Defined.

(** ** Result schema *)

Lemma each_rejects {A} (s : Zod.schema A) (items : list json) (m : json) :
  (forall v e, s v = Err e -> e = ZodError) ->
  m ∈ items ->
  s (Some m) = Err ZodError ->
  Zod.each s items = Err ZodError.
Proof.
  intros Hzod Hin Hm.
  induction items as [| item rest IH]; [inversion Hin |].
  simpl. apply elem_of_cons in Hin as [-> | Hin].
  - rewrite Hm. reflexivity.
  - destruct (s (Some item)) as [a | e] eqn:Ea; simpl.
    + rewrite (IH Hin). reflexivity.
    + rewrite (Hzod _ _ Ea). reflexivity.
Qed.

Lemma each_accepts {A} (P : A -> Prop) (s : Zod.schema A) (items : list json)
    (out : list A) :
  (forall v a, s v = Ok a -> P a) ->
  Zod.each s items = Ok out ->
  Forall P out.
Proof.
  intros Hs. revert out.
  induction items as [| item rest IH]; simpl; intros out Hrun.
  - inversion Hrun. constructor.
  - destruct (s (Some item)) as [a | e] eqn:Ea; simpl in Hrun; [| discriminate].
    destruct (Zod.each s rest) as [others | e] eqn:Er; simpl in Hrun; [| discriminate].
    inversion Hrun; subst. constructor; [eapply Hs, Ea | apply IH; reflexivity].
Qed.

Lemma SeveritySchema_accepts (v : option json) (s : string) :
  SeveritySchema v = Ok s ->
  exists name, name ∈ ["High"; "Medium"; "Critical"; "Low"]
               /\ v = Some (JStr name) /\ s = Js.toLowerCase name.
Proof.
  unfold SeveritySchema, Zod.transform, Zod.enum, rbind.
  destruct v as [[| | | name | |] |]; try discriminate.
  destruct (existsb (String.eqb name) _) eqn:E; [| discriminate].
  intros H; inversion H; subst. exists name. split; [| split; reflexivity].
  apply existsb_exists in E as (x & Hx & Heq).
  apply String.eqb_eq in Heq; subst x. apply list_elem_of_In, Hx.
Qed.

Lemma MatchSchema_zod (v : option json) (e : error) :
  MatchSchema v = Err e -> e = ZodError.
Proof.
  unfold MatchSchema, VulnerabilitySchema, SeveritySchema, Zod.object,
    Zod.transform, Zod.enum, Zod.optional, Zod.string, rbind.
  pose proof (fun (e' : error) (H : Err (A := Match) ZodError = Err e') =>
                eq_sym (f_equal (fun r => match r with Err x => x | Ok _ => ZodError end) H))
    as Hinv.
  destruct v as [[| | | | | props] |]; try apply Hinv.
  destruct (Zod.prop "vulnerability" props) as [[| | | | | vprops] |]; try apply Hinv.
  destruct (Zod.prop "id" vprops) as [[| | | i | |] |]; try apply Hinv.
  destruct (Zod.prop "severity" vprops) as [[| | | s | |] |]; try apply Hinv.
  destruct (existsb (String.eqb s) _); try apply Hinv.
  destruct (Zod.prop "description" vprops) as [[| | | d | |] |];
    try apply Hinv; discriminate.
Qed.

Lemma MatchSchema_needs_id (m : json) :
  vulnerability_id m = None -> MatchSchema (Some m) = Err ZodError.
Proof.
  unfold vulnerability_id, MatchSchema, VulnerabilitySchema, Zod.object,
    Zod.string, rbind.
  destruct m as [| | | | | props]; try reflexivity.
  destruct (Zod.prop "vulnerability" props) as [[| | | | | vprops] |]; try reflexivity.
  destruct (Zod.prop "id" vprops) as [[| | | i | |] |]; try reflexivity.
  discriminate.
Qed.

Lemma MatchSchema_severity (v : option json) (m : Match) :
  MatchSchema v = Ok m ->
  exists name, name ∈ ["High"; "Medium"; "Critical"; "Low"]
               /\ severity (vulnerability m) = Js.toLowerCase name.
Proof.
  unfold MatchSchema, VulnerabilitySchema, Zod.object, rbind.
  destruct v as [[| | | | | props] |]; try discriminate.
  destruct (Zod.prop "vulnerability" props) as [[| | | | | vprops] |]; try discriminate.
  destruct (Zod.string (Zod.prop "id" vprops)); [| discriminate].
  destruct (SeveritySchema (Zod.prop "severity" vprops)) as [s |] eqn:Es; [| discriminate].
  destruct (Zod.optional Zod.string (Zod.prop "description" vprops)); [| discriminate].
  intros H; inversion H; subst; simpl.
  apply SeveritySchema_accepts in Es as (name & Hin & _ & ->).
  exists name. split; [exact Hin | reflexivity].
Qed.

Example parse_sample :
  GrypeOutputSchema_parse
    (JObj [("matches",
            JArr [JObj [("vulnerability",
                         JObj [("id", JStr "CVE-2024-0001");
                               ("severity", JStr "Critical");
                               ("fix", JObj [])]);
                        ("artifact", JObj [])]]);
           ("source", JNull)])
  = Ok {| matches := [{| vulnerability :=
                           {| vuln_id := "CVE-2024-0001"; severity := "critical";
                              description := None |} |}] |}
  /\ GrypeOutputSchema_parse (report [("id", JStr "CVE-1"); ("severity", JStr "high")])
     = Err ZodError
  /\ GrypeOutputSchema_parse (report [("id", JStr "CVE-1"); ("severity", JStr "Negligible")])
     = Err ZodError
  /\ GrypeOutputSchema_parse
       (report [("id", JStr "CVE-1"); ("severity", JStr "Low"); ("description", JNull)])
     = Err ZodError.
Proof. repeat split; reflexivity. Qed.

(** C6. A scanner output one of whose matches has no string at
    [vulnerability.id] is rejected with a schema error, which carries no
    output at all.  In an output that is accepted every match has a
    severity that is the lower-case form of one of High, Medium, Critical
    and Low, hence one of high, medium, critical and low.  The description
    may be absent (the result has none) or a string (the result has it). *)
Theorem GrypeOutputSchema_strict :
  (forall (props : list (string * json)) (items : list json) (m : json),
      Zod.prop "matches" props = Some (JArr items) ->
      m ∈ items ->
      vulnerability_id m = None ->
      GrypeOutputSchema_parse (JObj props) = Err ZodError)
  /\ (forall (value : json) (out : GrypeOutput),
         GrypeOutputSchema_parse value = Ok out ->
         Forall (fun m =>
                   (exists name, name ∈ ["High"; "Medium"; "Critical"; "Low"]
                                 /\ severity (vulnerability m) = Js.toLowerCase name)
                   /\ severity (vulnerability m) ∈ ["high"; "medium"; "critical"; "low"])
           (matches out))
  /\ (forall (i name : string),
         name ∈ ["High"; "Medium"; "Critical"; "Low"] ->
         GrypeOutputSchema_parse (report [("id", JStr i); ("severity", JStr name)])
         = Ok {| matches := [{| vulnerability :=
                                  {| vuln_id := i; severity := Js.toLowerCase name;
                                     description := None |} |}] |}
         /\ forall d : string,
             GrypeOutputSchema_parse
               (report [("id", JStr i); ("severity", JStr name); ("description", JStr d)])
             = Ok {| matches := [{| vulnerability :=
                                      {| vuln_id := i; severity := Js.toLowerCase name;
                                         description := Some d |} |}] |}).
Proof.
  split; [| split].
  - intros props items m Hprop Hin Hid.
    unfold GrypeOutputSchema_parse, GrypeOutputSchema, Zod.object, Zod.array, rbind.
    rewrite Hprop.
    rewrite (each_rejects MatchSchema items m MatchSchema_zod Hin
               (MatchSchema_needs_id m Hid)).
    reflexivity.
  - intros value out.
    unfold GrypeOutputSchema_parse, GrypeOutputSchema, Zod.object, Zod.array, rbind.
    destruct value as [| | | | | props]; try discriminate.
    destruct (Zod.prop "matches" props) as [[| | | | items |] |]; try discriminate.
    destruct (Zod.each MatchSchema items) as [ms |] eqn:Ems; [| discriminate].
    intros H; inversion H; subst; simpl.
    eapply each_accepts; [| exact Ems].
    intros v m Hm. apply MatchSchema_severity in Hm as (name & Hin & Hsev).
    split; [exists name; split; assumption |].
    rewrite Hsev.
    repeat (apply elem_of_cons in Hin as [-> | Hin]; [simpl; set_solver |]).
    inversion Hin.
  - intros i name Hin.
    repeat (apply elem_of_cons in Hin as [-> | Hin]; [split; [| intros d]; reflexivity |]).
    inversion Hin.
Qed.

Lemma GrypeOutputSchema_strict_witness :
  GrypeOutputSchema_parse
    (JObj [("matches",
            JArr [JObj [("vulnerability",
                         JObj [("id", JStr "CVE-1"); ("severity", JStr "High")])];
                  JObj [("vulnerability", JObj [("severity", JStr "Low")])]])])
  = Err ZodError
  /\ Forall (fun m => severity (vulnerability m) ∈ ["high"; "medium"; "critical"; "low"])
       [{| vulnerability := {| vuln_id := "CVE-1"; severity := "medium";
                               description := Some "d" |} |}]
  /\ GrypeOutputSchema_parse (report [("id", JStr "CVE-1"); ("severity", JStr "Medium")])
     = Ok {| matches := [{| vulnerability :=
                              {| vuln_id := "CVE-1"; severity := "medium";
                                 description := None |} |}] |}.
Proof.
  destruct GrypeOutputSchema_strict as (Hreject & Haccept & Hoptional).
  split; [| split].
  - apply (Hreject _
             [JObj [("vulnerability",
                     JObj [("id", JStr "CVE-1"); ("severity", JStr "High")])];
              JObj [("vulnerability", JObj [("severity", JStr "Low")])]]
             (JObj [("vulnerability", JObj [("severity", JStr "Low")])]));
      [reflexivity | repeat constructor | reflexivity].
  - eapply Forall_impl.
    + apply (Haccept
               (report [("id", JStr "CVE-1"); ("severity", JStr "Medium");
                        ("description", JStr "d")])
               {| matches := [{| vulnerability :=
                                   {| vuln_id := "CVE-1"; severity := "medium";
                                      description := Some "d" |} |}] |}).
      reflexivity.
    + intros m [_ Hm]. exact Hm.
  - apply (Hoptional "CVE-1" "Medium"). repeat constructor.
Defined.

(** ** Scan invoker (SBOM) *)

Lemma recording_nil (st : state) : recording st [] = st.
Proof. destruct st; unfold recording; simpl. rewrite app_nil_r. reflexivity. Qed.

Example sanitize_scenarios :
  SyftService.sanitizeImageId "sha256:abcd1234" = "abcd1234"
  /\ SyftService.sanitizeImageId "abcd1234" = "abcd1234".
Proof. split; reflexivity. Qed.

Lemma sanitize_strips (rest : string) :
  SyftService.sanitizeImageId ("sha256:" +:+ rest) = rest.
Proof.
  unfold SyftService.sanitizeImageId, Js.startsWith. simpl.
  destruct rest; reflexivity.
Qed.

Lemma sanitize_keeps (imageId : string) :
  Js.startsWith imageId "sha256:" = false ->
  SyftService.sanitizeImageId imageId = imageId.
Proof. unfold SyftService.sanitizeImageId. intros ->. reflexivity. Qed.

(** C10. For a connection whose type is not podman [analyse] fails and
    leaves the state, trace included, as it found it: no destination has
    been looked up, the cache has not been consulted and no binary has
    been run.  With the syft binary installed the error is
    "extension only supported podman connection". *)
Theorem analyse_only_podman :
  forall (h : host) (o : SyftService.options) (st : state),
    conn_type (connection (SyftService.opt_connection o)) <> "podman" ->
    (exists e, SyftService.analyse h o st = (Err e, st))
    /\ (forall binary,
           installedBinary (cliTool st) = Some binary ->
           SyftService.analyse h o st
           = (Err (Error "extension only supported podman connection"), st)).
Proof.
  intros h o st Hty.
  apply String.eqb_neq in Hty.
  unfold SyftService.analyse, bind, gets, throw; simpl.
  split.
  - destruct (installedBinary (cliTool st)); [rewrite Hty |]; simpl; eauto.
  - intros binary ->. rewrite Hty. reflexivity.
Qed.

Lemma analyse_only_podman_witness :
  let o := {| SyftService.opt_connection := Sample.docker;
              SyftService.opt_imageId := "sha256:abcd1234" |} in
  let st := Sample.state_with ∅ (Some (Sample.installed "syft")) in
  conn_type (connection (SyftService.opt_connection o)) <> "podman"
  /\ SyftService.analyse Sample.linux o st
     = (Err (Error "extension only supported podman connection"), st).
Proof.
  intros o st.
  assert (Hty : conn_type (connection (SyftService.opt_connection o)) <> "podman")
    by discriminate.
  split; [exact Hty |].
  destruct (analyse_only_podman Sample.linux o st Hty) as [_ Hmsg].
  apply (Hmsg "/storage/syft/syft"). reflexivity.
Defined.

(** The calls of the task run under the progress indicator: an initial
    segment of lookup, mkdir, syft and rename, complete on success. *)
Lemma scan_run (h : host) (binary : string) (o : SyftService.options)
    (d : string) (st : state) :
  exists env evs,
    trace (SyftService.scan h binary o d st).2 = trace st ++ evs
    /\ evs `prefix_of`
         [EvFindPodmanConnection (SyftService.opt_connection o);
          EvMkdir (dirname h d);
          EvExec binary
            ["--from=podman"; SyftService.opt_imageId o; "--output=json=" +:+ d +:+ ".tmp"]
            (Some env);
          EvRename (d +:+ ".tmp") d]
    /\ forall p, (SyftService.scan h binary o d st).1 = Ok p ->
                 p = d
                 /\ evs = [EvFindPodmanConnection (SyftService.opt_connection o);
                           EvMkdir (dirname h d);
                           EvExec binary
                             ["--from=podman"; SyftService.opt_imageId o;
                              "--output=json=" +:+ d +:+ ".tmp"]
                             (Some env);
                           EvRename (d +:+ ".tmp") d].
Proof.
  exists (match podman_lookup h (SyftService.opt_connection o) with
          | Ok (Some c) =>
              ("CONTAINER_HOST", URI c) ::
              match Identity c with
              | Some key => if Js.truthy (Identity c) then [("CONTAINER_SSHKEY", key)] else []
              | None => []
              end
          | _ => []
          end).
  unfold SyftService.scan, findPodmanConnection, mkdir, exec, rename, guarded,
    bind, emit, gets, set_fs, add_dir, lift, ret, throw; simpl.
  destruct (podman_lookup h (SyftService.opt_connection o)) as [[c |] | e]; simpl;
    [destruct (Js.startsWith (URI c) "ssh:"); simpl
    | destruct (isLinux h); simpl
    | ];
    try (destruct (io_error h (EvMkdir (dirname h d))); simpl;
         [| destruct (run_binary h binary _ _ (fs st)) as [[out | e] f']; simpl;
            [destruct (io_error h (EvRename (d +:+ ".tmp") d)); simpl;
             [| destruct (f' !! (d +:+ ".tmp")); simpl] |]]);
    (eexists; split; [rewrite <- ?app_assoc; reflexivity |];
     split; [eexists; reflexivity |];
     first [discriminate | intros p Hp; inversion Hp; split; reflexivity]).
Qed.

Lemma syft_hit (h : host) (o : SyftService.options) (st : state) (binary : string) :
  installedBinary (cliTool st) = Some binary ->
  conn_type (connection (SyftService.opt_connection o)) = "podman" ->
  present st (SyftService.destination h o) = true ->
  SyftService.analyse h o st
  = (Ok (SyftService.destination h o),
     recording st [EvExistsSync (SyftService.destination h o)]).
Proof.
  intros Hbin Hty Hhit.
  unfold SyftService.analyse, bind, gets; simpl.
  rewrite Hbin, Hty; simpl.
  change (present _ (SyftService.destination h o))
    with (present st (SyftService.destination h o)).
  rewrite Hhit. reflexivity.
Qed.

Lemma syft_miss (h : host) (o : SyftService.options) (st : state) (binary : string) :
  installedBinary (cliTool st) = Some binary ->
  conn_type (connection (SyftService.opt_connection o)) = "podman" ->
  present st (SyftService.destination h o) = false ->
  SyftService.analyse h o st
  = SyftService.scan h binary o (SyftService.destination h o)
      (recording st
         [EvExistsSync (SyftService.destination h o);
          EvWithProgress
            ("Scanning " +:+ SyftService.sanitizeImageId (SyftService.opt_imageId o))]).
Proof.
  intros Hbin Hty Hmiss.
  unfold SyftService.analyse, bind, gets; simpl.
  rewrite Hbin, Hty; simpl.
  change (present _ (SyftService.destination h o))
    with (present st (SyftService.destination h o)).
  rewrite Hmiss.
  unfold withProgress, bind, emit, recording; simpl.
  rewrite <- app_assoc. reflexivity.
Qed.

Lemma string_length_app (a b : string) :
  String.length (a +:+ b) = (String.length a + String.length b)%nat.
Proof. induction a as [| c a IH]; simpl; [reflexivity | rewrite IH; reflexivity]. Qed.

Lemma tmp_is_another_path (d : string) : d +:+ ".tmp" <> d.
Proof.
  intros Heq. apply (f_equal String.length) in Heq.
  rewrite string_length_app in Heq. simpl in Heq. lia.
Qed.

(** ** Scan invoker (vulnerabilities) *)

(** What reading and validating the report at [file] gives in [st]. *)
Lemma readResult_run (h : host) (file : string) (st : state) :
  GrypeService.readResult h file st
  = (match io_error h (EvReadFile file) with
     | Some e => Err e
     | None =>
         match fs st !! file with
         | Some data => let? value := JSON_parse h data in GrypeOutputSchema_parse value
         | None => Err ENOENT
         end
     end,
     recording st [EvReadFile file]).
Proof.
  unfold GrypeService.readResult, readFile, guarded, bind, emit, gets, lift, ret,
    throw, recording, rbind; simpl.
  destruct (io_error h (EvReadFile file)); simpl; [reflexivity |].
  destruct (fs st !! file) as [data |]; simpl; [| reflexivity].
  destruct (JSON_parse h data); reflexivity.
Qed.

Lemma grype_hit (h : host) (sbom : string) (st : state) (binary : string) :
  installedBinary (cliTool st) = Some binary ->
  present st sbom = true ->
  present st (GrypeService.destination h sbom) = true ->
  GrypeService.analyse h sbom st
  = GrypeService.readResult h (GrypeService.destination h sbom)
      (recording st [EvExistsSync sbom; EvExistsSync (GrypeService.destination h sbom)]).
Proof.
  intros Hbin Hsbom Hhit.
  unfold GrypeService.analyse, bind, gets; simpl.
  rewrite Hbin; simpl.
  change (present _ sbom) with (present st sbom). rewrite Hsbom; simpl.
  change (present _ (GrypeService.destination h sbom))
    with (present st (GrypeService.destination h sbom)).
  rewrite Hhit. unfold recording; simpl. rewrite <- app_assoc. reflexivity.
Qed.

Lemma grype_miss (h : host) (sbom : string) (st : state) (binary : string) :
  installedBinary (cliTool st) = Some binary ->
  present st sbom = true ->
  present st (GrypeService.destination h sbom) = false ->
  let d := GrypeService.destination h sbom in
  let args := ["sbom:" +:+ sbom; "--output=json"; "--file=" +:+ d] in
  let run := run_binary h binary args None (fs st) in
  let st1 :=
    with_files (recording st [EvExistsSync sbom; EvExistsSync d; EvExec binary args None])
      run.2 in
  GrypeService.analyse h sbom st
  = match run.1 with
    | Ok _ => GrypeService.readResult h d st1
    | Err e => (Err e, st1)
    end.
Proof.
  intros Hbin Hsbom Hmiss d args run st1.
  unfold GrypeService.analyse, bind, gets; simpl.
  rewrite Hbin; simpl.
  change (present _ sbom) with (present st sbom). rewrite Hsbom; simpl.
  change (present _ (GrypeService.destination h sbom))
    with (present st (GrypeService.destination h sbom)).
  rewrite Hmiss.
  unfold exec, bind, emit, gets, set_fs, lift; simpl.
  fold d. fold args. fold run.
  unfold st1, with_files, recording; simpl.
  rewrite <- !app_assoc; simpl.
  destruct run.1; reflexivity.
Qed.

(** ** Cache gate *)

Lemma recording_keeps_files (st : state) (evs : list event) :
  fs (recording st evs) = fs st /\ dirs (recording st evs) = dirs st.
Proof. split; reflexivity. Qed.

(** Gates or not, nothing is run and nothing is written once the
    destination exists. *)
Lemma syft_hit_is_silent (h : host) (o : SyftService.options) (st : state) :
  present st (SyftService.destination h o) = true ->
  exists evs, (SyftService.analyse h o st).2 = recording st evs
              /\ exec_calls evs = 0%nat.
Proof.
  intros Hhit.
  destruct (installedBinary (cliTool st)) as [binary |] eqn:Hbin.
  - destruct (String.eqb_spec (conn_type (connection (SyftService.opt_connection o)))
                "podman") as [Hty | Hty].
    + rewrite (syft_hit h o st binary Hbin Hty Hhit). eexists. split; reflexivity.
    + apply String.eqb_neq in Hty.
      unfold SyftService.analyse, bind, gets, throw; simpl. rewrite Hbin, Hty; simpl.
      exists []. rewrite recording_nil. split; reflexivity.
  - unfold SyftService.analyse, bind, gets, throw; simpl. rewrite Hbin.
    exists []. rewrite recording_nil. split; reflexivity.
Qed.

Lemma grype_hit_is_silent (h : host) (sbom : string) (st : state) :
  present st (GrypeService.destination h sbom) = true ->
  exists evs, (GrypeService.analyse h sbom st).2 = recording st evs
              /\ exec_calls evs = 0%nat.
Proof.
  intros Hhit.
  destruct (installedBinary (cliTool st)) as [binary |] eqn:Hbin.
  - destruct (present st sbom) eqn:Hsbom.
    + rewrite (grype_hit h sbom st binary Hbin Hsbom Hhit), readResult_run.
      eexists. split;
        [unfold recording; simpl; rewrite <- app_assoc; reflexivity | reflexivity].
    + unfold GrypeService.analyse, bind, gets, throw; simpl. rewrite Hbin; simpl.
      change (present _ sbom) with (present st sbom). rewrite Hsbom; simpl.
      exists [EvExistsSync sbom]. split; reflexivity.
  - unfold GrypeService.analyse, bind, gets, throw; simpl. rewrite Hbin.
    exists []. rewrite recording_nil. split; reflexivity.
Qed.

(** C3. When the destination computed by a scan invoker already exists,
    the invoker makes no call to the process executor and changes no
    file: the SBOM invoker only asks whether the destination exists and
    returns its path; the vulnerability invoker only asks whether the
    SBOM and the destination exist, reads the destination and returns
    what the schema makes of its content.  (The destination is computed
    once the binary is known to be installed and, for the SBOM invoker,
    the connection is a podman one; a call stopped before that runs
    nothing and writes nothing either.) *)
Theorem cache_hit_skips_the_binary :
  forall h : host,
    (forall (o : SyftService.options) (st : state),
        present st (SyftService.destination h o) = true ->
        (exists evs, (SyftService.analyse h o st).2 = recording st evs
                     /\ exec_calls evs = 0%nat)
        /\ fs (SyftService.analyse h o st).2 = fs st
        /\ forall binary : string,
             installedBinary (cliTool st) = Some binary ->
             conn_type (connection (SyftService.opt_connection o)) = "podman" ->
             SyftService.analyse h o st
             = (Ok (SyftService.destination h o),
                recording st [EvExistsSync (SyftService.destination h o)]))
    /\ (forall (sbom : string) (st : state),
           present st (GrypeService.destination h sbom) = true ->
           let d := GrypeService.destination h sbom in
           (exists evs, (GrypeService.analyse h sbom st).2 = recording st evs
                        /\ exec_calls evs = 0%nat)
           /\ fs (GrypeService.analyse h sbom st).2 = fs st
           /\ forall binary : string,
                installedBinary (cliTool st) = Some binary ->
                present st sbom = true ->
                GrypeService.analyse h sbom st
                = (match io_error h (EvReadFile d) with
                   | Some e => Err e
                   | None =>
                       match fs st !! d with
                       | Some data =>
                           let? value := JSON_parse h data in
                           GrypeOutputSchema_parse value
                       | None => Err ENOENT
                       end
                   end,
                   recording st [EvExistsSync sbom; EvExistsSync d; EvReadFile d])).
Proof.
  intros h. split.
  - intros o st Hhit.
    destruct (syft_hit_is_silent h o st Hhit) as (evs & Hst & Hexec).
    split; [exists evs; split; assumption |].
    split; [rewrite Hst; reflexivity |].
    intros binary Hbin Hty. exact (syft_hit h o st binary Hbin Hty Hhit).
  - intros sbom st Hhit d.
    destruct (grype_hit_is_silent h sbom st Hhit) as (evs & Hst & Hexec).
    split; [exists evs; split; assumption |].
    split; [rewrite Hst; reflexivity |].
    intros binary Hbin Hsbom.
    rewrite (grype_hit h sbom st binary Hbin Hsbom Hhit), readResult_run.
    fold d. unfold recording; simpl. rewrite <- app_assoc. reflexivity.
Qed.

Lemma cache_hit_skips_the_binary_witness :
  let h := Sample.host_with (Sample.scanner Sample.empty_report) [] in
  let sbom := "/storage/podman/machine/abcd1234.jsonpow" in
  let report := "/storage/podman/machine/abcd1234.json" in
  let o := {| SyftService.opt_connection := Sample.machine;
              SyftService.opt_imageId := "sha256:abcd1234" |} in
  let st := Sample.state_with {[ sbom := "{}"; report := Sample.empty_report ]}
              (Some (Sample.installed "syft")) in
  present st (SyftService.destination h o) = true
  /\ present st (GrypeService.destination h sbom) = true
  /\ (SyftService.analyse h o st).1 = Ok sbom
  /\ (GrypeService.analyse h sbom st).1 = Ok {| matches := [] |}
  /\ trace (GrypeService.analyse h sbom st).2
     = [EvExistsSync sbom; EvExistsSync report; EvReadFile report].
Proof.
  intros h sbom report o st.
  assert (Hs : present st (SyftService.destination h o) = true) by reflexivity.
  assert (Hg : present st (GrypeService.destination h sbom) = true) by reflexivity.
  split; [exact Hs | split; [exact Hg |]].
  destruct (cache_hit_skips_the_binary h) as [Hsyft Hgrype].
  destruct (Hsyft o st Hs) as (_ & _ & Hpath).
  destruct (Hgrype sbom st Hg) as (_ & _ & Hread).
  rewrite (Hpath "/storage/syft/syft" eq_refl eq_refl).
  rewrite (Hread "/storage/syft/syft" eq_refl eq_refl).
  repeat split.
Defined.

(** ** Where the scan output is written *)

Lemma syft_miss_calls (h : host) (o : SyftService.options) (st : state)
    (binary : string) :
  installedBinary (cliTool st) = Some binary ->
  conn_type (connection (SyftService.opt_connection o)) = "podman" ->
  present st (SyftService.destination h o) = false ->
  exists env evs,
    trace (SyftService.analyse h o st).2 = trace st ++ evs
    /\ evs `prefix_of` syft_scan_calls h binary o env
    /\ forall p, (SyftService.analyse h o st).1 = Ok p ->
                 p = SyftService.destination h o
                 /\ evs = syft_scan_calls h binary o env.
Proof.
  intros Hbin Hty Hmiss.
  rewrite (syft_miss h o st binary Hbin Hty Hmiss).
  destruct (scan_run h binary o (SyftService.destination h o)
              (recording st
                 [EvExistsSync (SyftService.destination h o);
                  EvWithProgress
                    ("Scanning " +:+
                     SyftService.sanitizeImageId (SyftService.opt_imageId o))]))
    as (env & evs & Htrace & [rest Hprefix] & Hok).
  exists env, (EvExistsSync (SyftService.destination h o)
               :: EvWithProgress
                    ("Scanning " +:+
                     SyftService.sanitizeImageId (SyftService.opt_imageId o))
               :: evs).
  split; [| split].
  - rewrite Htrace. unfold recording; simpl. rewrite <- app_assoc. reflexivity.
  - exists rest. unfold syft_scan_calls; simpl. rewrite Hprefix. reflexivity.
  - intros p Hp. destruct (Hok p Hp) as [-> ->]. split; reflexivity.
Qed.

Example syft_scan_sample :
  let h := Sample.host_with (Sample.scanner "{}") [] in
  let o := {| SyftService.opt_connection := Sample.machine;
              SyftService.opt_imageId := "sha256:abcd1234" |} in
  let run := SyftService.analyse h o
               (Sample.state_with ∅ (Some (Sample.installed "syft"))) in
  run.1 = Ok "/storage/podman/machine/abcd1234.jsonpow"
  /\ trace run.2
     = [EvExistsSync "/storage/podman/machine/abcd1234.jsonpow";
        EvWithProgress "Scanning abcd1234";
        EvFindPodmanConnection Sample.machine;
        EvMkdir "/storage/podman/machine";
        EvExec "/storage/syft/syft"
          ["--from=podman"; "sha256:abcd1234";
           "--output=json=/storage/podman/machine/abcd1234.jsonpow.tmp"] (Some []);
        EvRename "/storage/podman/machine/abcd1234.jsonpow.tmp"
          "/storage/podman/machine/abcd1234.jsonpow"]
  /\ fs run.2 !! "/storage/podman/machine/abcd1234.jsonpow" = Some "{}"
  /\ fs run.2 !! "/storage/podman/machine/abcd1234.jsonpow.tmp" = None
  /\ handed_to_binary "/storage/podman/machine/abcd1234.jsonpow" (trace run.2) = false
  /\ renamed_from_tmp "/storage/podman/machine/abcd1234.jsonpow" (trace run.2) = true.
Proof. repeat split; vm_compute; reflexivity. Qed.

Example grype_scan_sample :
  let h := Sample.host_with (Sample.scanner Sample.empty_report) [] in
  let sbom := "/storage/podman/machine/abcd1234.jsonpow" in
  let st := Sample.state_with {[ sbom := "{}" ]} (Some (Sample.installed "grype")) in
  GrypeService.destination h sbom = "/storage/podman/machine/abcd1234.json"
  /\ present st sbom = true
  /\ present st (GrypeService.destination h sbom) = false
  /\ (GrypeService.analyse h sbom st).1 = Ok {| matches := [] |}
  /\ trace (GrypeService.analyse h sbom st).2
     = [EvExistsSync sbom;
        EvExistsSync "/storage/podman/machine/abcd1234.json";
        EvExec "/storage/grype/grype"
          ["sbom:/storage/podman/machine/abcd1234.jsonpow"; "--output=json";
           "--file=/storage/podman/machine/abcd1234.json"] None;
        EvReadFile "/storage/podman/machine/abcd1234.json"]
  /\ renamed_from_tmp (GrypeService.destination h sbom)
       (trace (GrypeService.analyse h sbom st).2) = false.
Proof. repeat split; vm_compute; reflexivity. Qed.




(** ** The SBOM destination *)

(** Why the SBOM cannot be named [<id>.json]: the vulnerability invoker
    keeps what precedes the first dot of the SBOM's base name and adds
    [.json], which for such an SBOM is the SBOM itself. *)
Example grype_destination_of_json_sbom :
  GrypeService.destination Sample.linux "/storage/podman/machine/abcd1234.json"
  = "/storage/podman/machine/abcd1234.json"
  /\ GrypeService.destination Sample.linux "/storage/podman/machine/abcd1234.jsonpow"
     = "/storage/podman/machine/abcd1234.json".
Proof. split; reflexivity. Qed.

(** C2 does not hold as stated: the path returned is not
    [storagePath/providerId/connectionName/<sanitized id>.json]. *)
Lemma sbom_destination_is_not_dot_json :
  ~ (forall (h : host) (o : SyftService.options) (st st' : state) (p : string),
        SyftService.analyse h o st = (Ok p, st') ->
        p = join h [storagePath h;
                    providerId (SyftService.opt_connection o);
                    conn_name (connection (SyftService.opt_connection o));
                    SyftService.sanitizeImageId (SyftService.opt_imageId o) +:+ ".json"]).
Proof.
  intros Hclaim.
  specialize (Hclaim Sample.linux
                {| SyftService.opt_connection := Sample.machine;
                   SyftService.opt_imageId := "sha256:abcd1234" |}
                (Sample.state_with {[ "/storage/podman/machine/abcd1234.jsonpow" := "{}" ]}
                   (Some (Sample.installed "syft")))
                _ _ eq_refl).
  vm_compute in Hclaim. discriminate.
Qed.

(** C2, amended. [sanitizeImageId] removes a leading "sha256:" and
    leaves any other image id as it is, and the path that [analyse]
    checks first and returns is
    [storagePath/providerId/connectionName/<sanitized id>.jsonpow]. *)
Theorem sbom_destination_path :
  (forall rest : string, SyftService.sanitizeImageId ("sha256:" +:+ rest) = rest)
  /\ (forall imageId : string,
         Js.startsWith imageId "sha256:" = false ->
         SyftService.sanitizeImageId imageId = imageId)
  /\ (forall (h : host) (o : SyftService.options) (st st' : state) (p : string),
         SyftService.analyse h o st = (Ok p, st') ->
         p = join h [storagePath h;
                     providerId (SyftService.opt_connection o);
                     conn_name (connection (SyftService.opt_connection o));
                     SyftService.sanitizeImageId (SyftService.opt_imageId o) +:+ ".jsonpow"]
         /\ exists evs, trace st' = trace st ++ EvExistsSync p :: evs).
Proof.
  split; [exact sanitize_strips | split; [exact sanitize_keeps |]].
  intros h o st st' p Hrun.
  change (join h _) with (SyftService.destination h o).
  destruct (installedBinary (cliTool st)) as [binary |] eqn:Hbin.
  2: { unfold SyftService.analyse, bind, gets, throw in Hrun; simpl in Hrun.
       rewrite Hbin in Hrun. discriminate. }
  destruct (String.eqb_spec (conn_type (connection (SyftService.opt_connection o)))
              "podman") as [Hty | Hty].
  2: { apply String.eqb_neq in Hty.
       unfold SyftService.analyse, bind, gets, throw in Hrun; simpl in Hrun.
       rewrite Hbin, Hty in Hrun. discriminate. }
  destruct (present st (SyftService.destination h o)) eqn:Hcache.
  - rewrite (syft_hit h o st binary Hbin Hty Hcache) in Hrun.
    inversion Hrun; subst. split; [reflexivity |]. exists []. reflexivity.
  - destruct (syft_miss_calls h o st binary Hbin Hty Hcache)
      as (env & evs & Htrace & _ & Hok).
    rewrite Hrun in Htrace, Hok. simpl in Htrace, Hok.
    destruct (Hok p eq_refl) as [-> ->].
    split; [reflexivity |]. rewrite Htrace. eexists. reflexivity.
Qed.

Lemma sbom_destination_path_witness :
  let o := {| SyftService.opt_connection := Sample.machine;
              SyftService.opt_imageId := "sha256:abcd1234" |} in
  let st := Sample.state_with {[ "/storage/podman/machine/abcd1234.jsonpow" := "{}" ]}
              (Some (Sample.installed "syft")) in
  (SyftService.analyse Sample.linux o st).1 = Ok "/storage/podman/machine/abcd1234.jsonpow"
  /\ "/storage/podman/machine/abcd1234.jsonpow"
     = join Sample.linux
         [storagePath Sample.linux; "podman"; "machine";
          SyftService.sanitizeImageId "sha256:abcd1234" +:+ ".jsonpow"].
Proof.
  intros o st. split; [reflexivity |].
  destruct sbom_destination_path as (_ & _ & Hpath).
  destruct (Hpath Sample.linux o st
              (SyftService.analyse Sample.linux o st).2
              "/storage/podman/machine/abcd1234.jsonpow" eq_refl) as [Hp _].
  exact Hp.
Defined.

(** ** Tool lifecycle manager: probing the installed version *)

Lemma second_token (text : string) :
  match Js.split_ws text with
  | _ :: version :: _ => version
  | _ => text
  end
  = default text (Js.split_ws text !! 1%nat).
Proof. destruct (Js.split_ws text) as [| first [| version rest]]; reflexivity. Qed.

Example probe_samples :
  let registered (out : string) :=
    cliTool (init (Sample.host_with (Sample.prints out) []) SyftService.tool
               Sample.with_syft_binary).2 in
  registered "syft 1.41.2
"
  = Some {| tool_name := "syft"; version := Some "1.41.2";
            path := Some "/storage/syft/syft" |}
  /\ registered "1.41.2"
     = Some {| tool_name := "syft"; version := Some "1.41.2";
               path := Some "/storage/syft/syft" |}
  /\ registered "" = Some {| tool_name := "syft"; version := Some ""; path := None |}.
Proof. repeat split; vm_compute; reflexivity. Qed.




(** ** Tool lifecycle manager: cleaning up after an installation *)

Example doInstall_sample :
  (doInstall Sample.linux SyftService.tool Sample.with_selection).1
  = Err (HostError "corrupt archive")
  /\ trace (doInstall Sample.linux SyftService.tool Sample.with_selection).2
     = [EvListReleaseAssets "anchore" "syft" 41;
        EvGetReleaseAsset "anchore" "syft" 7;
        EvMkdir "/storage/syft";
        EvWriteFile "/storage/syft/syft_1.41.2_linux_amd64.tar.gz";
        EvLog "Downloaded syft to /storage/syft/syft_1.41.2_linux_amd64.tar.gz";
        EvUnpack TarGz "/storage/syft/syft_1.41.2_linux_amd64.tar.gz" "/storage/syft";
        EvRm "/storage/syft/syft_1.41.2_linux_amd64.tar.gz"]
  /\ fs (doInstall Sample.linux SyftService.tool Sample.with_selection).2
       !! "/storage/syft/syft_1.41.2_linux_amd64.tar.gz" = None.
Proof. repeat split; vm_compute; reflexivity. Qed.

(** C8. Once [doInstall] has the archive on disk, it extracts it and
    then, whether the extraction (with the version update) succeeded or
    failed, asks for the archive to be removed: that removal is the last
    call made.  The outcome of [doInstall] is the outcome of the
    extraction, also when the removal fails, in which case the files are
    left as the extraction left them. *)
Theorem doInstall_removes_the_archive :
  forall (h : host) (t : Tool) (st st1 : state) (release : GithubReleaseMetadata)
         (assetPath : string),
    selected st = Some release ->
    download h t release st = (Ok assetPath, st1) ->
    let extraction :=
      install_archive h t release assetPath
        (recording st1 [EvLog ("Downloaded " +:+ toolId t +:+ " to " +:+ assetPath)]) in
    (doInstall h t st).1 = extraction.1
    /\ trace (doInstall h t st).2 = trace extraction.2 ++ [EvRm assetPath]
    /\ fs (doInstall h t st).2
       = match io_error h (EvRm assetPath), fs extraction.2 !! assetPath with
         | None, Some _ => delete assetPath (fs extraction.2)
         | _, _ => fs extraction.2
         end.
Proof.
  intros h t st st1 release assetPath Hsel Hdl extraction.
  assert (Hrun : doInstall h t st
                 = try_finally (install_archive h t release assetPath)
                     (try_catch (rm h assetPath) (fun _ => ret tt))
                     (recording st1
                        [EvLog ("Downloaded " +:+ toolId t +:+ " to " +:+ assetPath)])).
  { unfold doInstall. unfold bind at 1. unfold gets. rewrite Hsel.
    unfold bind at 1. rewrite Hdl. reflexivity. }
  rewrite Hrun. unfold try_finally. fold extraction.
  destruct extraction as [r st2]; simpl.
  unfold try_catch, rm, guarded, bind, emit, gets, set_fs, throw, ret; simpl.
  destruct (io_error h (EvRm assetPath)); simpl; [repeat split |].
  destruct (fs st2 !! assetPath); simpl; repeat split.
Qed.

Lemma doInstall_removes_the_archive_witness :
  let archive := "/storage/syft/syft_1.41.2_linux_amd64.tar.gz" in
  exists st1,
    download Sample.linux SyftService.tool
      {| label := "v1.41.2"; tag := "v1.41.2"; id := 41 |} Sample.with_selection
    = (Ok archive, st1)
    /\ (doInstall Sample.linux SyftService.tool Sample.with_selection).1
       = Err (HostError "corrupt archive")
    /\ last (trace (doInstall Sample.linux SyftService.tool Sample.with_selection).2)
       = Some (EvRm archive).
Proof.
  intros archive.
  exists (download Sample.linux SyftService.tool
            {| label := "v1.41.2"; tag := "v1.41.2"; id := 41 |} Sample.with_selection).2.
  assert (Hdl : download Sample.linux SyftService.tool
                  {| label := "v1.41.2"; tag := "v1.41.2"; id := 41 |}
                  Sample.with_selection
                = (Ok archive,
                   (download Sample.linux SyftService.tool
                      {| label := "v1.41.2"; tag := "v1.41.2"; id := 41 |}
                      Sample.with_selection).2)) by reflexivity.
  split; [exact Hdl |].
  destruct (doInstall_removes_the_archive Sample.linux SyftService.tool
              Sample.with_selection _ _ archive eq_refl Hdl) as (Hout & Htrace & _).
  split; [rewrite Hout; reflexivity |].
  rewrite Htrace. apply last_snoc.
Defined.

(** * Further properties of the services *)

(** ** Strings *)

Lemma substring_past (a b : string) (n : nat) :
  Js.substring (String.length a + n) (a +:+ b) = Js.substring n b.
Proof. induction a as [| c a IH]; simpl; [reflexivity | exact IH]. Qed.

Lemma string_app_assoc (a b c : string) : (a +:+ b) +:+ c = a +:+ (b +:+ c).
Proof.
  induction a as [| x a IH]; [reflexivity |].
  change (String x ((a +:+ b) +:+ c) = String x (a +:+ (b +:+ c))).
  rewrite IH. reflexivity.
Qed.

(** What follows a prefix decides [endsWith], as long as the suffix
    asked for is not longer than it. *)
Lemma endsWith_after_prefix (pre body suffix : string) :
  (String.length suffix <= String.length body)%nat ->
  Js.endsWith (pre +:+ body) suffix = Js.endsWith body suffix.
Proof.
  intros Hlen. unfold Js.endsWith.
  rewrite string_length_app.
  replace (String.length pre + String.length body - String.length suffix)%nat
    with (String.length pre + (String.length body - String.length suffix))%nat by lia.
  rewrite substring_past. reflexivity.
Qed.

(** ** Archive extractor *)

Lemma getAssetName_extension (h : host) (t : Tool) (version : string) :
  exists stem,
    getAssetName h t version
    = stem +:+ (if String.eqb (nodePlatform h) "win32" then ".zip" else ".tar.gz").
Proof.
  unfold getAssetName.
  destruct (String.eqb (nodePlatform h) "win32");
    [| destruct (String.eqb (nodePlatform h) "darwin")];
    cbv zeta beta iota;
    set (architecture := if String.eqb (nodeArch h) "x64" then _ else _);
    match goal with
    | |- exists stem, ?b +:+ "_" +:+ ?v +:+ "_" +:+ ?o +:+ "_" +:+ ?a +:+ "." +:+ ?e = _ =>
        exists (b +:+ "_" +:+ v +:+ "_" +:+ o +:+ "_" +:+ a)
    end;
    rewrite !string_app_assoc; reflexivity.
Qed.

(** X1. Whatever precedes it in a path, a name built by the asset namer
    is read by [extract] as an archive it can unpack: a zip on win32 and
    a gzipped tar on every other platform. *)
Theorem asset_name_has_known_format :
  forall (h : host) (t : Tool) (version directory : string),
    archive_format (directory +:+ getAssetName h t version)
    = Some (if String.eqb (nodePlatform h) "win32" then Zip else TarGz).
Proof.
  intros h t version directory.
  destruct (getAssetName_extension h t version) as [stem ->].
  rewrite <- string_app_assoc. unfold archive_format.
  destruct (String.eqb (nodePlatform h) "win32").
  - rewrite endsWith_after_prefix by (simpl; lia). reflexivity.
  - rewrite !endsWith_after_prefix by (simpl; lia). reflexivity.
Qed.

Lemma extract_unknown_run (h : host) (t : Tool) (archivePath destDir : string)
    (st : state) :
  archive_format archivePath = None ->
  extract h t archivePath destDir st
  = (Err (Error ("Unsupported archive format: " +:+ archivePath)), st).
Proof.
  intros Hfmt.
  unfold archive_format in Hfmt. unfold extract, bind, throw.
  destruct (Js.endsWith archivePath ".zip"); [discriminate |].
  destruct (Js.endsWith archivePath ".tar.gz"); [discriminate |].
  reflexivity.
Qed.

Lemma extract_known_run (h : host) (t : Tool) (archivePath destDir : string)
    (st : state) (kind : archive) :
  archive_format archivePath = Some kind ->
  let bin := extracted_binary h t destDir in
  let unpacked := unpack h kind archivePath destDir (fs st) in
  let calls :=
    match unpacked.1 with
    | Err _ => [EvUnpack kind archivePath destDir]
    | Ok _ =>
        if isWindows h then [EvUnpack kind archivePath destDir]
        else [EvUnpack kind archivePath destDir; EvChmod bin 493]
    end in
  extract h t archivePath destDir st
  = (match unpacked.1 with
     | Err e => Err e
     | Ok _ =>
         if isWindows h then Ok bin
         else match io_error h (EvChmod bin 493) with
              | Some e => Err e
              | None => if bool_decide (is_Some (unpacked.2 !! bin))
                        then Ok bin else Err ENOENT
              end
     end,
     with_files (recording st calls) unpacked.2).
Proof.
  intros Hfmt bin unpacked calls.
  assert (Hrun : extract h t archivePath destDir
                 = (unpackArchive h kind archivePath destDir ;;;
                    (if negb (isWindows h) then chmod h bin 493 else ret tt) ;;;
                    ret bin)).
  { unfold archive_format in Hfmt. unfold extract.
    destruct (Js.endsWith archivePath ".zip").
    - inversion Hfmt; subst. reflexivity.
    - destruct (Js.endsWith archivePath ".tar.gz"); [| discriminate].
      inversion Hfmt; subst. reflexivity. }
  rewrite Hrun.
  unfold unpackArchive, chmod, guarded, bind, emit, gets, set_fs, lift, ret, throw,
    with_files, recording; simpl.
  fold unpacked. subst calls.
  destruct unpacked.1 as [[] | e]; simpl; [| reflexivity].
  destruct (isWindows h); simpl; [reflexivity |].
  rewrite <- app_assoc; simpl.
  destruct (io_error h (EvChmod bin 493)); simpl; [reflexivity |].
  destruct (unpacked.2 !! bin) eqn:Hbin; reflexivity.
Qed.

(** X2. An archive whose path ends neither in .zip nor in .tar.gz is
    refused by [extract] with "Unsupported archive format: <path>";
    nothing is unpacked and no permission is changed. *)
Theorem extract_refuses_unknown_format :
  forall (h : host) (t : Tool) (archivePath destDir : string) (st : state),
    archive_format archivePath = None ->
    extract h t archivePath destDir st
    = (Err (Error ("Unsupported archive format: " +:+ archivePath)), st).
Proof.
  intros h t archivePath destDir st Hfmt.
  exact (extract_unknown_run h t archivePath destDir st Hfmt).
Qed.

Lemma extract_refuses_unknown_format_witness :
  archive_format "/storage/syft/syft_1.41.2_linux_amd64.tar" = None
  /\ extract Sample.linux SyftService.tool
       "/storage/syft/syft_1.41.2_linux_amd64.tar" "/storage/syft" Sample.with_selection
     = (Err (Error "Unsupported archive format: /storage/syft/syft_1.41.2_linux_amd64.tar"),
        Sample.with_selection).
Proof.
  split; [reflexivity |].
  apply (extract_refuses_unknown_format Sample.linux SyftService.tool). reflexivity.
Defined.



(** ** Release assets *)

Lemma find_none_of_forall {A} (f : A -> bool) (l : list A) :
  Forall (fun a => f a = false) l -> List.find f l = None.
Proof.
  induction 1 as [| a l Ha _ IH]; simpl; [reflexivity | rewrite Ha; exact IH].
Qed.

(** X4. For a release whose tag starts with an ASCII character (the
    leading v), when the release has no asset with the name built by the
    asset namer for the tag without that character, [download] stops
    with "asset <name> not found" after the single listing call: no
    asset is fetched, no directory is made and no file is written. *)
Theorem download_stops_without_asset :
  forall (h : host) (t : Tool) (release : GithubReleaseMetadata) (st : state)
         (data : list Asset),
    Js.ascii_head (tag release) = true ->
    listReleaseAssets_response h ANCHORE_GITHUB_ORG (repoName t) (id release) = Ok data ->
    Forall (fun a => asset_name a <> getAssetName h t (Js.slice1 (tag release))) data ->
    download h t release st
    = (Err (Error ("asset " +:+ getAssetName h t (Js.slice1 (tag release)) +:+ " not found")),
       recording st [EvListReleaseAssets ANCHORE_GITHUB_ORG (repoName t) (id release)]).
Proof.
  intros h t release st data _ Hlist Hnone.
  unfold download, octokit_listReleaseAssets, bind, emit, lift, throw; simpl.
  rewrite Hlist; simpl.
  rewrite find_none_of_forall; [reflexivity |].
  eapply Forall_impl; [exact Hnone |].
  intros a Ha; simpl in Ha. apply String.eqb_neq. congruence.
Qed.

Lemma download_stops_without_asset_witness :
  let release := {| label := "v1.42.0"; tag := "v1.42.0"; id := 42 |} in
  download Sample.linux SyftService.tool release Sample.with_selection
  = (Err (Error "asset syft_1.42.0_linux_amd64.tar.gz not found"),
     recording Sample.with_selection [EvListReleaseAssets "anchore" "syft" 42]).
Proof.
  intros release.
  apply (download_stops_without_asset Sample.linux SyftService.tool release
           Sample.with_selection
           [{| asset_id := 7; asset_name := "syft_1.41.2_linux_amd64.tar.gz" |}]).
  - reflexivity.
  - reflexivity.
  - repeat constructor. discriminate.
Defined.

(** What [download] does once the asset is in the listing. *)
Lemma download_run (h : host) (t : Tool) (release : GithubReleaseMetadata) (st : state)
    (data : list Asset) (asset : Asset) :
  listReleaseAssets_response h ANCHORE_GITHUB_ORG (repoName t) (id release) = Ok data ->
  List.find (fun a => String.eqb (getAssetName h t (Js.slice1 (tag release))) (asset_name a))
    data = Some asset ->
  let destination := join h [storageDir h t; getAssetName h t (Js.slice1 (tag release))] in
  let listing := EvListReleaseAssets ANCHORE_GITHUB_ORG (repoName t) (id release) in
  let fetch := EvGetReleaseAsset ANCHORE_GITHUB_ORG (repoName t) (asset_id asset) in
  download h t release st
  = match getReleaseAsset_response h ANCHORE_GITHUB_ORG (repoName t) (asset_id asset) with
    | Err e => (Err e, recording st [listing; fetch])
    | Ok bytes =>
        match io_error h (EvMkdir (storageDir h t)) with
        | Some e => (Err e, recording st [listing; fetch; EvMkdir (storageDir h t)])
        | None =>
            let made :=
              {| fs := fs st; dirs := {[storageDir h t]} ∪ dirs st;
                 trace := trace st ++ [listing; fetch; EvMkdir (storageDir h t);
                                       EvWriteFile destination];
                 cliTool := cliTool st; probed := probed st; selected := selected st |} in
            match io_error h (EvWriteFile destination) with
            | Some e => (Err e, made)
            | None => (Ok destination, with_files made (<[destination := bytes]> (fs st)))
            end
        end
    end.
Proof.
  intros Hlist Hfind destination listing fetch.
  assert (Hname : asset_name asset = getAssetName h t (Js.slice1 (tag release))).
  { apply find_some in Hfind as [_ Heq]. apply String.eqb_eq in Heq. congruence. }
  unfold download, octokit_listReleaseAssets, octokit_getReleaseAsset, mkdir, writeFile,
    guarded, bind, emit, gets, set_fs, add_dir, lift, ret, throw, recording, with_files;
    simpl.
  rewrite Hlist; simpl. rewrite Hfind; simpl.
  destruct (getReleaseAsset_response h ANCHORE_GITHUB_ORG (repoName t) (asset_id asset));
    simpl; [| rewrite <- app_assoc; reflexivity].
  destruct (io_error h (EvMkdir (storageDir h t))); simpl;
    [rewrite <- !app_assoc; reflexivity |].
  rewrite Hname. fold destination.
  destruct (io_error h (EvWriteFile destination)); simpl;
    rewrite <- !app_assoc; reflexivity.
Qed.

(** X5. When the listing has the asset, the asset can be fetched and the
    file system accepts the calls, [download] creates the storage
    directory of the tool and writes the bytes fetched to
    [storageDir/<asset name>], which it returns; every other file is
    left as it was. *)
Theorem download_writes_the_asset :
  forall (h : host) (t : Tool) (release : GithubReleaseMetadata) (st : state)
         (data : list Asset) (asset : Asset) (bytes : string),
    listReleaseAssets_response h ANCHORE_GITHUB_ORG (repoName t) (id release) = Ok data ->
    List.find (fun a => String.eqb (getAssetName h t (Js.slice1 (tag release))) (asset_name a))
      data = Some asset ->
    getReleaseAsset_response h ANCHORE_GITHUB_ORG (repoName t) (asset_id asset) = Ok bytes ->
    let destination := join h [storageDir h t; getAssetName h t (Js.slice1 (tag release))] in
    io_error h (EvMkdir (storageDir h t)) = None ->
    io_error h (EvWriteFile destination) = None ->
    (download h t release st).1 = Ok destination
    /\ fs (download h t release st).2 !! destination = Some bytes
    /\ (forall p, p <> destination -> fs (download h t release st).2 !! p = fs st !! p)
    /\ storageDir h t ∈ dirs (download h t release st).2.
Proof.
  intros h t release st data asset bytes Hlist Hfind Hfetch destination Hmk Hwr.
  rewrite (download_run h t release st data asset Hlist Hfind).
  rewrite Hfetch, Hmk. fold destination. rewrite Hwr. simpl.
  split; [reflexivity |]. split; [apply lookup_insert_eq |].
  split; [intros p Hp; apply lookup_insert_ne; congruence | set_solver].
Qed.

Lemma download_writes_the_asset_witness :
  let release := {| label := "v1.41.2"; tag := "v1.41.2"; id := 41 |} in
  (download Sample.linux SyftService.tool release Sample.with_selection).1
  = Ok "/storage/syft/syft_1.41.2_linux_amd64.tar.gz"
  /\ fs (download Sample.linux SyftService.tool release Sample.with_selection).2
       !! "/storage/syft/syft_1.41.2_linux_amd64.tar.gz" = Some "archive-bytes".
Proof.
  intros release.
  destruct (download_writes_the_asset Sample.linux SyftService.tool release
              Sample.with_selection
              [{| asset_id := 7; asset_name := "syft_1.41.2_linux_amd64.tar.gz" |}]
              {| asset_id := 7; asset_name := "syft_1.41.2_linux_amd64.tar.gz" |}
              "archive-bytes" eq_refl eq_refl eq_refl eq_refl eq_refl)
    as (Hpath & Hfile & _).
  split; [exact Hpath | exact Hfile].
Defined.

(** ** Choosing a version *)

Lemma promptUserForVersion_run (h : host) (t : Tool) (current : option string)
    (st : state) :
  let listing := EvListReleases ANCHORE_GITHUB_ORG (repoName t) in
  promptUserForVersion h t current st
  = match listReleases_response h ANCHORE_GITHUB_ORG (repoName t) with
    | Err e => (Err e, recording st [listing])
    | Ok data =>
        let offered := offered_releases current data in
        (match quickPick_choice h offered with
         | Some release => Ok release
         | None => Err (Error "No version selected")
         end,
         recording st
           [listing;
            EvShowQuickPick offered
              ("Select " +:+ displayName t +:+ " version to download")])
    end.
Proof.
  unfold promptUserForVersion, listReleases, octokit_listReleases, showQuickPick,
    offered_releases, bind, emit, lift, ret, throw, recording; simpl.
  destruct (listReleases_response h ANCHORE_GITHUB_ORG (repoName t)) as [data | e];
    simpl; [| reflexivity].
  rewrite <- app_assoc; simpl.
  destruct current as [cur |]; simpl;
    [destruct (negb (String.eqb cur "")) |];
    match goal with
    | |- context [quickPick_choice h ?l] => destruct (quickPick_choice h l)
    end; reflexivity.
Qed.

Lemma offered_at_most_ten (current : option string) (data : list Release) :
  (length (offered_releases current data) <= 10)%nat.
Proof.
  assert (Hten : (length (selectReleases 10 data) <= 10)%nat).
  { rewrite selectReleases_take by lia. rewrite length_map, length_take. lia. }
  unfold offered_releases.
  destruct current as [cur |]; [destruct (Js.truthy (Some cur)) |]; try exact Hten.
  etransitivity; [apply sublist_length, filter_sublist | exact Hten].
Qed.

(** X6. [promptUserForVersion] lists the releases once and shows one
    quick pick.  The quick pick holds at most ten entries, none of them
    carrying the current tag when one is given: the current release is
    taken out after the list has been cut to ten.  The answer is the
    entry picked, and "No version selected" when the pick is dismissed.
    If the listing fails, its error is the answer and no quick pick is
    shown. *)
Theorem prompt_hides_the_current_release :
  forall (h : host) (t : Tool) (current : string) (st : state),
    current <> "" ->
    let listing := EvListReleases ANCHORE_GITHUB_ORG (repoName t) in
    match listReleases_response h ANCHORE_GITHUB_ORG (repoName t) with
    | Err e => promptUserForVersion h t (Some current) st = (Err e, recording st [listing])
    | Ok data =>
        exists offered,
          offered = List.filter (fun release => negb (String.eqb (tag release) current))
                      (selectReleases 10 data)
          /\ Forall (fun release => tag release <> current) offered
          /\ (length offered <= 10)%nat
          /\ promptUserForVersion h t (Some current) st
             = (match quickPick_choice h offered with
                | Some release => Ok release
                | None => Err (Error "No version selected")
                end,
                recording st
                  [listing;
                   EvShowQuickPick offered
                     ("Select " +:+ displayName t +:+ " version to download")])
    end.
Proof.
  intros h t current st Hcur listing.
  pose proof (promptUserForVersion_run h t (Some current) st) as Hrun.
  pose proof (offered_at_most_ten (Some current)) as Hten.
  assert (Hoff : forall data,
             offered_releases (Some current) data
             = List.filter (fun release => negb (String.eqb (tag release) current))
                 (selectReleases 10 data)).
  { intros data. unfold offered_releases; simpl.
    apply String.eqb_neq in Hcur. rewrite Hcur. reflexivity. }
  destruct (listReleases_response h ANCHORE_GITHUB_ORG (repoName t)) as [data | e];
    [| exact Hrun].
  exists (offered_releases (Some current) data).
  split; [apply Hoff |]. split; [| split; [apply Hten | exact Hrun]].
  rewrite Hoff. eapply Forall_impl; [apply filter_all |].
  intros release Hne; simpl in Hne.
  apply negb_true_iff, String.eqb_neq in Hne. exact Hne.
Qed.

Lemma prompt_hides_the_current_release_witness :
  exists offered,
    Forall (fun release => tag release <> "v1.42.0") offered
    /\ promptUserForVersion Fixture.unpacking SyftService.tool (Some "v1.42.0")
         Fixture.probed_1_41_2
       = (Ok {| label := "v1.41.2"; tag := "v1.41.2"; id := 41 |},
          recording Fixture.probed_1_41_2
            [EvListReleases "anchore" "syft";
             EvShowQuickPick offered "Select Syft version to download"]).
Proof.
  pose proof (prompt_hides_the_current_release Fixture.unpacking SyftService.tool
                "v1.42.0" Fixture.probed_1_41_2 ltac:(discriminate)) as H.
  simpl in H. destruct H as (offered & Hoff & Hall & _ & Hrun).
  exists offered. split; [exact Hall |].
  rewrite Hrun. subst offered. reflexivity.
Defined.

Lemma selectVersion_run (h : host) (t : Tool) (st : state) :
  let current :=
    match probed st with
    | Some v => if Js.truthy (probed st) then Some ("v" +:+ v) else None
    | None => None
    end in
  selectVersion h t st
  = match promptUserForVersion h t current st with
    | (Ok chosen, st') =>
        (Ok (Js.slice1 (tag chosen)),
         {| fs := fs st'; dirs := dirs st'; trace := trace st'; cliTool := cliTool st';
            probed := probed st'; selected := Some chosen |})
    | (Err e, st') => (Err e, st')
    end.
Proof.
  unfold selectVersion, bind, gets, set_selected, ret; simpl.
  destruct (promptUserForVersion h t _ st) as [[chosen | e] st']; reflexivity.
Qed.

(** X7. [selectVersion] never offers the release whose tag is v followed
    by the version probed at start-up.  When an entry is picked it
    becomes the selection and a version is returned, which is the tag
    without its first character when the tag starts with an ASCII
    character (the leading v); when the pick is dismissed the call fails
    with "No version selected" and the selection stays what it was. *)
Theorem selectVersion_skips_the_installed_release :
  forall (h : host) (t : Tool) (st : state) (installed : string) (data : list Release),
    probed st = Some installed ->
    installed <> "" ->
    listReleases_response h ANCHORE_GITHUB_ORG (repoName t) = Ok data ->
    exists offered,
      Forall (fun release => tag release <> "v" +:+ installed) offered
      /\ trace (selectVersion h t st).2
         = trace st ++
           [EvListReleases ANCHORE_GITHUB_ORG (repoName t);
            EvShowQuickPick offered ("Select " +:+ displayName t +:+ " version to download")]
      /\ match quickPick_choice h offered with
         | Some chosen =>
             selected (selectVersion h t st).2 = Some chosen
             /\ exists v,
                  (selectVersion h t st).1 = Ok v
                  /\ (Js.ascii_head (tag chosen) = true -> v = Js.slice1 (tag chosen))
         | None =>
             (selectVersion h t st).1 = Err (Error "No version selected")
             /\ selected (selectVersion h t st).2 = selected st
         end.
Proof.
  intros h t st installed data Hprobed Hne Hlist.
  rewrite selectVersion_run, Hprobed. simpl.
  apply String.eqb_neq in Hne. rewrite Hne. simpl.
  rewrite promptUserForVersion_run, Hlist. cbv zeta.
  exists (offered_releases (Some ("v" +:+ installed)) data).
  split.
  - unfold offered_releases. simpl.
    eapply Forall_impl; [apply filter_all |].
    intros release Hr; simpl in Hr.
    apply negb_true_iff, String.eqb_neq in Hr. exact Hr.
  - destruct (quickPick_choice h _) as [chosen |]; simpl; repeat split.
    exists (Js.slice1 (tag chosen)). split; [reflexivity | intros _; reflexivity].
Qed.

Lemma selectVersion_skips_the_installed_release_witness :
  (selectVersion Fixture.unpacking SyftService.tool Fixture.probed_1_41_2).1 = Ok "1.42.0"
  /\ exists offered,
       Forall (fun release => tag release <> "v1.41.2") offered
       /\ trace (selectVersion Fixture.unpacking SyftService.tool Fixture.probed_1_41_2).2
          = [EvListReleases "anchore" "syft";
             EvShowQuickPick offered "Select Syft version to download"].
Proof.
  destruct (selectVersion_skips_the_installed_release Fixture.unpacking SyftService.tool
              Fixture.probed_1_41_2 "1.41.2" _ eq_refl ltac:(discriminate) eq_refl)
    as (offered & Hall & Htrace & Hpick).
  split; [| exists offered; split; [exact Hall | exact Htrace]].
  assert (Hchoice : quickPick_choice Fixture.unpacking offered
                    = Some {| label := "v1.42.0"; tag := "v1.42.0"; id := 42 |}).
  { injection Htrace as Hoff. rewrite <- Hoff. reflexivity. }
  rewrite Hchoice in Hpick. destruct Hpick as (_ & v & Hrun & Hv).
  rewrite Hrun, (Hv eq_refl). reflexivity.
Defined.

(** ** Installing *)

Lemma download_keeps_service (h : host) (t : Tool) (release : GithubReleaseMetadata)
    (st : state) :
  cliTool (download h t release st).2 = cliTool st
  /\ selected (download h t release st).2 = selected st
  /\ probed (download h t release st).2 = probed st.
Proof.
  unfold download, octokit_listReleaseAssets, octokit_getReleaseAsset, mkdir, writeFile,
    guarded, bind, emit, gets, set_fs, add_dir, lift, ret, throw; simpl.
  destruct (listReleaseAssets_response h _ _ _) as [data | e]; simpl; [| repeat split].
  destruct (List.find _ data) as [asset |]; simpl; [| repeat split].
  destruct (getReleaseAsset_response h _ _ _); simpl; [| repeat split].
  destruct (io_error h (EvMkdir _)); simpl; [repeat split |].
  destruct (io_error h (EvWriteFile _)); simpl; repeat split.
Qed.

Lemma extract_keeps_service (h : host) (t : Tool) (archivePath destDir : string)
    (st : state) :
  cliTool (extract h t archivePath destDir st).2 = cliTool st
  /\ selected (extract h t archivePath destDir st).2 = selected st
  /\ forall p, (extract h t archivePath destDir st).1 = Ok p ->
               p = extracted_binary h t destDir.
Proof.
  destruct (archive_format archivePath) as [kind |] eqn:Hfmt.
  - rewrite (extract_known_run h t archivePath destDir st kind Hfmt). simpl.
    split; [reflexivity | split; [reflexivity |]].
    intros p.
    destruct (unpack h kind archivePath destDir (fs st)).1; [| discriminate].
    destruct (isWindows h); [intros H; inversion H; reflexivity |].
    destruct (io_error h _); [discriminate |].
    destruct (bool_decide _); [intros H; inversion H; reflexivity | discriminate].
  - rewrite (extract_unknown_run h t archivePath destDir st Hfmt). simpl.
    split; [reflexivity | split; [reflexivity | discriminate]].
Qed.

Lemma cleanup_run (h : host) (p : string) (st : state) :
  exists st', try_catch (rm h p) (fun _ => ret tt) st = (Ok tt, st')
              /\ cliTool st' = cliTool st /\ selected st' = selected st
              /\ (forall q, q <> p -> fs st' !! q = fs st !! q)
              /\ (io_error h (EvRm p) = None -> fs st' !! p = None).
Proof.
  unfold try_catch, rm, guarded, bind, emit, gets, set_fs, ret, throw; simpl.
  destruct (io_error h (EvRm p)); simpl.
  - eexists; repeat split; discriminate.
  - destruct (fs st !! p) eqn:Hp; simpl; eexists; (split; [reflexivity |]); simpl;
      repeat split; intros; try (apply lookup_delete_ne; congruence);
      try apply lookup_delete_eq; try assumption.
Qed.

(** X8. A [doInstall] that succeeds on a registered tool leaves it with
    the version of the selected tag (the tag without its first
    character) and with the path [storageDir/<toolId>]
    ([<toolId>.exe] on Windows); the selection is kept.  When that
    version and that path are not empty, the scan invokers then accept
    the tool and run that binary. *)
Theorem doInstall_registers_the_binary :
  forall (h : host) (t : Tool) (st st' : state) (release : GithubReleaseMetadata)
         (tool : CliTool),
    selected st = Some release ->
    cliTool st = Some tool ->
    doInstall h t st = (Ok tt, st') ->
    let bin := extracted_binary h t (storageDir h t) in
    cliTool st' = Some {| tool_name := tool_name tool;
                          version := Some (Js.slice1 (tag release));
                          path := Some bin |}
    /\ selected st' = Some release
    /\ (Js.slice1 (tag release) <> "" -> bin <> "" ->
        installedBinary (cliTool st') = Some bin).
Proof.
  intros h t st st' release tool Hsel Htool Hrun bin.
  assert (Hreg : cliTool st' = Some {| tool_name := tool_name tool;
                                       version := Some (Js.slice1 (tag release));
                                       path := Some bin |}
                 /\ selected st' = Some release).
  { unfold doInstall in Hrun. unfold bind at 1 in Hrun. unfold gets in Hrun.
    rewrite Hsel in Hrun. unfold bind at 1 in Hrun.
    destruct (download_keeps_service h t release st) as (Hc1 & Hs1 & _).
    destruct (download h t release st) as [[assetPath | e] st1]; [| discriminate].
    simpl in Hc1, Hs1.
    unfold bind at 1, emit at 1 in Hrun.
    set (st2 := {| fs := fs st1; dirs := dirs st1;
                   trace := trace st1 ++ [EvLog _];
                   cliTool := cliTool st1; probed := probed st1;
                   selected := selected st1 |}) in Hrun.
    unfold try_finally in Hrun.
    destruct (install_archive h t release assetPath st2) as [r st3] eqn:Hbody.
    destruct (cleanup_run h assetPath st3) as (st4 & Hfin & Hc4 & Hs4 & _).
    rewrite Hfin in Hrun. inversion Hrun; subst r st4. clear Hrun.
    unfold install_archive in Hbody. unfold bind at 1 in Hbody.
    destruct (extract_keeps_service h t assetPath (storageDir h t) st2)
      as (Hc3 & Hs3 & Hbin).
    destruct (extract h t assetPath (storageDir h t) st2) as [[binPath | e] st2'];
      [| discriminate].
    simpl in Hc3, Hs3, Hbin. rewrite (Hbin binPath eq_refl) in Hbody.
    unfold updateVersion, bind, emit, gets, set_cliTool in Hbody; simpl in Hbody.
    rewrite Hc3 in Hbody. simpl in Hbody. rewrite Hc1, Htool in Hbody.
    inversion Hbody; subst st3. simpl in Hc4, Hs4.
    rewrite Hc4, Hs4, Hs3. simpl. rewrite Hs1, Hsel. split; reflexivity. }
  destruct Hreg as [Hc Hs]. split; [exact Hc | split; [exact Hs |]].
  intros Hv Hb. rewrite Hc. unfold installedBinary, Js.truthy; simpl.
  apply String.eqb_neq in Hv, Hb. rewrite Hv, Hb. reflexivity.
Qed.

Lemma doInstall_registers_the_binary_witness :
  let st' := (doInstall Fixture.unpacking SyftService.tool Fixture.registered).2 in
  doInstall Fixture.unpacking SyftService.tool Fixture.registered = (Ok tt, st')
  /\ cliTool st' = Some {| tool_name := "syft"; version := Some "1.41.2";
                           path := Some "/storage/syft/syft" |}
  /\ installedBinary (cliTool st') = Some "/storage/syft/syft".
Proof.
  intros st'.
  assert (Hrun : doInstall Fixture.unpacking SyftService.tool Fixture.registered
                 = (Ok tt, st')) by (vm_compute; reflexivity).
  split; [exact Hrun |].
  destruct (doInstall_registers_the_binary Fixture.unpacking SyftService.tool
              Fixture.registered st' _ _ eq_refl eq_refl Hrun) as (Hc & _ & Hbin).
  split; [exact Hc |].
  apply Hbin; discriminate.
Defined.

(** ** Start-up *)

Lemma init_run (h : host) (t : Tool) (st : state) :
  let st1 := after_probe h t st in
  init h t st
  = match io_error h (EvMkdir (storageDir h t)) with
    | Some e => (Err e, recording st1 [EvMkdir (storageDir h t)])
    | None =>
        (Ok tt,
         {| fs := fs st1;
            dirs := {[storageDir h t]} ∪ dirs st1;
            trace := trace st1 ++
                     [EvMkdir (storageDir h t); EvCreateCliTool (registration h t st);
                      EvRegisterInstaller];
            cliTool := Some (registration h t st);
            probed := probe_outcome h t st;
            selected := None |})
    end.
Proof.
  unfold after_probe, registration, probe_outcome, init, bind at 1, existsSync, bind at 1,
    emit at 1, gets at 1.
  change (present _ (binaryPath h t)) with (present st (binaryPath h t)).
  destruct (present st (binaryPath h t)).
  - unfold try_catch, getInstalledVersion, exec, mkdir, createCliTool, guarded, bind,
      emit, gets, set_fs, set_cliTool, set_probed, set_selected, add_dir, lift, ret,
      throw, with_files, recording; simpl.
    destruct (run_binary h (binaryPath h t) ["--version"] None (fs st)) as [[out | e] f'];
      simpl.
    + rewrite (second_token (Js.trim out)).
      destruct (io_error h (EvMkdir (storageDir h t))); simpl;
        rewrite <- ?app_assoc; reflexivity.
    + destruct (io_error h (EvMkdir (storageDir h t))); simpl;
        rewrite <- ?app_assoc; reflexivity.
  - unfold mkdir, createCliTool, guarded, bind, emit, gets, set_cliTool, set_probed,
      set_selected, add_dir, ret, throw, recording; simpl.
    destruct (io_error h (EvMkdir (storageDir h t))); simpl;
      rewrite <- ?app_assoc; reflexivity.
Qed.

(** X9. When there is no binary at the conventional path, [init] runs
    nothing: it asks whether the path exists, creates the storage
    directory, registers the tool with no version and no path, and
    registers the installer with no selection.  No file changes. *)
Theorem init_without_binary :
  forall (h : host) (t : Tool) (st : state),
    present st (binaryPath h t) = false ->
    io_error h (EvMkdir (storageDir h t)) = None ->
    let tool := {| tool_name := toolId t; version := None; path := None |} in
    (init h t st).1 = Ok tt
    /\ trace (init h t st).2
       = trace st ++ [EvExistsSync (binaryPath h t); EvMkdir (storageDir h t);
                      EvCreateCliTool tool; EvRegisterInstaller]
    /\ cliTool (init h t st).2 = Some tool
    /\ probed (init h t st).2 = None
    /\ selected (init h t st).2 = None
    /\ fs (init h t st).2 = fs st.
Proof.
  intros h t st Habsent Hmk tool.
  rewrite init_run, Hmk.
  unfold registration, probe_outcome, after_probe. rewrite Habsent. simpl.
  rewrite <- app_assoc. repeat split.
Qed.

Lemma init_without_binary_witness :
  let st := Sample.state_with ∅ None in
  present st (binaryPath Sample.linux GrypeService.tool) = false
  /\ cliTool (init Sample.linux GrypeService.tool st).2
     = Some {| tool_name := "grype"; version := None; path := None |}
  /\ trace (init Sample.linux GrypeService.tool st).2
     = [EvExistsSync "/storage/grype/grype"; EvMkdir "/storage/grype";
        EvCreateCliTool {| tool_name := "grype"; version := None; path := None |};
        EvRegisterInstaller].
Proof.
  intros st.
  assert (Habsent : present st (binaryPath Sample.linux GrypeService.tool) = false)
    by reflexivity.
  split; [exact Habsent |].
  destruct (init_without_binary Sample.linux GrypeService.tool st Habsent eq_refl)
    as (_ & Htrace & Htool & _).
  split; [exact Htool | exact Htrace].
Defined.

(** X10. When the storage directory cannot be created, [init] fails
    with the error of [mkdir]: the tool is not registered, no installer
    is registered, and the service keeps the tool, the probed version
    and the selection it had. *)
Theorem init_stops_without_storage :
  forall (h : host) (t : Tool) (st : state) (e : error),
    io_error h (EvMkdir (storageDir h t)) = Some e ->
    (init h t st).1 = Err e
    /\ cliTool (init h t st).2 = cliTool st
    /\ probed (init h t st).2 = probed st
    /\ selected (init h t st).2 = selected st
    /\ last (trace (init h t st).2) = Some (EvMkdir (storageDir h t)).
Proof.
  intros h t st e Hmk.
  rewrite init_run, Hmk. simpl.
  assert (Hkeep : cliTool (after_probe h t st) = cliTool st
                  /\ probed (after_probe h t st) = probed st
                  /\ selected (after_probe h t st) = selected st).
  { unfold after_probe. destruct (present st (binaryPath h t)); repeat split. }
  destruct Hkeep as (Hc & Hp & Hs).
  repeat split; try assumption. apply last_snoc.
Qed.

Lemma init_stops_without_storage_witness :
  let h := {| storagePath := "/readonly"; isWindows := false; isLinux := true;
              nodePlatform := "linux"; nodeArch := "x64";
              join := Sample.posix_join; dirname := Sample.posix_dirname;
              basename := Sample.posix_basename;
              run_binary := Sample.broken;
              io_error := fun ev => match ev with
                                    | EvMkdir _ => Some (HostError "EROFS")
                                    | _ => None
                                    end;
              listReleases_response := fun _ _ => Ok [];
              listReleaseAssets_response := fun _ _ _ => Ok [];
              getReleaseAsset_response := fun _ _ _ => Err (HostError "404");
              quickPick_choice := fun _ => None;
              unpack := fun _ _ _ f => (Ok tt, f);
              podman_lookup := fun _ => Ok None;
              JSON_parse := Sample.parse_sample_document |} in
  (init h SyftService.tool (Sample.state_with ∅ None)).1 = Err (HostError "EROFS")
  /\ cliTool (init h SyftService.tool (Sample.state_with ∅ None)).2 = None.
Proof.
  intros h.
  destruct (init_stops_without_storage h SyftService.tool (Sample.state_with ∅ None)
              (HostError "EROFS") eq_refl) as (Herr & Htool & _).
  split; [exact Herr | exact Htool].
Defined.




(** ** Scanning over a podman connection *)

(** X12. On a cache miss, a podman connection whose URI does not start
    with "ssh:" is refused with "do not support non-SSH connections"
    right after the lookup: no directory is made, syft is not run and
    no file changes. *)
Theorem syft_refuses_non_ssh :
  forall (h : host) (o : SyftService.options) (st : state) (binary : string)
         (c : PodmanConnection),
    installedBinary (cliTool st) = Some binary ->
    conn_type (connection (SyftService.opt_connection o)) = "podman" ->
    present st (SyftService.destination h o) = false ->
    podman_lookup h (SyftService.opt_connection o) = Ok (Some c) ->
    Js.startsWith (URI c) "ssh:" = false ->
    SyftService.analyse h o st
    = (Err (Error "do not support non-SSH connections"),
       recording st (syft_lookup_calls h o)).
Proof.
  intros h o st binary c Hbin Hty Hmiss Hlookup Hssh.
  rewrite (syft_miss h o st binary Hbin Hty Hmiss).
  unfold SyftService.scan, findPodmanConnection, bind, emit, lift, ret, throw,
    recording, syft_lookup_calls; simpl.
  rewrite Hlookup; simpl. rewrite Hssh; simpl.
  rewrite <- app_assoc. reflexivity.
Qed.

Lemma syft_refuses_non_ssh_witness :
  SyftService.analyse (Remote.over "unix:///run/podman.sock" None) Remote.image Remote.ready
  = (Err (Error "do not support non-SSH connections"),
     recording Remote.ready
       [EvExistsSync "/storage/podman/machine/abcd1234.jsonpow";
        EvWithProgress "Scanning abcd1234";
        EvFindPodmanConnection Sample.machine]).
Proof.
  apply (syft_refuses_non_ssh (Remote.over "unix:///run/podman.sock" None) Remote.image
           Remote.ready "/storage/syft/syft"
           {| Name := "machine"; URI := "unix:///run/podman.sock"; Identity := None |});
    reflexivity.
Defined.

(** X13. On a cache miss with no podman connection found, [analyse]
    fails with "podman connection not found" on every system but Linux,
    again right after the lookup and with no file changed. *)
Theorem syft_needs_a_connection_off_linux :
  forall (h : host) (o : SyftService.options) (st : state) (binary : string),
    installedBinary (cliTool st) = Some binary ->
    conn_type (connection (SyftService.opt_connection o)) = "podman" ->
    present st (SyftService.destination h o) = false ->
    podman_lookup h (SyftService.opt_connection o) = Ok None ->
    isLinux h = false ->
    SyftService.analyse h o st
    = (Err (Error "podman connection not found"), recording st (syft_lookup_calls h o)).
Proof.
  intros h o st binary Hbin Hty Hmiss Hlookup Hlinux.
  rewrite (syft_miss h o st binary Hbin Hty Hmiss).
  unfold SyftService.scan, findPodmanConnection, bind, emit, lift, ret, throw,
    recording, syft_lookup_calls; simpl.
  rewrite Hlookup; simpl. rewrite Hlinux; simpl.
  rewrite <- app_assoc. reflexivity.
Qed.

Lemma syft_needs_a_connection_off_linux_witness :
  (SyftService.analyse Remote.unlisted Remote.image Remote.ready).1
  = Err (Error "podman connection not found")
  /\ fs (SyftService.analyse Remote.unlisted Remote.image Remote.ready).2 = ∅.
Proof.
  rewrite (syft_needs_a_connection_off_linux Remote.unlisted Remote.image Remote.ready
             "/storage/syft/syft" eq_refl eq_refl eq_refl eq_refl eq_refl).
  split; reflexivity.
Defined.

(** X14. On a cache miss that gets past the lookup (an ssh connection,
    or none on Linux) and the creation of the destination directory,
    syft is run once, on the unsanitized image id, with an environment
    that holds CONTAINER_HOST, the URI of the connection found, followed
    by CONTAINER_SSHKEY, its identity, when that is not empty; with no
    connection the environment is empty. *)
Theorem syft_environment :
  forall (h : host) (o : SyftService.options) (st : state) (binary : string)
         (found : option PodmanConnection),
    installedBinary (cliTool st) = Some binary ->
    conn_type (connection (SyftService.opt_connection o)) = "podman" ->
    present st (SyftService.destination h o) = false ->
    podman_lookup h (SyftService.opt_connection o) = Ok found ->
    match found with
    | Some c => Js.startsWith (URI c) "ssh:" = true
    | None => isLinux h = true
    end ->
    io_error h (EvMkdir (dirname h (SyftService.destination h o))) = None ->
    let d := SyftService.destination h o in
    exists rest,
      trace (SyftService.analyse h o st).2
      = trace st ++ syft_lookup_calls h o ++
        [EvMkdir (dirname h d);
         EvExec binary
           ["--from=podman"; SyftService.opt_imageId o; "--output=json=" +:+ d +:+ ".tmp"]
           (Some (connection_env found))] ++ rest
      /\ exec_calls rest = 0%nat.
Proof.
  intros h o st binary found Hbin Hty Hmiss Hlookup Hok Hmk d.
  rewrite (syft_miss h o st binary Hbin Hty Hmiss).
  unfold syft_lookup_calls. fold d in Hmk |- *. clearbody d.
  unfold SyftService.scan, findPodmanConnection, mkdir, exec, rename, guarded, bind,
    emit, gets, set_fs, add_dir, lift, ret, throw, recording; simpl.
  rewrite Hlookup; simpl.
  destruct found as [c |]; simpl; rewrite Hok; simpl; rewrite Hmk; simpl;
    (destruct (run_binary h binary _ _ (fs st)) as [[out | e] f']; simpl;
     [destruct (io_error h (EvRename (d +:+ ".tmp") d)); simpl;
      [| destruct (f' !! (d +:+ ".tmp")); simpl];
      exists [EvRename (d +:+ ".tmp") d]; rewrite <- !app_assoc; split; reflexivity
     | exists []; rewrite <- !app_assoc; split; reflexivity]).
Qed.

Lemma syft_environment_witness :
  exists rest,
    trace (SyftService.analyse (Remote.over "ssh://core@127.0.0.1:2222/run/podman.sock"
                                  (Some "/home/me/.ssh/machine"))
             Remote.image Remote.ready).2
    = [EvExistsSync "/storage/podman/machine/abcd1234.jsonpow";
       EvWithProgress "Scanning abcd1234";
       EvFindPodmanConnection Sample.machine;
       EvMkdir "/storage/podman/machine";
       EvExec "/storage/syft/syft"
         ["--from=podman"; "sha256:abcd1234";
          "--output=json=/storage/podman/machine/abcd1234.jsonpow.tmp"]
         (Some [("CONTAINER_HOST", "ssh://core@127.0.0.1:2222/run/podman.sock");
                ("CONTAINER_SSHKEY", "/home/me/.ssh/machine")])] ++ rest.
Proof.
  destruct (syft_environment
              (Remote.over "ssh://core@127.0.0.1:2222/run/podman.sock"
                 (Some "/home/me/.ssh/machine"))
              Remote.image Remote.ready "/storage/syft/syft" _
              eq_refl eq_refl eq_refl eq_refl eq_refl eq_refl) as (rest & Htrace & _).
  exists rest. exact Htrace.
Defined.

(** ** The cache after a scan *)

Lemma present_of_file (st : state) (p content : string) :
  fs st !! p = Some content -> present st p = true.
Proof.
  intros Hp. unfold present. rewrite Hp.
  rewrite bool_decide_true by eauto. reflexivity.
Qed.

Lemma scan_success (h : host) (binary : string) (o : SyftService.options)
    (d : string) (st st1 : state) (p : string) :
  SyftService.scan h binary o d st = (Ok p, st1) ->
  p = d
  /\ cliTool st1 = cliTool st
  /\ exists files content,
       files !! (d +:+ ".tmp") = Some content
       /\ fs st1 = <[d := content]> (delete (d +:+ ".tmp") files).
Proof.
  unfold SyftService.scan, findPodmanConnection, mkdir, exec, rename, guarded,
    bind, emit, gets, set_fs, add_dir, lift, ret, throw; simpl.
  destruct (podman_lookup h (SyftService.opt_connection o)) as [[c |] | e]; simpl;
    [destruct (Js.startsWith (URI c) "ssh:"); simpl
    | destruct (isLinux h); simpl
    | ];
    try discriminate;
    (destruct (io_error h (EvMkdir (dirname h d))); simpl; [discriminate |];
     destruct (run_binary h binary _ _ (fs st)) as [[out | e] f']; simpl;
       [| discriminate];
     destruct (io_error h (EvRename (d +:+ ".tmp") d)); simpl; [discriminate |];
     destruct (f' !! (d +:+ ".tmp")) as [content |] eqn:Htmp; simpl; [| discriminate];
     intros H; inversion H; subst; simpl;
     split; [reflexivity | split; [reflexivity |]];
     exists f', content; split; [exact Htmp | reflexivity]).
Qed.

Lemma syft_success (h : host) (o : SyftService.options) (st st1 : state) (p : string) :
  SyftService.analyse h o st = (Ok p, st1) ->
  p = SyftService.destination h o
  /\ cliTool st1 = cliTool st
  /\ conn_type (connection (SyftService.opt_connection o)) = "podman"
  /\ (exists binary, installedBinary (cliTool st) = Some binary)
  /\ present st1 p = true
  /\ (present st p = false -> fs st1 !! (p +:+ ".tmp") = None).
Proof.
  intros Hrun.
  destruct (installedBinary (cliTool st)) as [binary |] eqn:Hbin.
  2: { unfold SyftService.analyse, bind, gets, throw in Hrun; simpl in Hrun.
       rewrite Hbin in Hrun. discriminate. }
  destruct (String.eqb_spec (conn_type (connection (SyftService.opt_connection o)))
              "podman") as [Hty | Hty].
  2: { apply String.eqb_neq in Hty.
       unfold SyftService.analyse, bind, gets, throw in Hrun; simpl in Hrun.
       rewrite Hbin, Hty in Hrun. discriminate. }
  destruct (present st (SyftService.destination h o)) eqn:Hcache.
  - rewrite (syft_hit h o st binary Hbin Hty Hcache) in Hrun.
    inversion Hrun; subst p st1; clear Hrun.
    split; [reflexivity |]. split; [reflexivity |]. split; [exact Hty |].
    split; [eauto |]. split; [exact Hcache |].
    intros Hno. rewrite Hcache in Hno. discriminate.
  - rewrite (syft_miss h o st binary Hbin Hty Hcache) in Hrun.
    apply scan_success in Hrun as (-> & Hc & files & content & Htmp & Hfs).
    split; [reflexivity |]. split; [exact Hc |]. split; [exact Hty |].
    split; [eauto |]. split.
    + apply (present_of_file st1 _ content). rewrite Hfs. apply lookup_insert_eq.
    + intros _. rewrite Hfs.
      rewrite lookup_insert_ne by apply not_eq_sym, tmp_is_another_path.
      apply lookup_delete_eq.
Qed.

(** X15. After an [analyse] that returned a path, that path exists; if
    the scan had to be run, the temporary file is gone.  Analysing the
    same image again in the state reached is a cache hit: it returns the
    same path after a single existence check and runs nothing. *)
Theorem syft_analyse_fills_the_cache :
  forall (h : host) (o : SyftService.options) (st st1 : state) (p : string),
    SyftService.analyse h o st = (Ok p, st1) ->
    present st1 p = true
    /\ (present st p = false -> fs st1 !! (p +:+ ".tmp") = None)
    /\ SyftService.analyse h o st1 = (Ok p, recording st1 [EvExistsSync p]).
Proof.
  intros h o st st1 p Hrun.
  destruct (syft_success h o st st1 p Hrun)
    as (-> & Hc & Hty & [binary Hbin] & Hpresent & Htmp).
  split; [exact Hpresent | split; [exact Htmp |]].
  apply (syft_hit h o st1 binary); [rewrite Hc; exact Hbin | exact Hty | exact Hpresent].
Qed.

Lemma syft_analyse_fills_the_cache_witness :
  let h := Sample.host_with (Sample.scanner "{}") [] in
  let st1 := (SyftService.analyse h Remote.image Remote.ready).2 in
  SyftService.analyse h Remote.image Remote.ready
  = (Ok "/storage/podman/machine/abcd1234.jsonpow", st1)
  /\ fs st1 !! "/storage/podman/machine/abcd1234.jsonpow.tmp" = None
  /\ SyftService.analyse h Remote.image st1
     = (Ok "/storage/podman/machine/abcd1234.jsonpow",
        recording st1 [EvExistsSync "/storage/podman/machine/abcd1234.jsonpow"]).
Proof.
  intros h st1.
  assert (Hrun : SyftService.analyse h Remote.image Remote.ready
                 = (Ok "/storage/podman/machine/abcd1234.jsonpow", st1))
    by (vm_compute; reflexivity).
  split; [exact Hrun |].
  destruct (syft_analyse_fills_the_cache h Remote.image Remote.ready st1 _ Hrun)
    as (_ & Htmp & Hagain).
  split; [apply Htmp; vm_compute; reflexivity | exact Hagain].
Defined.

Lemma grype_needs_the_sbom_run (h : host) (sbom : string) (st : state)
    (binary : string) :
  installedBinary (cliTool st) = Some binary ->
  present st sbom = false ->
  GrypeService.analyse h sbom st
  = (Err (Error "cannot analyse image without sbom file"),
     recording st [EvExistsSync sbom]).
Proof.
  intros Hbin Hsbom.
  unfold GrypeService.analyse, bind, gets, throw; simpl. rewrite Hbin; simpl.
  change (present _ sbom) with (present st sbom). rewrite Hsbom. reflexivity.
Qed.

(** X16. Without the SBOM file the vulnerability invoker fails with
    "cannot analyse image without sbom file" after that one existence
    check: it neither looks for a cached report nor runs grype. *)
Theorem grype_needs_the_sbom :
  forall (h : host) (sbom : string) (st : state) (binary : string),
    installedBinary (cliTool st) = Some binary ->
    present st sbom = false ->
    GrypeService.analyse h sbom st
    = (Err (Error "cannot analyse image without sbom file"),
       recording st [EvExistsSync sbom]).
Proof.
  intros h sbom st binary Hbin Hsbom.
  exact (grype_needs_the_sbom_run h sbom st binary Hbin Hsbom).
Qed.

Lemma grype_needs_the_sbom_witness :
  GrypeService.analyse Sample.linux "/storage/podman/machine/abcd1234.jsonpow" Remote.ready
  = (Err (Error "cannot analyse image without sbom file"),
     recording Remote.ready [EvExistsSync "/storage/podman/machine/abcd1234.jsonpow"]).
Proof.
  apply (grype_needs_the_sbom Sample.linux _ Remote.ready "/storage/syft/syft");
    reflexivity.
Defined.

Lemma readResult_success (h : host) (file : string) (st st1 : state) (out : GrypeOutput) :
  GrypeService.readResult h file st = (Ok out, st1) ->
  st1 = recording st [EvReadFile file]
  /\ io_error h (EvReadFile file) = None
  /\ exists data, fs st !! file = Some data
                  /\ (let? value := JSON_parse h data in GrypeOutputSchema_parse value)
                     = Ok out.
Proof.
  rewrite readResult_run. intros H. injection H as Hres Hst.
  split; [symmetry; exact Hst |].
  destruct (io_error h (EvReadFile file)); [discriminate |].
  split; [reflexivity |].
  destruct (fs st !! file) as [data |]; [| discriminate].
  exists data. split; [reflexivity | exact Hres].
Qed.

(** X17. After a vulnerability scan that returned a report, scanning the
    same SBOM again, as long as the SBOM is still there, is a cache hit:
    it returns the same report after two existence checks and one read,
    and does not run grype. *)
Theorem grype_analyse_fills_the_cache :
  forall (h : host) (sbom : string) (st st1 : state) (out : GrypeOutput),
    GrypeService.analyse h sbom st = (Ok out, st1) ->
    present st1 sbom = true ->
    let d := GrypeService.destination h sbom in
    present st1 d = true
    /\ GrypeService.analyse h sbom st1
       = (Ok out, recording st1 [EvExistsSync sbom; EvExistsSync d; EvReadFile d]).
Proof.
  intros h sbom st st1 out Hrun Hsbom1 d.
  destruct (installedBinary (cliTool st)) as [binary |] eqn:Hbin.
  2: { unfold GrypeService.analyse, bind, gets, throw in Hrun; simpl in Hrun.
       rewrite Hbin in Hrun. discriminate. }
  destruct (present st sbom) eqn:Hsbom.
  2: { rewrite (grype_needs_the_sbom_run h sbom st binary Hbin Hsbom) in Hrun.
       discriminate. }
  assert (Hread : exists st0, GrypeService.readResult h d st0 = (Ok out, st1)
                              /\ cliTool st0 = cliTool st).
  { destruct (present st d) eqn:Hcache.
    - rewrite (grype_hit h sbom st binary Hbin Hsbom Hcache) in Hrun.
      eexists. split; [exact Hrun | reflexivity].
    - rewrite (grype_miss h sbom st binary Hbin Hsbom Hcache) in Hrun.
      destruct (run_binary h binary _ None (fs st)).1; [| discriminate].
      eexists. split; [exact Hrun | reflexivity]. }
  destruct Hread as (st0 & Hread & Hc0).
  apply readResult_success in Hread as (-> & Hio & data & Hdata & Hparse).
  assert (Hd1 : present (recording st0 [EvReadFile d]) d = true)
    by (apply (present_of_file _ _ data); exact Hdata).
  split; [exact Hd1 |].
  rewrite (grype_hit h sbom _ binary); [| simpl; rewrite Hc0; exact Hbin | exact Hsbom1
                                        | exact Hd1].
  rewrite readResult_run. fold d. rewrite Hio. simpl. rewrite Hdata, Hparse.
  unfold recording; simpl. rewrite <- !app_assoc. reflexivity.
Qed.

Lemma grype_analyse_fills_the_cache_witness :
  let h := Sample.host_with (Sample.scanner Sample.empty_report) [] in
  let sbom := "/storage/podman/machine/abcd1234.jsonpow" in
  let report := "/storage/podman/machine/abcd1234.json" in
  let st := Sample.state_with {[ sbom := "{}" ]} (Some (Sample.installed "grype")) in
  let st1 := (GrypeService.analyse h sbom st).2 in
  GrypeService.analyse h sbom st = (Ok {| matches := [] |}, st1)
  /\ exec_calls (trace st1) = 1%nat
  /\ GrypeService.analyse h sbom st1
     = (Ok {| matches := [] |},
        recording st1 [EvExistsSync sbom; EvExistsSync report; EvReadFile report]).
Proof.
  intros h sbom report st st1.
  assert (Hrun : GrypeService.analyse h sbom st = (Ok {| matches := [] |}, st1))
    by (vm_compute; reflexivity).
  split; [exact Hrun |]. split; [vm_compute; reflexivity |].
  destruct (grype_analyse_fills_the_cache h sbom st st1 _ Hrun
              ltac:(vm_compute; reflexivity)) as [_ Hagain].
  exact Hagain.
Defined.

(** ** The probed version *)

Lemma free_of_rev (P : ascii -> bool) (s acc : string) :
  free_of P (Js.rev_string acc s) = free_of P acc && free_of P s.
Proof.
  revert acc. induction s as [| c s IH]; intros acc; simpl.
  - rewrite andb_true_r. reflexivity.
  - rewrite IH. simpl. destruct (P c), (free_of P acc), (free_of P s); reflexivity.
Qed.

Lemma split_ws_pieces (s cur : string) (in_ws : bool) :
  free_of Js.is_space cur = true ->
  Forall (fun piece => free_of Js.is_space piece = true) (Js.split_ws_aux cur in_ws s).
Proof.
  revert cur in_ws. induction s as [| c s IH]; intros cur in_ws Hcur; simpl.
  - constructor; [| constructor]. rewrite free_of_rev. exact Hcur.
  - destruct (Js.is_space c) eqn:Hc.
    + destruct in_ws; [apply IH; exact Hcur |].
      constructor; [rewrite free_of_rev; exact Hcur | apply IH; reflexivity].
    + apply IH. simpl. rewrite Hc. exact Hcur.
Qed.

Lemma split_ws_nonempty (s cur : string) (in_ws : bool) :
  Js.split_ws_aux cur in_ws s <> [].
Proof.
  revert cur in_ws. induction s as [| c s IH]; intros cur in_ws; simpl; [discriminate |].
  destruct (Js.is_space c); [destruct in_ws |]; try apply IH. discriminate.
Qed.

Lemma split_ws_single (s cur piece : string) :
  Js.split_ws_aux cur false s = [piece] -> free_of Js.is_space s = true.
Proof.
  revert cur. induction s as [| c s IH]; intros cur; simpl; [reflexivity |].
  destruct (Js.is_space c) eqn:Hc; simpl.
  - intros H. inversion H as [[Hpiece Hrest]].
    destruct (split_ws_nonempty s "" true Hrest).
  - intros H. apply IH in H. exact H.
Qed.

Lemma version_token_has_no_space (text : string) :
  free_of Js.is_space
    (match Js.split_ws text with
     | _ :: version :: _ => version
     | _ => text
     end) = true.
Proof.
  pose proof (split_ws_pieces text "" false eq_refl) as Hall.
  pose proof (split_ws_single text "") as Hone.
  unfold Js.split_ws in *.
  destruct (Js.split_ws_aux "" false text) as [| first [| version rest]] eqn:Hsplit.
  - destruct (split_ws_nonempty text "" false Hsplit).
  - apply (Hone first). reflexivity.
  - inversion Hall as [| ? ? _ Htail]; subst. inversion Htail; subst. assumption.
Qed.

(** X18. Whatever the binary prints, the version that
    [getInstalledVersion] returns contains no white space: it is one
    token of the output, or the whole trimmed output when that has no
    white space in it. *)
Theorem probed_version_has_no_space :
  forall (h : host) (t : Tool) (st st' : state) (v : string),
    getInstalledVersion h t st = (Ok v, st') ->
    free_of Js.is_space v = true.
Proof.
  intros h t st st' v.
  unfold getInstalledVersion, exec, bind, emit, gets, set_fs, lift, ret; simpl.
  destruct (run_binary h (binaryPath h t) ["--version"] None (fs st)).1 as [out | e];
    simpl; [| discriminate].
  intros H. inversion H; subst. apply version_token_has_no_space.
Qed.

Lemma probed_version_has_no_space_witness :
  (getInstalledVersion (Sample.host_with (Sample.prints "  syft   1.41.2  (build 7) ") [])
     SyftService.tool Sample.with_syft_binary).1 = Ok "1.41.2"
  /\ free_of Js.is_space "1.41.2" = true.
Proof.
  split; [reflexivity |].
  apply (probed_version_has_no_space
           (Sample.host_with (Sample.prints "  syft   1.41.2  (build 7) ") [])
           SyftService.tool Sample.with_syft_binary
           (getInstalledVersion
              (Sample.host_with (Sample.prints "  syft   1.41.2  (build 7) ") [])
              SyftService.tool Sample.with_syft_binary).2).
  vm_compute. reflexivity.
Defined.

(** ** Reports *)

Lemma MatchSchema_id (item : json) (m : Match) :
  MatchSchema (Some item) = Ok m ->
  vulnerability_id item = Some (vuln_id (vulnerability m)).
Proof.
  unfold MatchSchema, VulnerabilitySchema, vulnerability_id, Zod.object, Zod.string, rbind.
  destruct item as [| | | | | props]; try discriminate.
  destruct (Zod.prop "vulnerability" props) as [[| | | | | vprops] |]; try discriminate.
  destruct (Zod.prop "id" vprops) as [[| | | i | |] |]; try discriminate.
  destruct (SeveritySchema (Zod.prop "severity" vprops)); [| discriminate].
  destruct (Zod.optional _ (Zod.prop "description" vprops)); [| discriminate].
  intros H; inversion H; subst. reflexivity.
Qed.

Lemma each_ids (items : list json) (ms : list Match) :
  Zod.each MatchSchema items = Ok ms ->
  map vulnerability_id items = map (fun m => Some (vuln_id (vulnerability m))) ms.
Proof.
  revert ms. induction items as [| item rest IH]; intros ms Hrun.
  - inversion Hrun. reflexivity.
  - cbn [Zod.each] in Hrun. unfold rbind in Hrun.
    destruct (MatchSchema (Some item)) as [m |] eqn:Hm; [| discriminate].
    destruct (Zod.each MatchSchema rest) as [others |]; [| discriminate].
    inversion Hrun; subst. cbn [map].
    rewrite (MatchSchema_id item m Hm), (IH others eq_refl). reflexivity.
Qed.

(** X19. A report that is accepted is read whole: the value parsed is an
    object whose matches are an array, and the result has one match for
    each entry of that array, in the same order and with the same
    vulnerability ids.  No entry is dropped or reordered. *)
Theorem report_keeps_every_match :
  forall (value : json) (out : GrypeOutput),
    GrypeOutputSchema_parse value = Ok out ->
    exists props items,
      value = JObj props
      /\ Zod.prop "matches" props = Some (JArr items)
      /\ length (matches out) = length items
      /\ map vulnerability_id items
         = map (fun m => Some (vuln_id (vulnerability m))) (matches out).
Proof.
  intros value out.
  unfold GrypeOutputSchema_parse, GrypeOutputSchema, Zod.object, Zod.array, rbind.
  destruct value as [| | | | | props]; try discriminate.
  destruct (Zod.prop "matches" props) as [[| | | | items |] |] eqn:Hm; try discriminate.
  destruct (Zod.each MatchSchema items) as [ms |] eqn:Hms; [| discriminate].
  intros H; inversion H; subst; simpl.
  exists props, items. split; [reflexivity | split; [exact Hm |]].
  pose proof (each_ids items ms Hms) as Hids.
  split; [| exact Hids].
  apply (f_equal length) in Hids. rewrite !length_map in Hids. symmetry. exact Hids.
Qed.

Lemma report_keeps_every_match_witness :
  let value :=
    JObj [("matches",
           JArr [JObj [("vulnerability",
                        JObj [("id", JStr "CVE-2024-2"); ("severity", JStr "Low")])];
                 JObj [("vulnerability",
                        JObj [("id", JStr "CVE-2024-1"); ("severity", JStr "High")])]])] in
  exists out,
    GrypeOutputSchema_parse value = Ok out
    /\ map (fun m => vuln_id (vulnerability m)) (matches out)
       = ["CVE-2024-2"; "CVE-2024-1"].
Proof.
  intros value.
  destruct (GrypeOutputSchema_parse value) as [out |] eqn:Hparse; [| discriminate].
  exists out. split; [reflexivity |].
  destruct (report_keeps_every_match value out Hparse)
    as (props & items & Hvalue & Hmatches & _ & Hids).
  inversion Hvalue; subst props. inversion Hmatches; subst items.
  simpl in Hids.
  destruct (matches out) as [| m1 [| m2 [| m3 rest]]]; try discriminate.
  injection Hids as H1 H2. simpl. rewrite <- H1, <- H2. reflexivity.
Defined.

(** ** Finding the connection of an engine *)

Lemma search_found (e : engine) (engineId : string)
    (providers : list ProviderContainerConnection) (provider : ProviderContainerConnection) :
  ContainerService.search e engineId providers = Ok provider
  <-> exists before after,
        providers = before ++ provider :: after
        /\ Forall (fun p => passed_over e engineId p = true) before
        /\ serves e engineId provider = true.
Proof.
  split.
  - induction providers as [| p rest IH]; simpl; [discriminate |].
    intros Hrun.
    assert (Hnext : ContainerService.search e engineId rest = Ok provider ->
                    passed_over e engineId p = true ->
                    exists before after,
                      p :: rest = before ++ provider :: after
                      /\ Forall (fun q => passed_over e engineId q = true) before
                      /\ serves e engineId provider = true).
    { intros Hrest Hp. destruct (IH Hrest) as (before & after & -> & Hall & Hs).
      exists (p :: before), after. repeat split; [constructor |]; assumption. }
    unfold passed_over, serves in *.
    destruct (String.eqb (status e (connection p)) "started") eqn:Hst; simpl in Hrun.
    + destruct (listInfos e (connection p)) as [[| first others] | err] eqn:Hinfo;
        [apply Hnext; [exact Hrun | rewrite ?Hst, ?Hinfo; reflexivity] | | discriminate].
      destruct (String.eqb (info_engineId first) engineId) eqn:Hid.
      * inversion Hrun; subst p. exists [], rest.
        repeat split; [constructor |]. rewrite ?Hst, ?Hinfo, ?Hid. reflexivity.
      * apply Hnext; [exact Hrun | rewrite ?Hst, ?Hinfo, ?Hid; reflexivity].
    + apply Hnext; [exact Hrun | rewrite ?Hst; reflexivity].
  - intros (before & after & -> & Hall & Hs).
    induction Hall as [| p before Hp _ IH]; simpl.
    + unfold serves in Hs. apply andb_true_iff in Hs as [Hst Hinfo].
      rewrite Hst; simpl.
      destruct (listInfos e (connection provider)) as [[| first others] | err];
        try discriminate.
      rewrite Hinfo. reflexivity.
    + unfold passed_over in Hp.
      destruct (String.eqb (status e (connection p)) "started"); simpl; [| exact IH].
      destruct (listInfos e (connection p)) as [[| first others] | err];
        [exact IH | | discriminate].
      apply negb_true_iff in Hp. rewrite Hp. exact IH.
Qed.

(** X20. [getRunningProviderContainerConnectionByEngineId] returns a
    connection exactly when it is the first one, in the order of the
    provider service, that is started and whose engine lists the id in
    its first info, every connection before it being stopped, without
    info, or with another id in its first info. *)
Theorem running_connection_is_the_first_match :
  forall (e : engine) (engineId : string) (provider : ProviderContainerConnection),
    ContainerService.getRunningProviderContainerConnectionByEngineId e engineId
    = Ok provider
    <-> exists before after,
          getContainerConnections e = before ++ provider :: after
          /\ Forall (fun p => passed_over e engineId p = true) before
          /\ serves e engineId provider = true.
Proof.
  intros e engineId provider.
  apply search_found.
Qed.

Lemma running_connection_is_the_first_match_witness :
  ContainerService.getRunningProviderContainerConnectionByEngineId Desk.engines
    "podman.machine" = Ok Sample.machine.
Proof.
  apply (running_connection_is_the_first_match Desk.engines "podman.machine" Sample.machine).
  exists [Sample.docker], []. split; [reflexivity |].
  split; [repeat constructor | reflexivity].
Defined.

Lemma search_not_found (e : engine) (engineId : string)
    (providers : list ProviderContainerConnection) :
  Forall (fun p => passed_over e engineId p = true) providers ->
  ContainerService.search e engineId providers = Err (Error "connection not found").
Proof.
  induction 1 as [| p rest Hp _ IH]; simpl; [reflexivity |].
  unfold passed_over in Hp.
  destruct (String.eqb (status e (connection p)) "started"); simpl; [| exact IH].
  destruct (listInfos e (connection p)) as [[| first others] | err];
    [exact IH | | discriminate].
  apply negb_true_iff in Hp. rewrite Hp. exact IH.
Qed.

Lemma search_interrupted (e : engine) (engineId : string)
    (before after : list ProviderContainerConnection)
    (provider : ProviderContainerConnection) (err : error) :
  Forall (fun p => passed_over e engineId p = true) before ->
  status e (connection provider) = "started" ->
  listInfos e (connection provider) = Err err ->
  ContainerService.search e engineId (before ++ provider :: after) = Err err.
Proof.
  intros Hall Hst Hinfo.
  induction Hall as [| p before Hp _ IH]; simpl.
  - rewrite Hst, Hinfo. reflexivity.
  - unfold passed_over in Hp.
    destruct (String.eqb (status e (connection p)) "started"); simpl; [| exact IH].
    destruct (listInfos e (connection p)) as [[| first others] | err'];
      [exact IH | | discriminate].
    apply negb_true_iff in Hp. rewrite Hp. exact IH.
Qed.

(** X21. When every connection is stopped, without info, or has another
    id in its first info, the lookup fails with "connection not found".
    When the engine of a started connection cannot list its infos, that
    error ends the lookup, whatever the connections after it serve. *)
Theorem running_connection_failures :
  forall (e : engine) (engineId : string),
    (Forall (fun p => passed_over e engineId p = true) (getContainerConnections e) ->
     ContainerService.getRunningProviderContainerConnectionByEngineId e engineId
     = Err (Error "connection not found"))
    /\ (forall before provider after err,
           getContainerConnections e = before ++ provider :: after ->
           Forall (fun p => passed_over e engineId p = true) before ->
           status e (connection provider) = "started" ->
           listInfos e (connection provider) = Err err ->
           ContainerService.getRunningProviderContainerConnectionByEngineId e engineId
           = Err err).
Proof.
  intros e engineId. split.
  - apply search_not_found.
  - intros before provider after err Hsplit Hall Hst Hinfo.
    unfold ContainerService.getRunningProviderContainerConnectionByEngineId.
    rewrite Hsplit. apply search_interrupted; assumption.
Qed.

Lemma running_connection_failures_witness :
  ContainerService.getRunningProviderContainerConnectionByEngineId Desk.engines
    "docker.desktop" = Err (Error "connection not found")
  /\ ContainerService.getRunningProviderContainerConnectionByEngineId
       {| getContainerConnections := [Sample.machine; Sample.docker];
          status := fun _ => "started";
          listInfos := fun c => if String.eqb (conn_type c) "podman"
                                then Err (HostError "ECONNREFUSED")
                                else Ok [{| info_engineId := "docker.desktop" |}];
          listImages := fun _ => Ok [] |}
       "docker.desktop" = Err (HostError "ECONNREFUSED").
Proof.
  split.
  - apply (running_connection_failures Desk.engines "docker.desktop").
    repeat constructor.
  - eapply (proj2 (running_connection_failures _ "docker.desktop")
              [] Sample.machine [Sample.docker]); [reflexivity | constructor | | ];
      reflexivity.
Defined.

(** ** The image check *)

(** X22. The checks built from a report are never empty.  A report
    without matches gives the single successful check "No
    vulnerabilities found"; any other report gives one failed check for
    each match, in order, named after the vulnerability id and carrying
    its severity and description, and no successful check. *)
Theorem checks_mirror_the_report :
  forall result : GrypeOutput,
    ImageCheckerProvider.checks_of result <> []
    /\ (matches result = [] ->
        ImageCheckerProvider.checks_of result
        = [{| ImageCheckerProvider.check_name := "No vulnerabilities found";
              ImageCheckerProvider.check_status := "success";
              ImageCheckerProvider.check_severity := None;
              ImageCheckerProvider.check_markdownDescription := None |}])
    /\ (matches result <> [] ->
        map ImageCheckerProvider.check_name (ImageCheckerProvider.checks_of result)
        = map (fun m => vuln_id (vulnerability m)) (matches result)
        /\ map ImageCheckerProvider.check_severity (ImageCheckerProvider.checks_of result)
           = map (fun m => Some (severity (vulnerability m))) (matches result)
        /\ map ImageCheckerProvider.check_markdownDescription
             (ImageCheckerProvider.checks_of result)
           = map (fun m => description (vulnerability m)) (matches result)
        /\ Forall (fun c => ImageCheckerProvider.check_status c = "failed")
             (ImageCheckerProvider.checks_of result)).
Proof.
  intros [ms]. unfold ImageCheckerProvider.checks_of. simpl.
  destruct ms as [| m rest]; simpl.
  - split; [discriminate | split; [reflexivity | intros H; destruct H; reflexivity]].
  - split; [discriminate | split; [discriminate | intros _]].
    rewrite !map_map. simpl.
    repeat split; try reflexivity.
    constructor; [reflexivity |].
    apply Forall_map. apply Forall_forall. reflexivity.
Qed.

Lemma checks_mirror_the_report_witness :
  ImageCheckerProvider.checks_of {| matches := [] |}
  = [{| ImageCheckerProvider.check_name := "No vulnerabilities found";
        ImageCheckerProvider.check_status := "success";
        ImageCheckerProvider.check_severity := None;
        ImageCheckerProvider.check_markdownDescription := None |}]
  /\ map ImageCheckerProvider.check_name
       (ImageCheckerProvider.checks_of
          {| matches := [{| vulnerability :=
                              {| vuln_id := "CVE-2024-0001"; severity := "critical";
                                 description := None |} |}] |})
     = ["CVE-2024-0001"].
Proof.
  split.
  - apply (checks_mirror_the_report {| matches := [] |}). reflexivity.
  - apply (checks_mirror_the_report
             {| matches := [{| vulnerability :=
                                 {| vuln_id := "CVE-2024-0001"; severity := "critical";
                                    description := None |} |}] |}).
    discriminate.
Defined.

(** X23. For an image whose connection is found and is a podman one,
    with both tools installed and both artifacts on disk, [check] runs
    no binary and changes no file: it asks whether the SBOM exists (once
    for each service) and whether the report next to it exists, reads
    that report and returns the checks built from it. *)
Theorem check_of_a_scanned_image :
  forall (e : engine) (h : host) (syft grype : option CliTool) (image : ImageInfo)
         (st : state) (found : ProviderContainerConnection) (b1 b2 data : string)
         (out : GrypeOutput),
    ContainerService.getRunningProviderContainerConnectionByEngineId e (image_engineId image)
    = Ok found ->
    conn_type (connection found) = "podman" ->
    installedBinary syft = Some b1 ->
    installedBinary grype = Some b2 ->
    let sbom := SyftService.destination h
                  {| SyftService.opt_connection := found;
                     SyftService.opt_imageId := image_Id image |} in
    let report := GrypeService.destination h sbom in
    present st sbom = true ->
    fs st !! report = Some data ->
    io_error h (EvReadFile report) = None ->
    (let? value := JSON_parse h data in GrypeOutputSchema_parse value) = Ok out ->
    ImageCheckerProvider.check e h syft grype image st
    = (Ok (ImageCheckerProvider.checks_of out),
       recording st [EvExistsSync sbom; EvExistsSync sbom; EvExistsSync report;
                     EvReadFile report]).
Proof.
  intros e h syft grype image st found b1 b2 data out Hfound Hty Hb1 Hb2 sbom report
    Hsbom Hreport Hio Hparse.
  unfold ImageCheckerProvider.check. unfold bind at 1. unfold lift. rewrite Hfound.
  unfold bind at 1. unfold ImageCheckerProvider.as_service at 1.
  rewrite (syft_hit h {| SyftService.opt_connection := found;
                         SyftService.opt_imageId := image_Id image |}
             (ImageCheckerProvider.serving st syft) b1 Hb1 Hty Hsbom).
  cbn [fst snd]. fold sbom.
  unfold bind at 1. unfold ImageCheckerProvider.as_service.
  set (st1 := ImageCheckerProvider.serving
                (ImageCheckerProvider.serving
                   (recording (ImageCheckerProvider.serving st syft) [EvExistsSync sbom])
                   (cliTool st)) grype).
  rewrite (grype_hit h sbom st1 b2 Hb2 Hsbom (present_of_file st1 report data Hreport)).
  rewrite readResult_run. fold report. rewrite Hio.
  change (fs (recording st1 [EvExistsSync sbom; EvExistsSync report]) !! report)
    with (fs st !! report).
  rewrite Hreport, Hparse.
  unfold ret, recording, ImageCheckerProvider.serving, st1; simpl.
  rewrite <- !app_assoc. destruct st; reflexivity.
Qed.

Lemma check_of_a_scanned_image_witness :
  ImageCheckerProvider.check Desk.engines Desk.reporting
    (Some (Sample.installed "syft")) (Some (Sample.installed "grype")) Desk.image
    Desk.scanned
  = (Ok [{| ImageCheckerProvider.check_name := "CVE-2024-0001";
            ImageCheckerProvider.check_status := "failed";
            ImageCheckerProvider.check_severity := Some "critical";
            ImageCheckerProvider.check_markdownDescription := None |}],
     recording Desk.scanned
       [EvExistsSync "/storage/podman/machine/abcd1234.jsonpow";
        EvExistsSync "/storage/podman/machine/abcd1234.jsonpow";
        EvExistsSync "/storage/podman/machine/abcd1234.json";
        EvReadFile "/storage/podman/machine/abcd1234.json"]).
Proof.
  apply (check_of_a_scanned_image Desk.engines Desk.reporting
           (Some (Sample.installed "syft")) (Some (Sample.installed "grype")) Desk.image
           Desk.scanned Sample.machine "/storage/syft/syft" "/storage/grype/grype" "report"
           {| matches := [{| vulnerability :=
                               {| vuln_id := "CVE-2024-0001"; severity := "critical";
                                  description := None |} |}] |});
    reflexivity.
Defined.

(** X24. [check] stops at the first failure.  When no connection is
    found nothing is called; when the SBOM invoker fails, its error is
    the answer and the vulnerability invoker is not started. *)
Theorem check_stops_at_the_first_failure :
  forall (e : engine) (h : host) (syft grype : option CliTool) (image : ImageInfo)
         (st : state),
    match ContainerService.getRunningProviderContainerConnectionByEngineId e
            (image_engineId image) with
    | Err err => ImageCheckerProvider.check e h syft grype image st = (Err err, st)
    | Ok found =>
        let sbom_run :=
          ImageCheckerProvider.as_service syft
            (SyftService.analyse h
               {| SyftService.opt_connection := found;
                  SyftService.opt_imageId := image_Id image |}) st in
        forall err, sbom_run.1 = Err err ->
                    ImageCheckerProvider.check e h syft grype image st = (Err err, sbom_run.2)
    end.
Proof.
  intros e h syft grype image st.
  unfold ImageCheckerProvider.check. unfold bind at 1. unfold lift.
  destruct (ContainerService.getRunningProviderContainerConnectionByEngineId e
              (image_engineId image)) as [found | err]; [| reflexivity].
  cbv beta iota zeta. intros err Herr. unfold bind at 1.
  destruct (ImageCheckerProvider.as_service syft _ st) as [r st1].
  simpl in Herr. subst r. reflexivity.
Qed.

Lemma check_stops_at_the_first_failure_witness :
  ImageCheckerProvider.check Desk.engines Desk.reporting None
    (Some (Sample.installed "grype")) Desk.image Desk.scanned
  = (Err (Error "cannot analyse image without syft binary installed"), Desk.scanned).
Proof.
  pose proof (check_stops_at_the_first_failure Desk.engines Desk.reporting None
                (Some (Sample.installed "grype")) Desk.image Desk.scanned) as H.
  simpl in H.
  apply (H (Error "cannot analyse image without syft binary installed")).
  reflexivity.
Defined.

(** ** Listing the images of a registry *)

Lemma empty_tag_never_matches (registry organisation : string) :
  Js.startsWith "" (registry +:+ "/" +:+ organisation) = false.
Proof. unfold Js.startsWith. destruct registry; reflexivity. Qed.

Lemma matching_tag_starts (prefix : string) (image : ImageInfo) (name : string) :
  matching_tag prefix image = Some name -> Js.startsWith name prefix = true.
Proof.
  unfold matching_tag. destruct (RepoTags image) as [tags |]; [| discriminate].
  intros Hfind. apply find_some in Hfind as [_ Hstart]. exact Hstart.
Qed.

Lemma all_fold (registry organisation : string) (provider : ProviderContainerConnection)
    (images : list ImageInfo) (acc : list ImageService.SimpleImageInfo) :
  fold_left
    (fun accumulator current =>
       let tag :=
         match RepoTags current with
         | Some tags =>
             List.find (fun tag => Js.startsWith tag (registry +:+ "/" +:+ organisation)) tags
         | None => None
         end in
       match tag with
       | Some name =>
           if Js.truthy tag
           then accumulator ++
                [{| ImageService.simple_id := image_Id current;
                    ImageService.simple_name := name;
                    ImageService.simple_connection :=
                      {| ImageService.identifier_providerId := providerId provider;
                         ImageService.identifier_name := conn_name (connection provider) |} |}]
           else accumulator
       | None => accumulator
       end)
    images acc
  = acc ++ omap (listed (registry +:+ "/" +:+ organisation) provider) images.
Proof.
  revert acc. induction images as [| image rest IH]; intros acc; simpl.
  - rewrite app_nil_r. reflexivity.
  - rewrite IH. unfold listed at 2, matching_tag.
    destruct (RepoTags image) as [tags |]; [| reflexivity].
    destruct (List.find _ tags) as [name |] eqn:Hfind; [| reflexivity].
    apply find_some in Hfind as [_ Hstart].
    destruct name as [| c name].
    + rewrite empty_tag_never_matches in Hstart. discriminate.
    + simpl. rewrite <- app_assoc. reflexivity.
Qed.

(** X25. [all] answers with one entry for each image that has a tag
    starting with [<registry>/<organisation>], in the order of the
    engine's listing: the entry carries the id of the image, the first
    such tag as its name, and the provider id and name of the
    connection.  Images without tags, or without such a tag, are left
    out; no image is listed twice. *)
Theorem all_lists_the_tagged_images :
  forall (e : engine) (registry organisation : string)
         (provider : ProviderContainerConnection) (images : list ImageInfo),
    listImages e (connection provider) = Ok images ->
    let prefix := registry +:+ "/" +:+ organisation in
    exists out,
      ImageService.all e registry provider organisation = Ok out
      /\ out = omap (listed prefix provider) images
      /\ Forall (fun entry => Js.startsWith (ImageService.simple_name entry) prefix = true)
           out
      /\ map ImageService.simple_id out
         = map image_Id
             (List.filter (fun image => bool_decide (is_Some (matching_tag prefix image)))
                images).
Proof.
  intros e registry organisation provider images Hlist prefix.
  exists (omap (listed prefix provider) images).
  split; [| split; [reflexivity | split]].
  - unfold ImageService.all, rbind. rewrite Hlist. cbv zeta. f_equal.
    exact (all_fold registry organisation provider images []).
  - apply Forall_forall. intros entry Hin.
    apply list_elem_of_omap in Hin as (image & _ & Hentry).
    unfold listed in Hentry.
    destruct (matching_tag prefix image) as [name |] eqn:Htag; [| discriminate].
    inversion Hentry; subst; simpl. apply (matching_tag_starts prefix image name Htag).
  - clear Hlist. induction images as [| image rest IH]; simpl; [reflexivity |].
    unfold listed at 1.
    destruct (matching_tag prefix image) as [name |]; simpl; [f_equal |]; exact IH.
Qed.

Lemma all_lists_the_tagged_images_witness :
  ImageService.all Desk.engines "quay.io" Sample.machine "podman"
  = Ok [{| ImageService.simple_id := "sha256:aaaa";
           ImageService.simple_name := "quay.io/podman/hello:latest";
           ImageService.simple_connection :=
             {| ImageService.identifier_providerId := "podman";
                ImageService.identifier_name := "machine" |} |};
        {| ImageService.simple_id := "sha256:cccc";
           ImageService.simple_name := "quay.io/podman/stable:v5";
           ImageService.simple_connection :=
             {| ImageService.identifier_providerId := "podman";
                ImageService.identifier_name := "machine" |} |}].
Proof.
  destruct (all_lists_the_tagged_images Desk.engines "quay.io" "podman" Sample.machine
              _ eq_refl) as (out & Hrun & Hout & _).
  rewrite Hrun, Hout. reflexivity.
Defined.

(** ** Podman connections *)

Lemma exec_run (p : PodmanService.podman) (args : list string)
    (c : option ProviderContainerConnection) (s : PodmanService.service) :
  PodmanService.exec p args c s
  = if PodmanService.cached s || bool_decide (PodmanService.extension p = Some true) then
      (PodmanService.exec_result p args c,
       {| PodmanService.cached := true;
          PodmanService.lookups :=
            if PodmanService.cached s then PodmanService.lookups s
            else S (PodmanService.lookups s);
          PodmanService.calls :=
            PodmanService.calls s
            ++ [{| PodmanService.call_args := args; PodmanService.call_connection := c |}] |})
    else
      (Err (Error (match PodmanService.extension p with
                   | Some _ => "invalid podman extension exports"
                   | None => "podman extension not found"
                   end)),
       {| PodmanService.cached := false;
          PodmanService.lookups := S (PodmanService.lookups s);
          PodmanService.calls := PodmanService.calls s |}).
Proof.
  unfold PodmanService.exec, PodmanService.pbind, PodmanService.podmanApi,
    PodmanService.getPodmanExtension.
  destruct s as [[|] n cs]; simpl; [reflexivity |].
  destruct (PodmanService.extension p) as [[|] |]; reflexivity.
Qed.

Lemma keep_ssh_spec (items kept : list json) :
  PodmanService.keep_ssh items = Ok kept ->
  Forall ssh_connection kept /\ sublist kept items.
Proof.
  revert kept. induction items as [| c rest IH]; intros kept Hrun.
  - inversion Hrun. split; constructor.
  - cbn [PodmanService.keep_ssh] in Hrun. unfold rbind in Hrun.
    destruct (PodmanService.is_ssh c) as [keep |] eqn:Hc; [| discriminate].
    destruct (PodmanService.keep_ssh rest) as [others |]; [| discriminate].
    destruct (IH others eq_refl) as [Hall Hsub].
    inversion Hrun; subst kept. destruct keep.
    + split; [constructor; [| exact Hall] | apply sublist_skip; exact Hsub].
      unfold PodmanService.is_ssh in Hc.
      destruct c as [| | | | | props]; try discriminate.
      destruct (Zod.prop "URI" props) as [[| | | uri | |] |] eqn:Huri; try discriminate.
      inversion Hc. exists props, uri. repeat split; assumption.
    + split; [exact Hall | apply sublist_cons; exact Hsub].
Qed.

Lemma podman_connections_run :
  forall (h : host) (p : PodmanService.podman) (s s' : PodmanService.service)
         (connections : list json),
    PodmanService.getPodmanConnections h p s = (Ok connections, s') ->
    Forall ssh_connection connections
    /\ PodmanService.calls s' = PodmanService.calls s ++ [listing_call]
    /\ exists stdout items,
         PodmanService.exec_result p ["system"; "connection"; "ls"; "--format=json"] None
         = Ok stdout
         /\ JSON_parse h stdout = Ok (JArr items)
         /\ sublist connections items.
Proof.
  intros h p s s' connections.
  unfold PodmanService.getPodmanConnections. unfold PodmanService.pbind at 1.
  rewrite exec_run.
  destruct (PodmanService.cached s || bool_decide (PodmanService.extension p = Some true));
    [| discriminate].
  destruct (PodmanService.exec_result p _ None) as [stdout |] eqn:Hexec; [| discriminate].
  unfold rbind.
  destruct (JSON_parse h stdout) as [[| | | | items |] |] eqn:Hparse; try discriminate.
  intros H. injection H as Hkeep Hs. subst s'.
  destruct (keep_ssh_spec items connections Hkeep) as [Hall Hsub].
  split; [exact Hall | split; [reflexivity |]].
  exists stdout, items. repeat split; assumption.
Qed.

(** X26. The connections that [getPodmanConnections] returns are
    entries of the array printed by [podman system connection ls
    --format=json], in the order printed, and each of them is an object
    whose URI is a string starting with "ssh:"; producing them takes
    that one call of podman. *)
Theorem podman_connections_are_ssh :
  forall (h : host) (p : PodmanService.podman) (s s' : PodmanService.service)
         (connections : list json),
    PodmanService.getPodmanConnections h p s = (Ok connections, s') ->
    Forall ssh_connection connections
    /\ PodmanService.calls s' = PodmanService.calls s ++ [listing_call]
    /\ exists stdout items,
         PodmanService.exec_result p ["system"; "connection"; "ls"; "--format=json"] None
         = Ok stdout
         /\ JSON_parse h stdout = Ok (JArr items)
         /\ sublist connections items.
Proof.
  intros h p s s' connections Hrun.
  exact (podman_connections_run h p s s' connections Hrun).
Qed.

Lemma podman_connections_are_ssh_witness :
  (PodmanService.getPodmanConnections Machines.parsing
     (Machines.podman_with "false" "<listing>") Machines.fresh).1
  = Ok [Machines.machine_ssh; Machines.machine_root]
  /\ Forall ssh_connection [Machines.machine_ssh; Machines.machine_root].
Proof.
  split; [reflexivity |].
  apply (podman_connections_are_ssh Machines.parsing
           (Machines.podman_with "false" "<listing>") Machines.fresh
           (PodmanService.getPodmanConnections Machines.parsing
              (Machines.podman_with "false" "<listing>") Machines.fresh).2).
  reflexivity.
Defined.

(** X27. With the podman extension at hand, a listing that parses to
    anything but an array is refused with "malformed output for podman
    system connection ls command."; a listing with an entry that has no
    string URI makes the whole call fail with a TypeError, also when the
    other entries are ssh connections. *)
Theorem podman_listing_failures :
  forall (h : host) (p : PodmanService.podman) (s : PodmanService.service)
         (stdout : string) (value : json),
    PodmanService.extension p = Some true ->
    PodmanService.exec_result p ["system"; "connection"; "ls"; "--format=json"] None
    = Ok stdout ->
    JSON_parse h stdout = Ok value ->
    match value with
    | JArr items =>
        forall bad, bad ∈ items ->
                    PodmanService.is_ssh bad = Err (HostError "TypeError") ->
                    (PodmanService.getPodmanConnections h p s).1 = Err (HostError "TypeError")
    | _ =>
        (PodmanService.getPodmanConnections h p s).1
        = Err (Error "malformed output for podman system connection ls command.")
    end.
Proof.
  intros h p s stdout value Hext Hexec Hparse.
  assert (Hrun : (PodmanService.getPodmanConnections h p s).1
                 = match value with
                   | JArr items => PodmanService.keep_ssh items
                   | _ => Err (Error "malformed output for podman system connection ls command.")
                   end).
  { unfold PodmanService.getPodmanConnections. unfold PodmanService.pbind at 1.
    rewrite exec_run, Hext. rewrite bool_decide_true by reflexivity.
    rewrite orb_true_r, Hexec. simpl. rewrite Hparse. reflexivity. }
  rewrite Hrun. destruct value as [| | | | items |]; try reflexivity.
  intros bad Hin Hbad. clear Hrun Hparse.
  induction items as [| c rest IH]; [inversion Hin |].
  cbn [PodmanService.keep_ssh]. unfold rbind.
  apply elem_of_cons in Hin as [<- | Hin].
  - rewrite Hbad. reflexivity.
  - destruct (PodmanService.is_ssh c) as [keep | err] eqn:Hc.
    + rewrite (IH Hin). reflexivity.
    + unfold PodmanService.is_ssh in Hc.
      destruct c as [| | | | | props]; try (inversion Hc; reflexivity).
      destruct (Zod.prop "URI" props) as [[| | | uri | |] |];
        inversion Hc; reflexivity.
Qed.

Lemma podman_listing_failures_witness :
  (PodmanService.getPodmanConnections Machines.parsing
     (Machines.podman_with "false" "{}") Machines.fresh).1
  = Err (Error "malformed output for podman system connection ls command.").
Proof.
  apply (podman_listing_failures Machines.parsing (Machines.podman_with "false" "{}")
           Machines.fresh "{}" (JObj []) eq_refl eq_refl eq_refl).
Defined.



(** X29. The podman extension is looked up when podman is first needed
    and then kept: a call made with the extension at hand leaves it
    cached, a later call does not look it up again, and after [dispose]
    the next call does.  When the extension is missing, or exports no
    [exec], the call fails with "podman extension not found" or "invalid
    podman extension exports", podman is not called and nothing is
    cached. *)
Theorem podman_extension_is_looked_up_once :
  forall (p : PodmanService.podman) (args again : list string)
         (c c' : option ProviderContainerConnection) (s : PodmanService.service),
    PodmanService.cached s = false ->
    let first := PodmanService.exec p args c s in
    match PodmanService.extension p with
    | Some true =>
        PodmanService.cached first.2 = true
        /\ PodmanService.lookups first.2 = S (PodmanService.lookups s)
        /\ PodmanService.lookups (PodmanService.exec p again c' first.2).2
           = S (PodmanService.lookups s)
        /\ PodmanService.lookups
             (PodmanService.exec p again c' (PodmanService.dispose first.2).2).2
           = S (S (PodmanService.lookups s))
    | Some false =>
        first = (Err (Error "invalid podman extension exports"),
                 {| PodmanService.cached := false;
                    PodmanService.lookups := S (PodmanService.lookups s);
                    PodmanService.calls := PodmanService.calls s |})
    | None =>
        first = (Err (Error "podman extension not found"),
                 {| PodmanService.cached := false;
                    PodmanService.lookups := S (PodmanService.lookups s);
                    PodmanService.calls := PodmanService.calls s |})
    end.
Proof.
  intros p args again c c' s Hfresh first. subst first.
  rewrite !exec_run, Hfresh.
  destruct (PodmanService.extension p) as [[|] |] eqn:Hext.
  - rewrite !bool_decide_true by reflexivity. cbn. repeat split.
  - rewrite bool_decide_false by discriminate. reflexivity.
  - rewrite bool_decide_false by discriminate. reflexivity.
Qed.

Lemma podman_extension_is_looked_up_once_witness :
  let p := Machines.podman_with "true" "<listing>" in
  let first := PodmanService.exec p ["version"] None Machines.fresh in
  PodmanService.cached Machines.fresh = false
  /\ PodmanService.lookups first.2 = 1%nat
  /\ PodmanService.lookups (PodmanService.exec p ["info"] None first.2).2 = 1%nat.
Proof.
  intros p first.
  pose proof (podman_extension_is_looked_up_once p ["version"] ["info"] None None
                Machines.fresh eq_refl) as H.
  simpl in H. destruct H as (_ & Hone & Htwo & _).
  split; [reflexivity | split; [exact Hone | exact Htwo]].
Defined.

(** ** The arguments of the analysis command *)

(** X30. The arguments of the analysis command are accepted exactly
    when they are an object whose id, engineId and arch are strings and
    whose isManifest is a boolean; what is parsed holds these four
    values and nothing else of the object. *)
Theorem command_arguments_are_checked :
  forall (args : json) (ui : CommandService.ImageInfoUI),
    CommandService.safeParse args = Ok ui
    <-> exists props,
          args = JObj props
          /\ Zod.prop "id" props = Some (JStr (CommandService.ui_id ui))
          /\ Zod.prop "engineId" props = Some (JStr (CommandService.ui_engineId ui))
          /\ Zod.prop "arch" props = Some (JStr (CommandService.ui_arch ui))
          /\ Zod.prop "isManifest" props = Some (JBool (CommandService.ui_isManifest ui)).
Proof.
  intros args ui.
  unfold CommandService.safeParse, CommandService.ImageInfoUISchema, Zod.object,
    Zod.string, CommandService.z_boolean, rbind.
  split.
  - destruct args as [| | | | | props]; try discriminate.
    destruct (Zod.prop "id" props) as [[| | | i | |] |] eqn:Hi; try discriminate.
    destruct (Zod.prop "engineId" props) as [[| | | e | |] |] eqn:He; try discriminate.
    destruct (Zod.prop "arch" props) as [[| | | a | |] |] eqn:Ha; try discriminate.
    destruct (Zod.prop "isManifest" props) as [[| m | | | |] |] eqn:Hm; try discriminate.
    intros H; inversion H; subst; simpl. exists props. repeat split; assumption.
  - intros (props & -> & -> & -> & -> & ->). destruct ui; reflexivity.
Qed.

Lemma command_arguments_are_checked_witness :
  CommandService.safeParse
    (JObj [("id", JStr "sha256:abcd1234"); ("engineId", JStr "podman.machine");
           ("arch", JStr "arm64"); ("isManifest", JBool false); ("size", JNum "1024")])
  = Ok {| CommandService.ui_id := "sha256:abcd1234";
          CommandService.ui_engineId := "podman.machine";
          CommandService.ui_arch := "arm64";
          CommandService.ui_isManifest := false |}.
Proof.
  apply (command_arguments_are_checked _
           {| CommandService.ui_id := "sha256:abcd1234";
              CommandService.ui_engineId := "podman.machine";
              CommandService.ui_arch := "arm64";
              CommandService.ui_isManifest := false |}).
  eexists. repeat split.
Defined.
